(** * Payment verification and replay protection of dune_mcp

    A shallow embedding of the two payment gates of the repository and of the
    services they call:

    - [SimplePaymentTracker] and [validateSOLPayment]
      (services/simplePaymentTracker.ts, middleware/simplePaymentMiddleware.ts),
      the gate the routes mount;
    - [PaymentTracker] and [validatePaymentMiddleware]
      (services/paymentTracker.ts, middleware/paymentMiddleware.ts).

    Around them: [validateUSDCPayment] and [enrichResponseWithPayment] of the
    same middleware files, [validateSolanaQuery] (services/duneService.ts)
    the paid query routes (routes/queryRoutes.ts) up to their call to Dune,
    and the defaults of config/index.ts.

    Every [await] on the database or on the Solana RPC client is an operation
    of a small free monad [Prog]; the same program text is then run either
    sequentially ([run]) or interleaved with other requests ([interleave]).
    The [payment_signatures] table (database/schema.sql) is a finite map keyed
    by [signature], its UNIQUE column.

    The table has the columns and the checks of the schema: the BIGINT,
    INTEGER and VARCHAR ranges, the INET input, the defaults of
    [first_used_at], [usage_count], [created_at] and [updated_at], and the
    trigger that sets [updated_at] on every UPDATE. Public keys are base58
    texts, decoded as [new PublicKey] does. A lamport balance is the integer
    the node sends, read as the nearest binary64 number; amounts in SOL are
    binary64 numbers, as in the source.

    What the model leaves out: the [console.log] lines; the grammar of inet
    values, which is left to the environment except that a text with a
    character outside an inet literal is refused; the truncation of trailing
    spaces by VARCHAR columns. *)

From Stdlib Require Import ZArith Lia PrimFloat FloatOps SpecFloat.
From stdpp Require Import base option list gmap strings pretty.

Set Warnings "-inexact-float".

Open Scope string_scope.
Open Scope list_scope.
Open Scope Z_scope.

(** ** JavaScript numbers *)

Module Js.

(** A JS [number] is an IEEE binary64 value. *)
Abbreviation number := float.

(** A number read from an integer numeral (a lamport balance of the RPC
    reply, parsed by [JSON.parse]): the nearest binary64 value, ties to
    even. *)
Definition number_of_Z (z : Z) : number :=
  SF2Prim (binary_normalize prec emax z 0 false).

(** [Math.floor x] as an integer; [None] for NaN and the infinities, where
    [BigInt(Math.floor(x))] raises a RangeError. *)
Definition Math_floor (x : number) : option Z :=
  match Prim2SF x with
  | S754_zero _ => Some 0
  | S754_finite s m e =>
      let v := if s then Z.neg m else Z.pos m in
      Some (if 0 <=? e then v * 2 ^ e else v / 2 ^ (- e))
  | _ => None
  end.

(** [1e9], the number of lamports in one SOL. *)
Definition LAMPORTS : number := 1e9%float.

(** Truthiness of a string: [!s] holds for [undefined] and for the empty
    string. *)
Definition truthy (s : option string) : bool :=
  match s with
  | Some s => negb (String.eqb s "")
  | None => false
  end.

(** [o] is neither [undefined] nor [null]. *)
Definition defined {A} (o : option A) : bool :=
  match o with
  | Some _ => true
  | None => false
  end.

(** [a || b] on strings. *)
Definition or_else (a : option string) (b : string) : string :=
  match a with
  | Some s => if String.eqb s "" then b else s
  | None => b
  end.

(** A template literal: literal chunks and interpolated values. *)
Inductive Piece :=
| Str (s : string)
| Num (x : number)
| Big (z : Z).

Definition Text := list Piece.

(** A thrown [Error]. The unique-constraint violation of the driver is told
    apart from any other failure. *)
Inductive Error :=
| UniqueViolation
| Failure (msg : string).

(** A text between double quotes. *)
Definition quoted (s : string) : string :=
  String (Ascii.ascii_of_nat 34) (s ++ String (Ascii.ascii_of_nat 34) "").

(** The message of the driver for a second row with the same [signature]:
    it names the constraint that schema.sql creates for the UNIQUE column. *)
Definition unique_violation_message : string :=
  Eval vm_compute in
    ("duplicate key value violates unique constraint "
     ++ quoted "payment_signatures_signature_key").

Definition message (e : Error) : string :=
  match e with
  | UniqueViolation => unique_violation_message
  | Failure msg => msg
  end.

(** How a number that is not finite prints. *)
Definition non_finite_text (x : number) : string :=
  match Prim2SF x with
  | S754_infinity false => "Infinity"
  | S754_infinity true => "-Infinity"
  | _ => "NaN"
  end.

(** The RangeError of [BigInt(x)] for an [x] that is not an integer. *)
Definition BigInt_RangeError (x : number) : Error :=
  Failure ("The number " ++ non_finite_text x
           ++ " cannot be converted to a BigInt because it is not an integer").

Inductive Outcome (A : Type) :=
| Returned (a : A)
| Thrown (e : Error).
Arguments Returned {A} a.
Arguments Thrown {A} e.

End Js.
Import Js.

(** ** Data model *)

Module Db.

(** A row of [payment_signatures] (database/schema.sql). *)
Record Row := {
  id : Z;
  signature : string;
  network : string;
  amount : Z;
  asset : string;
  sender_address : string;
  receiver_address : string;
  api_endpoint : string;
  block_time : option Z;
  first_used_at : Z;
  usage_count : Z;
  ip_address : option string;
  user_agent : option string;
  created_at : Z;
  updated_at : Z
}.

(** The values an INSERT supplies. A column left to its default is [None]:
    [first_used_at DEFAULT NOW()], [usage_count DEFAULT 1]. [ins_amount] is
    the integer whose numeral is sent for the BIGINT column, or the text sent
    when the number is not finite. (A number of 1e21 or more prints with an
    exponent; it is beyond BIGINT and refused all the same.) *)
Record InsertValues := {
  ins_signature : string;
  ins_network : string;
  ins_amount : Z + string;
  ins_asset : string;
  ins_sender_address : string;
  ins_receiver_address : string;
  ins_api_endpoint : string;
  ins_block_time : option Z;
  ins_first_used_at : option Z;
  ins_usage_count : option Z;
  ins_ip_address : option string;
  ins_user_agent : option string
}.

(** The three statements the trackers send. *)
Inductive Sql :=
| SelectBySignature (sig : string)
| InsertSignature (v : InsertValues)
| IncrementUsage (sig : string).

(** The largest INTEGER and the range of BIGINT. *)
Definition INTEGER_MAX : Z := 2147483647.
Definition BIGINT_MIN : Z := - 9223372036854775808.
Definition BIGINT_MAX : Z := 9223372036854775807.

(** [usage_count = usage_count + 1], and [updated_at] as the trigger
    [update_payment_signatures_updated_at] sets it BEFORE UPDATE. *)
Definition bump_usage (now : Z) (r : Row) : Row :=
  {| id := id r; signature := signature r; network := network r;
     amount := amount r; asset := asset r;
     sender_address := sender_address r;
     receiver_address := receiver_address r;
     api_endpoint := api_endpoint r; block_time := block_time r;
     first_used_at := first_used_at r;
     usage_count := usage_count r + 1;
     ip_address := ip_address r; user_agent := user_agent r;
     created_at := created_at r; updated_at := now |}.

Definition new_row (i now amt : Z) (v : InsertValues) : Row :=
  {| id := i; signature := ins_signature v; network := ins_network v;
     amount := amt; asset := ins_asset v;
     sender_address := ins_sender_address v;
     receiver_address := ins_receiver_address v;
     api_endpoint := ins_api_endpoint v; block_time := ins_block_time v;
     first_used_at := default now (ins_first_used_at v);
     usage_count := default 1 (ins_usage_count v);
     ip_address := ins_ip_address v; user_agent := ins_user_agent v;
     created_at := now; updated_at := now |}.

(** The characters of an inet literal: digits, hexadecimal letters, [.], [:]
    and [/]. A text with any other character is no inet value; which of the
    remaining texts PostgreSQL reads as an address is left to the
    environment. *)
Definition inet_char (c : Ascii.ascii) : bool :=
  let n := Ascii.nat_of_ascii c in
  ((46 <=? n) && (n <=? 58) || (65 <=? n) && (n <=? 70)
   || (97 <=? n) && (n <=? 102))%nat.

Fixpoint inet_chars (s : string) : bool :=
  match s with
  | EmptyString => true
  | String c s => inet_char c && inet_chars s
  end.

(** A value too long for its [VARCHAR(n)] column. A value whose excess is
    made of spaces is truncated by PostgreSQL instead; no field of an HTTP
    request ends in a space, and the model refuses every longer value. *)
Definition too_long (n : nat) (width : string) (s : string) : option Error :=
  if (n <? String.length s)%nat then
    Some (Failure ("value too long for type character varying("
                   ++ width ++ ")"))
  else None.

(** The parameters of an INSERT are read when they are bound, before the
    statement runs: the BIGINT [amount], the INTEGER [usage_count] when it is
    sent, the INET [ip_address]. The result is the amount, or the error of
    the first parameter refused. *)
Definition bind_parameters (inet : string -> bool) (v : InsertValues)
  : Error + Z :=
  match ins_amount v with
  | inr text =>
      inl (Failure ("invalid input syntax for type bigint: " ++ quoted text))
  | inl amt =>
      if (amt <? BIGINT_MIN) || (BIGINT_MAX <? amt) then
        inl (Failure ("value " ++ quoted (pretty amt)
                      ++ " is out of range for type bigint"))
      else
        let n := default 1 (ins_usage_count v) in
        if (n <? - INTEGER_MAX - 1) || (INTEGER_MAX <? n) then
          inl (Failure ("value " ++ quoted (pretty n)
                        ++ " is out of range for type integer"))
        else
          match ins_ip_address v with
          | Some a =>
              if inet_chars a && inet a then inr amt
              else inl (Failure ("invalid input syntax for type inet: "
                                 ++ quoted a))
          | None => inr amt
          end
  end.

(** The VARCHAR columns, checked in the order of the table while the row is
    built. *)
Definition row_error (v : InsertValues) : option Error :=
  match too_long 88 "88" (ins_signature v) with
  | Some e => Some e
  | None =>
  match too_long 20 "20" (ins_network v) with
  | Some e => Some e
  | None =>
  match too_long 100 "100" (ins_asset v) with
  | Some e => Some e
  | None =>
  match too_long 100 "100" (ins_sender_address v) with
  | Some e => Some e
  | None =>
  match too_long 100 "100" (ins_receiver_address v) with
  | Some e => Some e
  | None => too_long 500 "500" (ins_api_endpoint v)
  end end end end end.

Arguments bind_parameters : simpl never.
Arguments row_error : simpl never.

(** The parameters are read and the row is built without an error: what is
    left to decide is the UNIQUE constraint. *)
Definition accepts (inet : string -> bool) (v : InsertValues) : bool :=
  match bind_parameters inet v with
  | inr _ =>
      match row_error v with
      | None => true
      | Some _ => false
      end
  | inl _ => false
  end.

(** One statement against the table: the rows returned or the error raised,
    the table afterwards and the next value of the [id] sequence. An INSERT
    whose parameters are refused leaves the sequence alone; one that fails
    later (a value too long, the UNIQUE constraint) has drawn its [id]. The
    UPDATE fails when [usage_count] would leave the INTEGER range. *)
Definition exec_sql (inet : string -> bool) (now : Z) (q : Sql)
    (t : gmap string Row) (i : Z)
  : Outcome (list Row) * gmap string Row * Z :=
  match q with
  | SelectBySignature sig =>
      (Returned (option_list (t !! sig)), t, i)
  | InsertSignature v =>
      match bind_parameters inet v with
      | inl e => (Thrown e, t, i)
      | inr amt =>
          match row_error v with
          | Some e => (Thrown e, t, i + 1)
          | None =>
              match t !! ins_signature v with
              | Some _ => (Thrown UniqueViolation, t, i + 1)
              | None =>
                  let r := new_row i now amt v in
                  (Returned [r], <[ins_signature v := r]> t, i + 1)
              end
          end
      end
  | IncrementUsage sig =>
      match t !! sig with
      | Some r =>
          if INTEGER_MAX <=? usage_count r then
            (Thrown (Failure "integer out of range"), t, i)
          else (Returned [], <[sig := bump_usage now r]> t, i)
      | None => (Returned [], t, i)
      end
  end.

End Db.

(** ** The RPC client (@solana/web3.js) *)

Module Solana.

Inductive Commitment := confirmed | finalized.

(** What the gates read of an RPC transaction reply. *)
Record TxMeta := {
  err : option string;
  preBalances : list Z;
  postBalances : list Z
}.

(** [addressTableLookups] is the number of address-table lookups of a
    version-0 message; a legacy message has none. The account keys are
    written in base58, as [toBase58] prints them. *)
Record TxInfo := {
  meta : option TxMeta;
  staticAccountKeys : list string;
  addressTableLookups : nat;
  blockTime : option Z
}.

(** *** Base58, as [bs58.decode] reads a public key *)

Definition alphabet : string :=
  "123456789ABCDEFGHJKLMNPQRSTUVWXYZabcdefghijkmnopqrstuvwxyz".

Fixpoint digit_from (c : Ascii.ascii) (letters : string) (i : Z) : option Z :=
  match letters with
  | EmptyString => None
  | String d letters =>
      if Ascii.eqb c d then Some i else digit_from c letters (i + 1)
  end.

Fixpoint digits (s : string) : option (list Z) :=
  match s with
  | EmptyString => Some []
  | String c s =>
      match digit_from c alphabet 0, digits s with
      | Some d, Some ds => Some (d :: ds)
      | _, _ => None
      end
  end.

(** Each leading [1] stands for a zero byte; the rest is a number in base
    58, written in as few bytes as it needs. *)
Fixpoint leading_zeros (ds : list Z) : nat :=
  match ds with
  | 0 :: ds => S (leading_zeros ds)
  | _ => O
  end.

Definition value (ds : list Z) : Z :=
  fold_left (fun acc d => acc * 58 + d) ds 0.

Definition byte_length (z : Z) : nat :=
  if z <=? 0 then O else Z.to_nat (Z.log2 z / 8 + 1).

Definition decoded_length (ds : list Z) : nat :=
  (leading_zeros ds + byte_length (value ds))%nat.

(** What [new PublicKey(s)] raises, if anything: the text must decode to 32
    bytes. *)
Definition PublicKey_error (s : string) : option Error :=
  match digits s with
  | None => Some (Failure "Non-base58 character")
  | Some ds =>
      if (decoded_length ds =? 32)%nat then None
      else Some (Failure "Invalid public key input")
  end.
Arguments PublicKey_error : simpl never.

(** What [message.getAccountKeys()] raises when called without the accounts
    of the lookup tables. *)
Definition lookups_not_resolved : Error :=
  Failure
    "Failed to get account keys because address table lookups were not resolved".

(** What [getAccountKeys().keySegments.flat()] raises: [keySegments] is a
    method of [MessageAccountKeys]; read without being called it is a
    function, which has no [flat]. *)
Definition keySegments_flat_not_a_function : Error :=
  Failure
    "txInfo.transaction.message.getAccountKeys(...).keySegments.flat is not a function".

End Solana.
Import Solana.

(** The two entries of config/index.ts the gates read: [config.nodeEnv] and
    [config.solana.receiverAddress]. *)

Record Config := {
  nodeEnv : string;
  solana_receiverAddress : string
}.

(** ** Effects *)

(** The external calls of the gates. *)
Inductive Op :=
| PoolConnect
| Query (q : Db.Sql)
| ClientRelease
| GetTransaction (sig : string) (c : Commitment)
| SetTimeout (ms : Z)
| NewDate.

Definition Reply (o : Op) : Type :=
  match o with
  | PoolConnect => unit
  | Query _ => list Db.Row
  | ClientRelease => unit
  | GetTransaction _ _ => option TxInfo
  | SetTimeout _ => unit
  | NewDate => Z
  end.

Inductive Prog (A : Type) : Type :=
| Ret (a : A)
| Throw (e : Error)
| Await (o : Op) (k : Outcome (Reply o) -> Prog A).
Arguments Ret {A} a.
Arguments Throw {A} e.
Arguments Await {A} o k.

Fixpoint bind {A B} (p : Prog A) (f : A -> Prog B) : Prog B :=
  match p with
  | Ret a => f a
  | Throw e => Throw e
  | Await o k => Await o (fun r => bind (k r) f)
  end.

(** [try { p } catch (e) { h e }] *)
Fixpoint try_catch {A} (p : Prog A) (h : Error -> Prog A) : Prog A :=
  match p with
  | Ret a => Ret a
  | Throw e => h e
  | Await o k => Await o (fun r => try_catch (k r) h)
  end.

(** [try { p } finally { f }] *)
Fixpoint try_finally {A} (p : Prog A) (f : Prog unit) : Prog A :=
  match p with
  | Ret a => bind f (fun _ => Ret a)
  | Throw e => bind f (fun _ => Throw e)
  | Await o k => Await o (fun r => try_finally (k r) f)
  end.

(** [await o]: the value, or the exception rethrown. *)
Definition await (o : Op) : Prog (Reply o) :=
  Await o (fun r => match r with Returned x => Ret x | Thrown e => Throw e end).

Notation "'let!' x ':=' p 'in' q" := (bind p (fun x => q))
  (at level 10, x pattern, p at level 100, q at level 200, only parsing).
Notation "'do!' p 'in' q" := (bind p (fun _ => q))
  (at level 10, p at level 100, q at level 200, only parsing).

(** ** The world the calls act on *)

Record Call := {
  call_op : Op;
  call_threw : option Error
}.

Record World := {
  table : gmap string Db.Row;
  next_id : Z;
  ticks : nat;
  log : list Call
}.

(** What lies outside the program: which storage calls fail, what the RPC
    node answers, and the wall clock, each a function of the number of calls
    made so far; and which texts PostgreSQL reads as an inet value. *)
Record Env := {
  db_fault : nat -> option string;
  rpc : nat -> Commitment -> string -> Outcome (option TxInfo);
  wall_clock : nat -> Z;
  inet : string -> bool
}.

Definition outcome_error {A} (r : Outcome A) : option Error :=
  match r with
  | Returned _ => None
  | Thrown e => Some e
  end.

Definition logged (o : Op) (threw : option Error) (t : gmap string Db.Row)
    (i : Z) (w : World) : World :=
  {| table := t; next_id := i; ticks := S (ticks w);
     log := log w ++ [ {| call_op := o; call_threw := threw |} ] |}.

Definition exec (env : Env) (o : Op) (w : World)
  : Outcome (Reply o) * World :=
  match o as o' return Outcome (Reply o') * World with
  | PoolConnect =>
      match db_fault env (ticks w) with
      | Some m => (Thrown (Failure m),
                   logged PoolConnect (Some (Failure m)) (table w) (next_id w) w)
      | None => (Returned tt, logged PoolConnect None (table w) (next_id w) w)
      end
  | Query q =>
      match db_fault env (ticks w) with
      | Some m => (Thrown (Failure m),
                   logged (Query q) (Some (Failure m)) (table w) (next_id w) w)
      | None =>
          let '(r, t, i) :=
            Db.exec_sql (inet env) (wall_clock env (ticks w)) q
              (table w) (next_id w) in
          (r, logged (Query q) (outcome_error r) t i w)
      end
  | ClientRelease =>
      (Returned tt, logged ClientRelease None (table w) (next_id w) w)
  | GetTransaction sig c =>
      let r := rpc env (ticks w) c sig in
      (r, logged (GetTransaction sig c) (outcome_error r)
            (table w) (next_id w) w)
  | SetTimeout ms =>
      (Returned tt, logged (SetTimeout ms) None (table w) (next_id w) w)
  | NewDate =>
      (Returned (wall_clock env (ticks w)),
       logged NewDate None (table w) (next_id w) w)
  end.

(** One request run to its end with nothing else in between. *)
Fixpoint run {A} (env : Env) (p : Prog A) (w : World) : Outcome A * World :=
  match p with
  | Ret a => (Returned a, w)
  | Throw e => (Thrown e, w)
  | Await o k => let '(r, w') := exec env o w in run env (k r) w'
  end.

(** Several requests in flight. Each has the calls it made so far and the
    code it still has to run. A request is suspended at a call and resumed
    with its answer; the code between two calls runs without interruption, as
    on the single thread of Node. [client.release()] and [new Date()] do not
    suspend in the source; letting the scheduler switch there as well only
    adds schedules. *)
Record Task (A : Type) := {
  history : list Call;
  code : Prog A
}.
Arguments history {A} t.
Arguments code {A} t.

Definition spawn {A} (p : Prog A) : Task A := {| history := []; code := p |}.

(** The scheduler resumes request [i] for one call. A request that has
    finished, or an index out of range, is a no-op. *)
Definition resume {A} (env : Env) (i : nat) (st : World * list (Task A))
  : World * list (Task A) :=
  match st.2 !! i with
  | Some {| history := h; code := Await o k |} =>
      let '(r, w') := exec env o st.1 in
      (w', <[i := {| history :=
                       h ++ [ {| call_op := o; call_threw := outcome_error r |} ];
                     code := k r |}]> st.2)
  | _ => st
  end.

Definition interleave {A} (env : Env) (schedule : list nat)
    (st : World * list (Task A)) : World * list (Task A) :=
  foldl (fun st i => resume env i st) st schedule.

Definition finished {A} (p : Prog A) : bool :=
  match p with
  | Await _ _ => false
  | _ => true
  end.

(** ** The account keys of a transaction *)

(** [message.getAccountKeys()], called without arguments: the static keys of
    the message, or an exception when the message has address-table
    lookups. *)
Definition getAccountKeys (tx : TxInfo) : Prog (list string) :=
  if (0 <? addressTableLookups tx)%nat then Throw lookups_not_resolved
  else Ret (staticAccountKeys tx).

(** [message.getAccountKeys().keySegments.flat()], as services/paymentTracker.ts
    writes it: once the keys are there, the call of [flat] raises. *)
Definition keySegments_flat (tx : TxInfo) : Prog (list string) :=
  let! keys := getAccountKeys tx in
  Throw keySegments_flat_not_a_function.

(** [new PublicKey(s)] *)
Definition new_PublicKey (s : string) : Prog string :=
  match PublicKey_error s with
  | Some e => Throw e
  | None => Ret s
  end.

(** ** HTTP requests *)

Record Request := {
  headers : gmap string string;
  ip : option string;
  remoteAddress : option string
}.

(** [accounts.indexOf(x)], [None] for -1. *)
Fixpoint indexOf (l : list string) (x : string) : option nat :=
  match l with
  | [] => None
  | y :: l => if y =? x then Some 0%nat else S <$> indexOf l x
  end%string.

(** ** services/simplePaymentTracker.ts *)

Module SimplePaymentTracker.

Definition isSignatureUsed (signature : string) : Prog bool :=
  try_catch
    (let! res := await (Query (Db.SelectBySignature signature)) in
     Ret (0 <? length res)%nat)
    (fun _ => Ret false).

(** The nine parameters of the INSERT of [recordPayment]. *)
Definition values (signature : string) (amount : number)
    (currency ipAddress userAgent endpointPath : string) : Db.InsertValues :=
  {| Db.ins_signature := signature;
     Db.ins_network := "solana";
     Db.ins_amount :=
       match Math_floor (amount * LAMPORTS)%float with
       | Some lamports => inl lamports
       | None => inr (non_finite_text (amount * LAMPORTS)%float)
       end;
     Db.ins_asset := currency;
     Db.ins_sender_address :=
       "HKc1p8QY1XquJXEkQ5Qep9CqU3nnpTa7A9YA32jTfWA5";
     Db.ins_receiver_address :=
       "FwJ3yH7AxZjxveFmbK74ZdLp6EaaLLoRffhiKVP3VX98";
     Db.ins_api_endpoint := endpointPath;
     Db.ins_block_time := None;
     Db.ins_first_used_at := None;
     Db.ins_usage_count := None;
     Db.ins_ip_address := Some ipAddress;
     Db.ins_user_agent := Some userAgent |}.

Definition recordPayment (signature : string) (amount : number)
    (currency ipAddress userAgent endpointPath : string) : Prog unit :=
  try_catch
    (let! _ := await (Query (Db.InsertSignature
       (values signature amount currency ipAddress userAgent endpointPath))) in
     Ret tt)
    (fun _ => Ret tt).

Definition recordReplayAttempt (signature ipAddress userAgent : string)
  : Prog unit :=
  try_catch
    (let! _ := await (Query (Db.IncrementUsage signature)) in Ret tt)
    (fun _ => Ret tt).

End SimplePaymentTracker.

(** ** middleware/simplePaymentMiddleware.ts *)

Module SimplePaymentMiddleware.

Record Locals := {
  paymentVerified : bool;
  paymentType : string;
  paymentAmount : number;
  paymentSignature : string
}.

Inductive Response :=
| Next (locals : option Locals)
| PaymentRequired (receiver_address : string) (amount_sol : number)
| Json (status : Z) (error : Text) (message : Text).

Definition maxAttempts : nat := 2.

(** The [while (!transaction && attempts < maxAttempts)] loop of
    [validateSOLPayment], by recursion on [maxAttempts - attempts]; the result
    is [transaction] as the loop leaves it. *)
Fixpoint lookupTransaction (signature : string) (remaining : nat)
  : Prog (option TxInfo) :=
  match remaining with
  | O => Ret None
  | S remaining =>
      let! transaction := await (GetTransaction signature confirmed) in
      let! transaction :=
        match transaction with
        | None => await (GetTransaction signature finalized)
        | Some _ => Ret transaction
        end in
      match transaction with
      | Some _ => Ret transaction
      | None =>
          do! (if (0 <? remaining)%nat then await (SetTimeout 1000)
               else Ret tt) in
          lookupTransaction signature remaining
      end
  end.

(** [solReceived] of [validateSOLPayment]: the receiver's gain converted to
    SOL, a missing balance read as 0 ([|| 0]). *)
Definition solReceived (m : TxMeta) (receiverIndex : nat) : number :=
  let preBalance := default 0 (preBalances m !! receiverIndex) in
  let postBalance := default 0 (postBalances m !! receiverIndex) in
  ((number_of_Z postBalance - number_of_Z preBalance) / LAMPORTS)%float.
Arguments solReceived : simpl never.

(** The loop over [accountKeys] with [equals] is [indexOf]: the keys are
    written in base58, and two texts that decode to the same 32 bytes are
    the same text. *)
Definition validateSOLPayment (config : Config) (expectedAmountSol : number)
    (endpointPath : string) (req : Request) : Prog Response :=
  if (nodeEnv config =? "development")%string then Ret (Next None)
  else
    let signature := headers req !! "x-payment-signature" in
    if negb (truthy signature) then
      Ret (PaymentRequired (solana_receiverAddress config) expectedAmountSol)
    else
      let signature := default "" signature in
      try_catch
        (let! isUsed := SimplePaymentTracker.isSignatureUsed signature in
         if isUsed then
           do! SimplePaymentTracker.recordReplayAttempt signature
                 (or_else (ip req) "unknown")
                 (or_else (headers req !! "user-agent") "unknown") in
           Ret (Json 409
                  [Str "Payment signature already used (replay attack prevented)"]
                  [Str "Each payment can only be used once. Please make a new payment."])
         else
           let! transaction := lookupTransaction signature maxAttempts in
           match transaction with
           | None =>
               Ret (Json 400
                      [Str "Transaction not found or not confirmed"]
                      [Str "Please wait for transaction confirmation or check the signature."])
           | Some transaction =>
               match meta transaction with
               | Some m =>
                   if defined (err m) then
                     Ret (Json 400
                            [Str "Transaction failed on blockchain"]
                            [Str "The provided transaction failed. Please make a successful payment."])
                   else
                     let! receiverPublicKey :=
                       new_PublicKey (solana_receiverAddress config) in
                     let! accountKeys := getAccountKeys transaction in
                     match indexOf accountKeys receiverPublicKey with
                     | None =>
                         Ret (Json 400
                                [Str "Payment not sent to correct address"]
                                [Str "Payment must be sent to: ";
                                 Str (solana_receiverAddress config)])
                     | Some receiverIndex =>
                         let solReceived := solReceived m receiverIndex in
                         if (solReceived <? expectedAmountSol)%float then
                           Ret (Json 400
                                  [Str "Insufficient payment amount. Expected ";
                                   Num expectedAmountSol;
                                   Str " SOL, received ";
                                   Num solReceived; Str " SOL"]
                                  [Str "Please send at least ";
                                   Num expectedAmountSol;
                                   Str " SOL to complete the payment."])
                         else
                           do! SimplePaymentTracker.recordPayment signature
                                 solReceived "SOL"
                                 (or_else (ip req) "unknown")
                                 (or_else (headers req !! "user-agent") "unknown")
                                 endpointPath in
                           Ret (Next (Some
                                  {| paymentVerified := true;
                                     paymentType := "SOL";
                                     paymentAmount := solReceived;
                                     paymentSignature := signature |}))
                     end
               | None =>
                   Ret (Json 400
                          [Str "Transaction failed on blockchain"]
                          [Str "The provided transaction failed. Please make a successful payment."])
               end
           end)
        (fun _ =>
           Ret (Json 500
                  [Str "Payment verification failed"]
                  [Str "Internal error verifying payment. Please try again."])).

End SimplePaymentMiddleware.

(** ** services/paymentTracker.ts *)

Module PaymentTracker.

Record PaymentRecord := {
  id : option Z;
  signature : string;
  network : string;
  amount : Z;
  asset : string;
  senderAddress : string;
  receiverAddress : string;
  apiEndpoint : string;
  blockTime : option Z;
  firstUsedAt : Z;
  usageCount : Z;
  ipAddress : option string;
  userAgent : option string
}.

Record PaymentValidationResult := {
  isValid : bool;
  isFirstUse : bool;
  error : option Text;
  paymentRecord : option PaymentRecord
}.

(** The object [validateOnBlockchain] resolves to. *)
Record TransactionInfo := {
  tx_isValid : bool;
  tx_error : option Text;
  tx_amount : option Z;
  tx_asset : option string;
  tx_senderAddress : option string;
  tx_receiverAddress : option string;
  tx_blockTime : option Z
}.

Definition invalid_tx (msg : Text) : TransactionInfo :=
  {| tx_isValid := false; tx_error := Some msg; tx_amount := None;
     tx_asset := None; tx_senderAddress := None;
     tx_receiverAddress := None; tx_blockTime := None |}.

(** The mapping of a result row to a [PaymentRecord], shared by
    [getPaymentRecord] and [recordPayment]. *)
Definition record_of_row (row : Db.Row) : PaymentRecord :=
  {| id := Some (Db.id row);
     signature := Db.signature row;
     network := Db.network row;
     amount := Db.amount row;
     asset := Db.asset row;
     senderAddress := Db.sender_address row;
     receiverAddress := Db.receiver_address row;
     apiEndpoint := Db.api_endpoint row;
     blockTime := Db.block_time row;
     firstUsedAt := Db.first_used_at row;
     usageCount := Db.usage_count row;
     ipAddress := Db.ip_address row;
     userAgent := Db.user_agent row |}.

Definition getPaymentRecord (signature : string)
  : Prog (option PaymentRecord) :=
  let! client := await PoolConnect in
  try_finally
    (let! rows := await (Query (Db.SelectBySignature signature)) in
     match rows with
     | [] => Ret None
     | row :: _ => Ret (Some (record_of_row row))
     end)
    (await ClientRelease).

(** The first account, other than the receiver, whose balance went down. *)
Fixpoint findSender (receiver : string) (accounts : list string)
    (pre post : list Z) (i : nat) : string :=
  match accounts with
  | [] => ""
  | account :: rest =>
      match post !! i, pre !! i with
      | Some b, Some a =>
          if (b - a <? 0) && negb (account =? receiver)%string then account
          else findSender receiver rest pre post (S i)
      | _, _ => findSender receiver rest pre post (S i)
      end
  end.

(** The statements after [keySegments_flat] are those of the source; as the
    call raises, none of them runs. *)
Definition validateOnBlockchain (config : Config) (signature : string)
  : Prog TransactionInfo :=
  try_catch
    (let! txInfo := await (GetTransaction signature confirmed) in
     match txInfo with
     | None => Ret (invalid_tx [Str "Transaction not found on blockchain"])
     | Some txInfo =>
         match meta txInfo with
         | None => Ret (invalid_tx [Str "Transaction failed on blockchain"])
         | Some m =>
             if defined (err m) then
               Ret (invalid_tx [Str "Transaction failed on blockchain"])
             else
               let! accounts := keySegments_flat txInfo in
               match indexOf accounts (solana_receiverAddress config) with
               | None =>
                   Ret (invalid_tx
                          [Str "Payment not sent to expected receiver address"])
               | Some receiverIndex =>
                   match postBalances m !! receiverIndex,
                         preBalances m !! receiverIndex with
                   | Some postBalance, Some preBalance =>
                       let balanceChange := postBalance - preBalance in
                       if balanceChange <=? 0 then
                         Ret (invalid_tx
                                [Str "No positive balance change detected for receiver"])
                       else
                         let senderAddress :=
                           findSender (solana_receiverAddress config) accounts
                             (preBalances m) (postBalances m) 0 in
                         Ret {| tx_isValid := true;
                                tx_error := None;
                                tx_amount := Some balanceChange;
                                tx_asset := Some "native";
                                tx_senderAddress := Some senderAddress;
                                tx_receiverAddress :=
                                  Some (solana_receiverAddress config);
                                tx_blockTime :=
                                  match Solana.blockTime txInfo with
                                  | Some t =>
                                      if t =? 0 then None else Some (t * 1000)
                                  | None => None
                                  end |}
                   | _, _ =>
                       (* an undefined balance makes the difference NaN, and
                          BigInt(NaN) raises a RangeError *)
                       Throw (Failure
                         "The number NaN cannot be converted to a BigInt because it is not an integer")
                   end
               end
         end
     end)
    (fun error =>
       Ret (invalid_tx [Str "Blockchain validation failed: ";
                        Str (message error)])).

Definition verifyPaymentDetails (transactionInfo : TransactionInfo)
    (expectedAmount : Z) (expectedAsset : string) : bool * option Text :=
  if negb match tx_asset transactionInfo with
          | Some a => (a =? expectedAsset)%string
          | None => false
          end then
    (false, Some [Str "Wrong asset type. Expected: "; Str expectedAsset;
                  Str ", Got: "; Str (default "undefined" (tx_asset transactionInfo))])
  else if match tx_amount transactionInfo with
          | Some a => a <? expectedAmount
          | None => false
          end then
    (false, Some [Str "Insufficient payment amount. Expected: ";
                  Big expectedAmount; Str ", Got: ";
                  Big (default 0 (tx_amount transactionInfo))])
  else (true, None).

Definition recordPayment (paymentRecord : PaymentRecord)
  : Prog PaymentRecord :=
  let! client := await PoolConnect in
  try_finally
    (let! rows := await (Query (Db.InsertSignature
       {| Db.ins_signature := signature paymentRecord;
          Db.ins_network := network paymentRecord;
          Db.ins_amount := inl (amount paymentRecord);
          Db.ins_asset := asset paymentRecord;
          Db.ins_sender_address := senderAddress paymentRecord;
          Db.ins_receiver_address := receiverAddress paymentRecord;
          Db.ins_api_endpoint := apiEndpoint paymentRecord;
          Db.ins_block_time := blockTime paymentRecord;
          Db.ins_first_used_at := Some (firstUsedAt paymentRecord);
          Db.ins_usage_count := Some (usageCount paymentRecord);
          Db.ins_ip_address := ipAddress paymentRecord;
          Db.ins_user_agent := userAgent paymentRecord |})) in
     match rows with
     | row :: _ => Ret (record_of_row row)
     | [] => Throw (Failure "Cannot read properties of undefined (reading 'id')")
     end)
    (await ClientRelease).

Definition incrementUsageCount (signature : string) : Prog unit :=
  let! client := await PoolConnect in
  try_finally
    (let! _ := await (Query (Db.IncrementUsage signature)) in Ret tt)
    (await ClientRelease).

Definition validatePayment (config : Config) (signature : string)
    (expectedAmount : Z) (expectedAsset apiEndpoint : string)
    (clientIP userAgent : option string) : Prog PaymentValidationResult :=
  try_catch
    (let! existingRecord := getPaymentRecord signature in
     match existingRecord with
     | Some existingRecord =>
         do! incrementUsageCount signature in
         Ret {| isValid := false;
                isFirstUse := false;
                error := Some [Str "Payment signature already used (replay attack prevented)"];
                paymentRecord := Some existingRecord |}
     | None =>
         let! transactionInfo := validateOnBlockchain config signature in
         if negb (tx_isValid transactionInfo) then
           Ret {| isValid := false;
                  isFirstUse := true;
                  error := tx_error transactionInfo;
                  paymentRecord := None |}
         else
           let verification :=
             verifyPaymentDetails transactionInfo expectedAmount expectedAsset in
           if negb verification.1 then
             Ret {| isValid := false;
                    isFirstUse := true;
                    error := verification.2;
                    paymentRecord := None |}
           else
             let! now := await NewDate in
             let! paymentRecord := recordPayment
               {| id := None;
                  signature := signature;
                  network := "solana";
                  amount := default 0 (tx_amount transactionInfo);
                  asset := or_else (tx_asset transactionInfo) "SOL";
                  senderAddress := or_else (tx_senderAddress transactionInfo) "";
                  receiverAddress := or_else (tx_receiverAddress transactionInfo) "";
                  apiEndpoint := apiEndpoint;
                  blockTime := tx_blockTime transactionInfo;
                  firstUsedAt := now;
                  usageCount := 1;
                  ipAddress := clientIP;
                  userAgent := userAgent |} in
             Ret {| isValid := true;
                    isFirstUse := true;
                    error := None;
                    paymentRecord := Some paymentRecord |}
     end)
    (fun error =>
       Ret {| isValid := false;
              isFirstUse := false;
              error := Some [Str "Payment validation failed: ";
                             Str (message error)];
              paymentRecord := None |}).

End PaymentTracker.

(** ** middleware/paymentMiddleware.ts *)

Module PaymentMiddleware.

Record Payment := {
  signature : string;
  network : string;
  amount : string;
  isVerified : bool
}.

Record PaymentDetails := {
  first_used_at : Z;
  usage_count : Z;
  original_endpoint : string
}.

Inductive Response :=
| Next (payment : Payment)
| PaymentRequired (amount_sol amount_lamports : number)
    (receiver_address : string)
| Rejected (status : Z) (error : option Text) (is_replay_attack : bool)
    (payment_details : option PaymentDetails)
| InternalError (message : string).

(** [req.ip || req.connection.remoteAddress] *)
Definition clientIP (req : Request) : option string :=
  if truthy (ip req) then ip req else remoteAddress req.

Definition validatePaymentMiddleware (config : Config)
    (requiredAmountSOL : number) (endpoint : string) (req : Request)
  : Prog Response :=
  try_catch
    (if (nodeEnv config =? "development")%string then
       Ret (Next {| signature := "dev-mode"; network := "solana";
                    amount := "0"; isVerified := true |})
     else
       let signature := headers req !! "x-payment-signature" in
       let network := headers req !! "x-payment-network" in
       let amount := headers req !! "x-payment-amount" in
       let userAgent := headers req !! "user-agent" in
       if negb (truthy signature) || negb (truthy network)
          || negb (truthy amount) then
         Ret (PaymentRequired requiredAmountSOL
                (requiredAmountSOL * LAMPORTS)%float
                (solana_receiverAddress config))
       else
         match Math_floor (requiredAmountSOL * LAMPORTS)%float with
         | None =>
             Throw (BigInt_RangeError (requiredAmountSOL * LAMPORTS)%float)
         | Some expectedAmount =>
             let! validationResult :=
               PaymentTracker.validatePayment config (default "" signature)
                 expectedAmount "native" endpoint (clientIP req) userAgent in
             if negb (PaymentTracker.isValid validationResult) then
               let statusCode :=
                 if PaymentTracker.isFirstUse validationResult
                 then 400 else 409 in
               Ret (Rejected statusCode
                      (PaymentTracker.error validationResult)
                      (negb (PaymentTracker.isFirstUse validationResult))
                      (match PaymentTracker.paymentRecord validationResult with
                       | Some r =>
                           Some {| first_used_at := PaymentTracker.firstUsedAt r;
                                   usage_count := PaymentTracker.usageCount r;
                                   original_endpoint := PaymentTracker.apiEndpoint r |}
                       | None => None
                       end))
             else
               Ret (Next {| signature := default "" signature;
                            network := default "" network;
                            amount := default "" amount;
                            isVerified := true |})
         end)
    (fun error => Ret (InternalError (message error))).

End PaymentMiddleware.

(** ** A property of every execution *)

(** What a call can raise, whatever the environment: a storage call fails
    with the driver's error, an INSERT also with the unique-constraint
    violation, the RPC client with anything; releasing a client, the timer
    and the clock raise nothing. *)
Definition can_throw (o : Op) (e : Error) : bool :=
  match o, e with
  | PoolConnect, Failure _ => true
  | Query (Db.InsertSignature _), _ => true
  | Query _, Failure _ => true
  | GetTransaction _ _, _ => true
  | _, _ => false
  end.

Definition possible (o : Op) (r : Outcome (Reply o)) : Prop :=
  match r with
  | Returned _ => True
  | Thrown e => can_throw o e = true
  end.

(** [always Q tr p]: whatever the calls of [p] answer, the calls made (after
    [tr]) and the outcome satisfy [Q]. It abstracts from the world: storage
    and the node may answer anything [possible]. *)
Fixpoint always {A} (Q : list Call -> Outcome A -> Prop) (tr : list Call)
    (p : Prog A) : Prop :=
  match p with
  | Ret a => Q tr (Returned a)
  | Throw e => Q tr (Thrown e)
  | Await o k =>
      forall r, possible o r ->
        always Q
          (tr ++ [ {| call_op := o; call_threw := outcome_error r |} ]) (k r)
  end.

(** The calls a run adds to the log. *)
Definition calls_of {A} env (p : Prog A) (w : World) : list Call :=
  drop (length (log w)) (log (run env p w).2).

(** ** Reading the log *)

Definition is_storage (o : Op) : bool :=
  match o with
  | PoolConnect | Query _ | ClientRelease => true
  | _ => false
  end.

Definition is_chain_read (o : Op) : bool :=
  match o with
  | GetTransaction _ _ => true
  | _ => false
  end.

Definition is_insert (o : Op) : bool :=
  match o with
  | Query (Db.InsertSignature _) => true
  | _ => false
  end.

(** The call [c] is one of the kind [f] and it threw. *)
Definition threw_on (f : Op -> bool) (c : Call) : bool :=
  f (call_op c) && bool_decide (is_Some (call_threw c)).

(** A call that went through. *)
Definition ok (o : Op) : Call := {| call_op := o; call_threw := None |}.

(** Storage that never fails. *)
Definition storage_up (env : Env) : Prop := forall n, db_fault env n = None.

(** Case analysis over the answers of every call of a program. *)
Ltac explore :=
  repeat (cbn;
    match goal with
    | |- forall r : Outcome _, _ =>
        let e := fresh "e" in
        let Hp := fresh "Hp" in
        intros [?|e] Hp;
        [clear Hp | destruct e; cbn in Hp; try discriminate Hp; clear Hp]
    | |- always _ _ ?p =>
        match p with
        | context [match ?x with _ => _ end] => destruct x eqn:?
        | context [if ?x then _ else _] => destruct x eqn:?
        end
    end).

(** Membership of a raised call in a trace of known calls. *)
Ltac in_trace H :=
  cbn in H;
  repeat (destruct H as [H|H]; [try discriminate H|]);
  try contradiction.

(** Symbolic execution of [run], rewriting with the facts [t] about the
    environment. *)
Tactic Notation "crank" "with" tactic3(t) :=
  repeat (cbn; progress t); cbn.

Ltac unfold_tracker :=
  unfold PaymentMiddleware.validatePaymentMiddleware,
    PaymentTracker.validatePayment, PaymentTracker.getPaymentRecord,
    PaymentTracker.incrementUsageCount, PaymentTracker.validateOnBlockchain,
    PaymentTracker.recordPayment, keySegments_flat, getAccountKeys.

Ltac unfold_simple :=
  unfold SimplePaymentMiddleware.validateSOLPayment,
    SimplePaymentTracker.isSignatureUsed,
    SimplePaymentTracker.recordReplayAttempt,
    SimplePaymentTracker.recordPayment, new_PublicKey, getAccountKeys.

(** The gate let the request through. *)
Definition proceeds (r : Outcome PaymentMiddleware.Response) : bool :=
  match r with
  | Returned (PaymentMiddleware.Next _) => true
  | _ => false
  end.

Definition proceeds_simple (r : Outcome SimplePaymentMiddleware.Response)
  : bool :=
  match r with
  | Returned (SimplePaymentMiddleware.Next _) => true
  | _ => false
  end.

(** [validatePayment] accepted. *)
Definition accepted (r : Outcome PaymentTracker.PaymentValidationResult)
  : bool :=
  match r with
  | Returned v => PaymentTracker.isValid v
  | Thrown _ => false
  end.

(** A call that raised [e]. *)
Definition threw (o : Op) (e : Error) : Call :=
  {| call_op := o; call_threw := Some e |}.

(** The two results [validatePayment] builds from a caught exception: in its
    own handler, and from the failed result of [validateOnBlockchain]. *)
Definition catch_all (e : Error) : PaymentTracker.PaymentValidationResult :=
  {| PaymentTracker.isValid := false;
     PaymentTracker.isFirstUse := false;
     PaymentTracker.error :=
       Some [Str "Payment validation failed: "; Str (message e)];
     PaymentTracker.paymentRecord := None |}.

Definition chain_failed (e : Error) : PaymentTracker.PaymentValidationResult :=
  {| PaymentTracker.isValid := false;
     PaymentTracker.isFirstUse := true;
     PaymentTracker.error :=
       Some [Str "Blockchain validation failed: "; Str (message e)];
     PaymentTracker.paymentRecord := None |}.

(** What reading the account keys raises in [validateOnBlockchain]. *)
Definition account_keys_error (tx : TxInfo) : Error :=
  if (0 <? addressTableLookups tx)%nat then lookups_not_resolved
  else keySegments_flat_not_a_function.

(** The result of the replay path for the record [r] read from the table. *)
Definition replay_of (r : PaymentTracker.PaymentRecord)
  : PaymentTracker.PaymentValidationResult :=
  {| PaymentTracker.isValid := false;
     PaymentTracker.isFirstUse := false;
     PaymentTracker.error :=
       Some [Str "Payment signature already used (replay attack prevented)"];
     PaymentTracker.paymentRecord := Some r |}.

(** The 500 answer of the simple gate. *)
Definition simple_500 : SimplePaymentMiddleware.Response :=
  SimplePaymentMiddleware.Json 500
    [Str "Payment verification failed"]
    [Str "Internal error verifying payment. Please try again."].

(** Requests served one after the other, each run to its end before the
    next starts. *)
Fixpoint serve {A} (env : Env) (ps : list (Prog A)) (w : World) : World :=
  match ps with
  | [] => w
  | p :: ps => serve env ps (run env p w).2
  end.

(** The usage count stored for [s], if any. *)
Definition usage (w : World) (s : string) : option Z :=
  Db.usage_count <$> table w !! s.

(** ** Scenarios

    The concrete data of section 8 of the specification: signature [SIG_A],
    price 100000 lamports (0.0001 SOL), the receiver gaining 150000. *)

(** Three public keys in base58. The first two are the addresses that
    simplePaymentTracker.ts writes into every row; the third is the system
    program. *)
Definition receiver_key : string :=
  "FwJ3yH7AxZjxveFmbK74ZdLp6EaaLLoRffhiKVP3VX98".

Definition sender_key : string :=
  "HKc1p8QY1XquJXEkQ5Qep9CqU3nnpTa7A9YA32jTfWA5".

Definition other_key : string := "11111111111111111111111111111111".

Definition production : Config :=
  {| nodeEnv := "production"; solana_receiverAddress := receiver_key |}.

Definition development : Config :=
  {| nodeEnv := "development"; solana_receiverAddress := receiver_key |}.

(** A legacy transaction: [sender_key] pays [lamports] and the fee, the
    receiver gains [lamports]. *)
Definition transfer (lamports : Z) : TxInfo :=
  {| meta := Some {| err := None;
                     preBalances := [1000000; 0];
                     postBalances := [1000000 - lamports - 5000; lamports] |};
     staticAccountKeys := [sender_key; receiver_key];
     addressTableLookups := 0;
     blockTime := Some 1700000000 |}.

(** Addresses in dotted decimal, four numbers up to 255: the inet values of
    the scenarios. *)
Fixpoint dotted (s : string) (part : option nat) (parts : nat) : bool :=
  match s with
  | EmptyString =>
      match part with
      | Some _ => (parts =? 3)%nat
      | None => false
      end
  | String c s =>
      let n := Ascii.nat_of_ascii c in
      if (n =? 46)%nat then
        match part with
        | Some _ => dotted s None (S parts)
        | None => false
        end
      else if ((48 <=? n) && (n <=? 57))%nat then
        let v := (10 * default 0%nat part + (n - 48))%nat in
        (v <=? 255)%nat && dotted s (Some v) parts
      else false
  end.

Definition dotted_quad (s : string) : bool := dotted s None 0.

(** Storage that works and a node that knows [SIG_A] only, as a transfer of
    [lamports] to the receiver. *)
Definition node (lamports : Z) : Env :=
  {| db_fault := fun _ => None;
     rpc := fun _ _ sig =>
       if (sig =? "SIG_A")%string then Returned (Some (transfer lamports))
       else Returned None;
     wall_clock := fun n => 1700000000000 + Z.of_nat n;
     inet := dotted_quad |}.

Definition healthy : Env := node 150000.

(** The same node with the storage unreachable. *)
Definition storage_down : Env :=
  {| db_fault := fun _ => Some "connect ECONNREFUSED 127.0.0.1:5432";
     rpc := rpc healthy;
     wall_clock := wall_clock healthy;
     inet := dotted_quad |}.

(** Working storage with the RPC endpoint unreachable. *)
Definition rpc_down : Env :=
  {| db_fault := fun _ => None;
     rpc := fun _ _ _ => Thrown (Failure "fetch failed");
     wall_clock := wall_clock healthy;
     inet := dotted_quad |}.

Definition empty_world : World :=
  {| table := ∅; next_id := 1; ticks := 0; log := [] |}.

Definition request (sig : string) : Request :=
  {| headers := <["x-payment-signature" := sig]>
                (<["x-payment-network" := "solana"]>
                (<["x-payment-amount" := "100000"]> ∅));
     ip := Some "203.0.113.7";
     remoteAddress := None |}.

(** The same request with no client address: [req.ip] is undefined. *)
Definition anonymous_request (sig : string) : Request :=
  {| headers := headers (request sig); ip := None; remoteAddress := None |}.

Definition bare_request : Request :=
  {| headers := ∅; ip := None; remoteAddress := None |}.

(** The vocabulary of the statements: a transaction that succeeded and
    whose account keys [validateSOLPayment] can read and compare with
    [receiver]: a message without address-table lookups, a receiver that is
    a public key. *)
Definition readable (receiver : string) (tx : TxInfo) : bool :=
  match meta tx with
  | Some m =>
      negb (defined (err m)) && negb (defined (PublicKey_error receiver))
      && (addressTableLookups tx =? 0)%nat
  | None => false
  end.

(** What such a transaction moved to [receiver], as [validateSOLPayment]
    reads it: a missing balance read as 0, the gain in SOL. *)
Definition received_sol (receiver : string) (tx : TxInfo) : option number :=
  m ← meta tx;
  (if readable receiver tx then Some tt else None);;
  i ← indexOf (staticAccountKeys tx) receiver;
  Some (SimplePaymentMiddleware.solReceived m i).

(** The node answers [tx] for [s] at every commitment, whenever asked. *)
Definition on_chain (env : Env) (s : string) (tx : TxInfo) : Prop :=
  forall n c, rpc env n c s = Returned (Some tx).

(** A table holding [SIG_A], used once. *)
Definition row_A : Db.Row :=
  {| Db.id := 1; Db.signature := "SIG_A"; Db.network := "solana";
     Db.amount := 150000; Db.asset := "native";
     Db.sender_address := sender_key; Db.receiver_address := receiver_key;
     Db.api_endpoint := "POST /api/query";
     Db.block_time := Some 1700000000000;
     Db.first_used_at := 1700000000004;
     Db.usage_count := 1;
     Db.ip_address := None; Db.user_agent := None;
     Db.created_at := 1700000000004; Db.updated_at := 1700000000004 |}.

Definition seen_world : World :=
  {| table := {[ "SIG_A" := row_A ]}; next_id := 2; ticks := 8; log := [] |}.

(** ** Requests racing on one signature *)

(** The INSERT lost against a row already there. *)
Definition lost_insert_race (c : Call) : bool :=
  is_insert (call_op c)
  && match call_threw c with
     | Some UniqueViolation => true
     | _ => false
     end.

(** Where a request stands on the signature [s]: it has learnt nothing of
    the row yet, it has seen the row in its lookup, its INSERT was refused
    for the row already there, or it has inserted the row itself. *)
Inductive Standing := Fresh | Seen | Lost | Won.

Definition is_won (g : Standing) : bool :=
  match g with
  | Won => true
  | _ => false
  end.

Definition saw (g : Standing) : Standing :=
  match g with
  | Fresh => Seen
  | _ => g
  end.

Definition lost (g : Standing) : Standing :=
  match g with
  | Fresh => Lost
  | _ => g
  end.

Definition learns (s : string) (g : Standing) (o : Op)
  : Outcome (Reply o) -> Standing :=
  match o return Outcome (Reply o) -> Standing with
  | Query (Db.InsertSignature v) => fun r =>
      if (Db.ins_signature v =? s)%string then
        match r with
        | Returned _ => Won
        | Thrown UniqueViolation => lost g
        | Thrown (Failure _) => g
        end
      else g
  | Query (Db.SelectBySignature sig) => fun r =>
      if (sig =? s)%string then
        match r with
        | Returned (_ :: _) => saw g
        | _ => g
        end
      else g
  | _ => fun _ => g
  end.

(** The answers of working storage and of a node that has [tx] for [s]: an
    INSERT that the database accepts fails with the unique violation only,
    the UPDATE may fail (the INTEGER range), every other call goes
    through. *)
Definition expected_reply (env : Env) (s : string) (tx : TxInfo) (o : Op)
  : Outcome (Reply o) -> Prop :=
  match o return Outcome (Reply o) -> Prop with
  | GetTransaction sig c => fun r => sig = s -> r = Returned (Some tx)
  | Query (Db.InsertSignature v) => fun r =>
      match r with
      | Returned rows => exists row, rows = [row]
      | Thrown UniqueViolation => True
      | Thrown (Failure _) => Db.accepts (inet env) v = false
      end
  | Query (Db.IncrementUsage _) => fun r => True
  | _ => fun r => exists x, r = Returned x
  end.

(** [guarded env s tx good g p]: under those answers, [p] raises nothing and
    returns a value that is [good] for the standing it ends with. *)
Fixpoint guarded {A} (env : Env) (s : string) (tx : TxInfo)
    (good : Standing -> A -> Prop) (g : Standing) (p : Prog A) : Prop :=
  match p with
  | Ret a => good g a
  | Throw _ => False
  | Await o k =>
      forall r, expected_reply env s tx o r ->
        guarded env s tx good (learns s g o r) (k r)
  end.

(** The 409 answer of the simple gate. *)
Definition simple_409 : SimplePaymentMiddleware.Response :=
  SimplePaymentMiddleware.Json 409
    [Str "Payment signature already used (replay attack prevented)"]
    [Str "Each payment can only be used once. Please make a new payment."].

(** What [validateSOLPayment] answers for each standing on a paid
    signature: the request that saw the row is refused as a replay, the one
    that inserted the row and the one whose INSERT was refused are both let
    through. *)
Definition good_answer (g : Standing) (r : SimplePaymentMiddleware.Response)
  : Prop :=
  match g with
  | Fresh => False
  | Seen => r = simple_409
  | Lost | Won => exists l, r = SimplePaymentMiddleware.Next (Some l)
  end.

(** The call is an INSERT for [s] that went through. *)
Definition inserted (s : string) (c : Call) : bool :=
  match call_op c, call_threw c with
  | Query (Db.InsertSignature v), None => (Db.ins_signature v =? s)%string
  | _, _ => false
  end.

Definition task_inserted {A} (s : string) (t : Task A) : bool :=
  existsb (inserted s) (history t).

(** What is kept of every request in flight: its code is guarded for its
    standing, and the standing is [Won] exactly when the request has an
    INSERT for [s] that went through behind it. *)
Definition in_step {A} env s tx (good : Standing -> A -> Prop)
    (g : Standing) (t : Task A) : Prop :=
  guarded env s tx good g (code t) /\ is_won g = task_inserted s t.

(** The answer of a request let through, or the 409. *)
Definition let_through_or_replay (t : Task SimplePaymentMiddleware.Response)
  : Prop :=
  (exists l, code t = Ret (SimplePaymentMiddleware.Next (Some l)))
  \/ code t = Ret simple_409.

Definition count {A} (f : A -> bool) (l : list A) : nat :=
  length (List.filter f l).
Arguments count : simpl never.

Definition task_proceeds (t : Task SimplePaymentMiddleware.Response) : bool :=
  match code t with
  | Ret (SimplePaymentMiddleware.Next _) => true
  | _ => false
  end.

(** [p] makes at most [n] calls, whatever they answer. *)
Fixpoint within {A} (n : nat) (p : Prog A) {struct p} : Prop :=
  match p with
  | Await o k =>
      match n with
      | S n => forall r, within n (k r)
      | O => False
      end
  | _ => True
  end.

(** What the standings of the requests in flight must agree on with the
    table: while the row of [s] is missing nobody has learnt anything, and
    once it is there exactly one request has inserted it. *)
Definition standing_inv (s : string) (w : World) (gs : list Standing) : Prop :=
  (table w !! s = None -> Forall (fun g => g = Fresh) gs)
  /\ (is_Some (table w !! s) -> count is_won gs = 1%nat).

(** The number of turns the schedule gives to request [i]. *)
Definition turns (i : nat) (schedule : list nat) : nat :=
  count (Nat.eqb i) schedule.

(** The requests of the scenarios, and a schedule on which two of them
    race: both look the signature up before either inserts it. *)
Definition tracker_request : Prog PaymentTracker.PaymentValidationResult :=
  PaymentTracker.validatePayment production "SIG_A" 100000 "native"
    "POST /api/query" None None.

Definition simple_request : Prog SimplePaymentMiddleware.Response :=
  SimplePaymentMiddleware.validateSOLPayment production 0.0001%float
    "POST /api/query" (request "SIG_A").

Definition simple_race : list nat := [0; 1; 0; 1; 0; 1]%nat.

(** ** More vocabulary: what the node says of a signature *)

(** The node has no transaction for [s], at any commitment, whenever
    asked. *)
Definition unknown (env : Env) (s : string) : Prop :=
  forall n c, rpc env n c s = Returned None.

(** The record carries no [meta], or an execution error. *)
Definition failed_on_chain (tx : TxInfo) : bool :=
  match meta tx with
  | Some m => defined (err m)
  | None => true
  end.

(** A rejection of [validatePayment] that is not a replay. *)
Definition rejected_first_use (msg : Text)
  : PaymentTracker.PaymentValidationResult :=
  {| PaymentTracker.isValid := false;
     PaymentTracker.isFirstUse := true;
     PaymentTracker.error := Some msg;
     PaymentTracker.paymentRecord := None |}.

(** A node that has [tx] for [SIG_A], with working storage. *)
Definition node_with (tx : TxInfo) : Env :=
  {| db_fault := fun _ => None;
     rpc := fun _ _ sig =>
       if (sig =? "SIG_A")%string then Returned (Some tx)
       else Returned None;
     wall_clock := fun n => 1700000000000 + Z.of_nat n;
     inet := dotted_quad |}.

(** Transactions that do not pay the receiver: one that failed and one
    between two other accounts. *)
Definition failed_transfer : TxInfo :=
  {| meta := Some {| err := Some "InstructionError";
                     preBalances := [1000000; 0];
                     postBalances := [995000; 0] |};
     staticAccountKeys := [sender_key; receiver_key];
     addressTableLookups := 0;
     blockTime := Some 1700000000 |}.

Definition transfer_elsewhere : TxInfo :=
  {| meta := Some {| err := None;
                     preBalances := [1000000; 0];
                     postBalances := [845000; 150000] |};
     staticAccountKeys := [sender_key; other_key];
     addressTableLookups := 0;
     blockTime := Some 1700000000 |}.

(** A transfer that takes the balance of the receiver from [pre] to [post]
    lamports. *)
Definition balance_change (pre post : Z) : TxInfo :=
  {| meta := Some {| err := None;
                     preBalances := [20000000000000000; pre];
                     postBalances :=
                       [20000000000000000 - (post - pre) - 5000; post] |};
     staticAccountKeys := [sender_key; receiver_key];
     addressTableLookups := 0;
     blockTime := Some 1700000000 |}.

(** A version-0 transaction whose message has an address-table lookup. *)
Definition transfer_v0 : TxInfo :=
  {| meta := Some {| err := None;
                     preBalances := [1000000; 0];
                     postBalances := [845000; 150000] |};
     staticAccountKeys := [sender_key; receiver_key];
     addressTableLookups := 1;
     blockTime := Some 1700000000 |}.

(** ** More vocabulary: reading a trace *)

(** The database clients a trace leaves checked out: [pool.connect()] that
    went through checks one out, [client.release()] returns one. [None] when
    the trace releases a client it does not hold, or sends a statement with
    no client checked out. *)
Fixpoint clients_held (held : nat) (tr : list Call) : option nat :=
  match tr with
  | [] => Some held
  | c :: tr =>
      match call_op c, call_threw c with
      | PoolConnect, None => clients_held (S held) tr
      | ClientRelease, _ =>
          match held with
          | S held => clients_held held tr
          | O => None
          end
      | Query _, _ =>
          match held with
          | S _ => clients_held held tr
          | O => None
          end
      | _, _ => clients_held held tr
      end
  end.

Definition is_internal_error (r : PaymentMiddleware.Response) : bool :=
  match r with
  | PaymentMiddleware.InternalError _ => true
  | _ => false
  end.

(** What a request did to the table: nothing, one more use counted for [s],
    or the row [row] added for [s], which was not there. *)
Inductive Effect :=
| Untouched
| Counted
| Stored (row : Db.Row).

Definition effect_on (s : string) (before after : gmap string Db.Row)
    (e : Effect) : Prop :=
  match e with
  | Untouched => after = before
  | Counted =>
      is_Some (before !! s)
      /\ exists now, after = alter (Db.bump_usage now) s before
  | Stored row => before !! s = None /\ after = <[s := row]> before
  end.

(** Reduction that leaves the amount checks and the lookup loop folded. *)
Ltac hold :=
  cbn -[PaymentTracker.verifyPaymentDetails String.eqb effect_on
        SimplePaymentMiddleware.solReceived
        SimplePaymentMiddleware.lookupTransaction].

(** Case analysis over what the environment answers to a run: the storage
    faults, the rows found and the answers of the node, as the run reaches
    them. *)
Ltac fork :=
  repeat (hold;
    match goal with
    | |- context [db_fault ?e ?n] => destruct (db_fault e n) eqn:?
    | |- context [rpc ?e ?n ?c ?s] =>
        destruct (rpc e n c s) as [[?|]|?] eqn:?
    | |- context [table ?w !! ?s] => destruct (table w !! s) eqn:?
    | |- context [meta ?tx] => destruct (meta tx) eqn:?
    | |- context [err ?m] => destruct (err m) eqn:?
    | |- context [PublicKey_error ?k] => destruct (PublicKey_error k) eqn:?
    | |- context [addressTableLookups ?tx] =>
        destruct (addressTableLookups tx) eqn:?
    | |- context [Db.bind_parameters ?i ?v] =>
        destruct (Db.bind_parameters i v) eqn:?
    | |- context [Db.row_error ?v] => destruct (Db.row_error v) eqn:?
    | |- context [indexOf ?l ?x] => destruct (indexOf l x) eqn:?
    | |- context [postBalances ?m !! ?i] =>
        destruct (postBalances m !! i) eqn:?
    | |- context [preBalances ?m !! ?i] =>
        destruct (preBalances m !! i) eqn:?
    | |- context [Z.leb ?a ?b] => destruct (Z.leb a b) eqn:?
    | |- context [PaymentTracker.verifyPaymentDetails ?t ?e ?a] =>
        destruct (PaymentTracker.verifyPaymentDetails t e a) as [[|] ?] eqn:?
    | |- context [PrimFloat.ltb ?a ?b] => destruct (PrimFloat.ltb a b) eqn:?
    | |- context [Math_floor ?x] => destruct (Math_floor x) eqn:?
    end);
  cbn -[SimplePaymentMiddleware.solReceived].

(** A program that sends no statement other than a SELECT. *)
Fixpoint reads_only {A} (p : Prog A) : Prop :=
  match p with
  | Await o k =>
      match o with
      | Query (Db.InsertSignature _) | Query (Db.IncrementUsage _) => False
      | _ => forall r, reads_only (k r)
      end
  | _ => True
  end.

(** The three payment headers are all present and not empty. *)
Definition has_payment_headers (req : Request) : bool :=
  truthy (headers req !! "x-payment-signature")
  && truthy (headers req !! "x-payment-network")
  && truthy (headers req !! "x-payment-amount").

(** [req.payment] as [validatePaymentMiddleware] sets it for a verified
    request: the three headers, echoed. *)
Definition claimed (req : Request) : PaymentMiddleware.Payment :=
  {| PaymentMiddleware.signature :=
       default "" (headers req !! "x-payment-signature");
     PaymentMiddleware.network :=
       default "" (headers req !! "x-payment-network");
     PaymentMiddleware.amount :=
       default "" (headers req !! "x-payment-amount");
     PaymentMiddleware.isVerified := true |}.

(** Two requests that differ at most in the values of the network and
    amount headers, both present in each. *)
Definition same_but_claims (req1 req2 : Request) : Prop :=
  headers req1 !! "x-payment-signature" = headers req2 !! "x-payment-signature"
  /\ headers req1 !! "user-agent" = headers req2 !! "user-agent"
  /\ ip req1 = ip req2 /\ remoteAddress req1 = remoteAddress req2
  /\ truthy (headers req1 !! "x-payment-network")
     = truthy (headers req2 !! "x-payment-network")
  /\ truthy (headers req1 !! "x-payment-amount")
     = truthy (headers req2 !! "x-payment-amount").

(** ** More vocabulary: the sender of a transfer *)



(** The row [validateSOLPayment] stores for an accepted payment. *)
Definition simple_row (w : World) (env : Env) (s : string) (lamports : Z)
    (ep : string) (req : Request) : Db.Row :=
  {| Db.id := next_id w;
     Db.signature := s;
     Db.network := "solana";
     Db.amount := lamports;
     Db.asset := "SOL";
     Db.sender_address := "HKc1p8QY1XquJXEkQ5Qep9CqU3nnpTa7A9YA32jTfWA5";
     Db.receiver_address := "FwJ3yH7AxZjxveFmbK74ZdLp6EaaLLoRffhiKVP3VX98";
     Db.api_endpoint := ep;
     Db.block_time := None;
     Db.first_used_at := wall_clock env (2 + ticks w);
     Db.usage_count := 1;
     Db.ip_address := Some (or_else (ip req) "unknown");
     Db.user_agent := Some (or_else (headers req !! "user-agent") "unknown");
     Db.created_at := wall_clock env (2 + ticks w);
     Db.updated_at := wall_clock env (2 + ticks w) |}.

(** ** More vocabulary: rows over time *)

(** The row [r] with [n] more uses counted and [updated_at] set to [now]:
    the two columns the UPDATE and its trigger write. *)
Definition recount (n now : Z) (r : Db.Row) : Db.Row :=
  {| Db.id := Db.id r; Db.signature := Db.signature r;
     Db.network := Db.network r; Db.amount := Db.amount r;
     Db.asset := Db.asset r;
     Db.sender_address := Db.sender_address r;
     Db.receiver_address := Db.receiver_address r;
     Db.api_endpoint := Db.api_endpoint r;
     Db.block_time := Db.block_time r;
     Db.first_used_at := Db.first_used_at r;
     Db.usage_count := Db.usage_count r + n;
     Db.ip_address := Db.ip_address r;
     Db.user_agent := Db.user_agent r;
     Db.created_at := Db.created_at r;
     Db.updated_at := now |}.

(** [row'] is [row] after some uses were counted: every other column is as
    it was, and [updated_at] has changed only if a use was counted. *)
Definition later_version (row row' : Db.Row) : Prop :=
  exists n now, 0 <= n /\ row' = recount n now row
                /\ (n = 0 -> now = Db.updated_at row).

(** The signature whose row a call may write. *)
Definition writes_to (o : Op) : option string :=
  match o with
  | Query (Db.InsertSignature v) => Some (Db.ins_signature v)
  | Query (Db.IncrementUsage sig) => Some sig
  | _ => None
  end.

Definition writes_only (s : string) (o : Op) : Prop :=
  match writes_to o with
  | Some s' => s' = s
  | None => True
  end.

(** Every statement of [p] that writes, writes the row of [s]. *)
Fixpoint confined {A} (s : string) (p : Prog A) : Prop :=
  match p with
  | Await o k => writes_only s o /\ forall r, confined s (k r)
  | _ => True
  end.

(** Every statement the request in flight may still send writes the row of
    some signature other than [s']. *)
Definition elsewhere {A} (s' : string) (t : Task A) : Prop :=
  exists s, s' <> s /\ confined s (code t).

(** Structural proof that a program is confined, given the rules [t] for
    the combinators. *)
Tactic Notation "confine" "with" tactic3(t) :=
  repeat first
    [ exact I
    | reflexivity
    | t
    | lazymatch goal with
      | |- confined _ (match ?x with _ => _ end) => destruct x
      | |- forall _, _ => intro
      end ].

(** ** middleware/paymentMiddleware.ts, continued *)

(** [validateUSDCPayment]: the price in USDC is converted to SOL at a fixed
    rate and handed to [validatePaymentMiddleware]. *)
Definition validateUSDCPayment (config : Config) (requiredAmountUSDC : number)
    (endpoint : string) (req : Request)
  : Prog PaymentMiddleware.Response :=
  let solEquivalent := (requiredAmountUSDC * 0.01)%float in
  PaymentMiddleware.validatePaymentMiddleware config solEquivalent endpoint req.

(** ** JSON bodies *)

(** A response body as [res.json] serialises it. *)
#[warnings="-register-all"]
Inductive Json :=
| JNull
| JBool (b : bool)
| JNumber (x : number)
| JString (s : string)
| JArray (items : list Json)
| JObject (fields : list (string * Json)).

(** [obj[key]], [None] for a missing property. *)
Fixpoint get (key : string) (fields : list (string * Json)) : option Json :=
  match fields with
  | [] => None
  | (k, v) :: fields => if (k =? key)%string then Some v else get key fields
  end.

(** [obj[key] = value]: an existing property keeps its place, a new one
    goes last. *)
Fixpoint assign (key : string) (value : Json) (fields : list (string * Json))
  : list (string * Json) :=
  match fields with
  | [] => [(key, value)]
  | (k, v) :: fields =>
      if (k =? key)%string then (k, value) :: fields
      else (k, v) :: assign key value fields
  end.

(** ** middleware/simplePaymentMiddleware.ts, continued *)

(** The [payment_info] object of [enrichResponseWithPayment]. *)
Definition payment_info (l : SimplePaymentMiddleware.Locals) : Json :=
  JObject
    [("verified", JBool true);
     ("type", JString (SimplePaymentMiddleware.paymentType l));
     ("amount", JNumber (SimplePaymentMiddleware.paymentAmount l));
     ("signature",
       JString (String.substring 0 20
                  (SimplePaymentMiddleware.paymentSignature l) ++ "..."));
     ("network", JString "solana")].

(** The [res.json] that [enrichResponseWithPayment] installs, as a function
    of [res.locals] and of the body: what is handed to the original
    [res.json]. The property set on an array is not serialised, so an array
    goes out as it came. *)
Definition enrichResponseWithPayment
    (locals : option SimplePaymentMiddleware.Locals) (body : option Json)
  : option Json :=
  match body, locals with
  | Some (JObject fields), Some l =>
      if SimplePaymentMiddleware.paymentVerified l then
        Some (JObject (assign "payment_info" (payment_info l) fields))
      else body
  | _, _ => body
  end.

(** ** services/duneService.ts *)

(** [s.toLowerCase()] on the bytes of the text: the letters A to Z are
    lowered. Lowering a character outside ASCII yields no occurrence of the
    words searched for that the bytes do not show: none of them has a k (the
    Kelvin sign lowers to k), and the i that a dotted capital I lowers to is
    followed by a combining dot. *)
Definition lower (c : Ascii.ascii) : Ascii.ascii :=
  let n := Ascii.nat_of_ascii c in
  if ((65 <=? n) && (n <=? 90))%nat then Ascii.ascii_of_nat (n + 32) else c.

Fixpoint toLowerCase (s : string) : string :=
  match s with
  | EmptyString => EmptyString
  | String c s => String (lower c) (toLowerCase s)
  end.

(** [s.includes(word)] *)
Fixpoint includes (s word : string) : bool :=
  String.prefix word s
  || match s with
     | EmptyString => false
     | String _ s => includes s word
     end.

Definition dangerousKeywords : list string :=
  ["drop"; "delete"; "update"; "insert"; "create"; "alter"; "truncate"].

Definition validateSolanaQuery (sql : string) : bool * option string :=
  let lowerSql := toLowerCase sql in
  let hasDangerousKeyword :=
    existsb (fun keyword => includes lowerSql keyword) dangerousKeywords in
  if hasDangerousKeyword then (false, Some "Only SELECT queries are allowed")
  else (true, None).

(** ** routes/queryRoutes.ts *)

(** POST /api/query and POST /api/query/sol up to the call to Dune: the gate,
    then the handler's checks of the body. The body is a JSON object whose
    [sql] field, when present, is a string. *)
Inductive RouteAnswer :=
| Gate (r : SimplePaymentMiddleware.Response)
| BadRequest (error : option string)
    (locals : option SimplePaymentMiddleware.Locals)
| ExecuteQuery (sql : string)
    (locals : option SimplePaymentMiddleware.Locals).

(** The handler before its call to Dune. *)
Definition queryHandler (sql : option string)
    (locals : option SimplePaymentMiddleware.Locals) : RouteAnswer :=
  if negb (truthy sql) then BadRequest (Some "SQL query is required") locals
  else
    let sql := default "" sql in
    let validation := validateSolanaQuery sql in
    if negb validation.1 then BadRequest validation.2 locals
    else ExecuteQuery sql locals.

Definition postQuery (config : Config) (amountSol : number)
    (endpointPath : string) (req : Request) (sql : option string)
  : Prog RouteAnswer :=
  let! gate := SimplePaymentMiddleware.validateSOLPayment
                 config amountSol endpointPath req in
  match gate with
  | SimplePaymentMiddleware.Next locals => Ret (queryHandler sql locals)
  | _ => Ret (Gate gate)
  end.

(** [word] occurs in [s]. *)
Definition occurs_in (word s : string) : Prop :=
  exists pre post : string, s = (pre ++ word ++ post)%string.

(** ** config/index.ts *)

Module ConfigIndex.

(** The two entries of [config] the gates read, as computed from the
    process environment: [process.env.NODE_ENV || 'development'] and
    [process.env.SOLANA_RECEIVER || '']. *)
Definition config (process_env : gmap string string) : Config :=
  {| nodeEnv := or_else (process_env !! "NODE_ENV") "development";
     solana_receiverAddress := or_else (process_env !! "SOLANA_RECEIVER") "" |}.

End ConfigIndex.

(** * Properties *)

(** ** How [run] goes through the combinators *)

Lemma run_bind {A B} env (p : Prog A) (f : A -> Prog B) w :
  run env (bind p f) w =
  match run env p w with
  | (Returned a, w') => run env (f a) w'
  | (Thrown e, w') => (Thrown e, w')
  end.
Proof.
  revert w. induction p as [a|e|o k IH]; intros w; simpl; try reflexivity.
  destruct (exec env o w) as [r w']. apply IH.
Qed.

Lemma run_try_catch {A} env (p : Prog A) h w :
  run env (try_catch p h) w =
  match run env p w with
  | (Returned a, w') => (Returned a, w')
  | (Thrown e, w') => run env (h e) w'
  end.
Proof.
  revert w. induction p as [a|e|o k IH]; intros w; simpl; try reflexivity.
  destruct (exec env o w) as [r w']. apply IH.
Qed.

Lemma run_try_finally {A} env (p : Prog A) f w :
  run env (try_finally p f) w =
  match run env p w with
  | (Returned a, w') => run env (bind f (fun _ => Ret a)) w'
  | (Thrown e, w') => run env (bind f (fun _ => Throw e)) w'
  end.
Proof.
  revert w. induction p as [a|e|o k IH]; intros w; simpl; try reflexivity.
  destruct (exec env o w) as [r w']. apply IH.
Qed.

(** Every call is logged, with the error it raised if any. *)
Lemma exec_log env o w :
  log (exec env o w).2 =
  log w ++ [ {| call_op := o; call_threw := outcome_error (exec env o w).1 |} ].
Proof.
  destruct o; simpl; try reflexivity.
  - destruct (db_fault env (ticks w)); reflexivity.
  - destruct (db_fault env (ticks w)); [reflexivity|].
    destruct (Db.exec_sql _ _ _ _) as [[r t] i]; reflexivity.
Qed.

Lemma exec_possible env o w : possible o (exec env o w).1.
Proof.
  destruct o as [|q| | | |]; cbn; try exact I.
  - destruct (db_fault env (ticks w)); cbn; [reflexivity | exact I].
  - destruct (db_fault env (ticks w)); cbn; [destruct q; reflexivity|].
    destruct q as [sig|v|sig]; cbn; try exact I.
    + destruct (Db.bind_parameters _ v) as [e|amt]; cbn; [reflexivity|].
      destruct (Db.row_error v); cbn; [reflexivity|].
      destruct (table w !! Db.ins_signature v); cbn; [reflexivity | exact I].
    + destruct (table w !! sig) as [r|]; cbn; [|exact I].
      destruct (Db.INTEGER_MAX <=? Db.usage_count r); cbn;
        [reflexivity | exact I].
  - destruct (rpc env (ticks w) c sig) as [tx|e]; cbn; [exact I|].
    destruct e; reflexivity.
Qed.

Lemma run_always {A} env (Q : list Call -> Outcome A -> Prop) p :
  forall tr w l0,
    always Q tr p -> log w = l0 ++ tr ->
    exists tr', log (run env p w).2 = l0 ++ tr' /\ Q tr' (run env p w).1.
Proof.
  induction p as [a|e|o k IH]; intros tr w l0 Hp Hl; simpl in *.
  - eauto.
  - eauto.
  - pose proof (exec_log env o w) as Hlog.
    pose proof (exec_possible env o w) as Hposs.
    destruct (exec env o w) as [r w'] eqn:He. simpl in Hlog, Hposs.
    apply (IH r _ w' l0 (Hp r Hposs)).
    rewrite Hlog, Hl, <- app_assoc. reflexivity.
Qed.

Lemma run_always_calls {A} env (Q : list Call -> Outcome A -> Prop) p w :
  always Q [] p -> Q (calls_of env p w) (run env p w).1.
Proof.
  intros Hp.
  destruct (run_always env Q p [] w (log w) Hp) as (tr' & Hl & HQ).
  - now rewrite app_nil_r.
  - unfold calls_of. rewrite Hl, drop_app_length. exact HQ.
Qed.

Lemma calls_of_app {A} env (p : Prog A) w l :
  log (run env p w).2 = log w ++ l -> calls_of env p w = l.
Proof. intros H. unfold calls_of. rewrite H. apply drop_app_length. Qed.

(** What the gate answers after [validatePayment] returned [v]. *)
Lemma validatePaymentMiddleware_after env w config price ep req s expected v :
  nodeEnv config <> "development" ->
  headers req !! "x-payment-signature" = Some s -> s <> "" ->
  truthy (headers req !! "x-payment-network") = true ->
  truthy (headers req !! "x-payment-amount") = true ->
  Math_floor (price * LAMPORTS)%float = Some expected ->
  (run env (PaymentTracker.validatePayment config s expected "native" ep
              (PaymentMiddleware.clientIP req)
              (headers req !! "user-agent")) w).1 = Returned v ->
  (run env (PaymentMiddleware.validatePaymentMiddleware config price ep req)
       w).1 =
  Returned
    (if negb (PaymentTracker.isValid v) then
       PaymentMiddleware.Rejected
         (if PaymentTracker.isFirstUse v then 400 else 409)
         (PaymentTracker.error v)
         (negb (PaymentTracker.isFirstUse v))
         (match PaymentTracker.paymentRecord v with
          | Some r =>
              Some {| PaymentMiddleware.first_used_at :=
                        PaymentTracker.firstUsedAt r;
                      PaymentMiddleware.usage_count :=
                        PaymentTracker.usageCount r;
                      PaymentMiddleware.original_endpoint :=
                        PaymentTracker.apiEndpoint r |}
          | None => None
          end)
     else
       PaymentMiddleware.Next
         {| PaymentMiddleware.signature := s;
            PaymentMiddleware.network :=
              default "" (headers req !! "x-payment-network");
            PaymentMiddleware.amount :=
              default "" (headers req !! "x-payment-amount");
            PaymentMiddleware.isVerified := true |}).
Proof.
  intros Hprod Hsig Hne Hnet Hamt Hfl Hv.
  unfold PaymentMiddleware.validatePaymentMiddleware.
  apply String.eqb_neq in Hprod, Hne.
  rewrite Hprod, Hsig, Hnet, Hamt, Hfl.
  cbn [truthy negb default orb]. rewrite Hne. cbn [negb orb].
  rewrite run_try_catch, run_bind.
  destruct (run env _ w) as [out w']. cbn in Hv. subst out.
  destruct (negb (PaymentTracker.isValid v)); reflexivity.
Qed.

(** ** Development mode *)

(** C9: with [config.nodeEnv] set to development, both gates call [next()]
    for every request, whatever its signature header (absent and empty
    included), and leave the world as it was: no call to the RPC node or to
    storage is logged and the table is unchanged. *)
Theorem dev_mode_bypass config :
  nodeEnv config = "development" ->
  forall env amount endpoint req w,
    run env (SimplePaymentMiddleware.validateSOLPayment
               config amount endpoint req) w
    = (Returned (SimplePaymentMiddleware.Next None), w)
    /\ run env (PaymentMiddleware.validatePaymentMiddleware
                  config amount endpoint req) w
       = (Returned (PaymentMiddleware.Next
            {| PaymentMiddleware.signature := "dev-mode";
               PaymentMiddleware.network := "solana";
               PaymentMiddleware.amount := "0";
               PaymentMiddleware.isVerified := true |}), w).
Proof.
  intros Hdev env amount endpoint req w.
  unfold SimplePaymentMiddleware.validateSOLPayment,
    PaymentMiddleware.validatePaymentMiddleware.
  rewrite Hdev. split; reflexivity.
Qed.

Lemma dev_mode_bypass_witness :
  nodeEnv development = "development"
  /\ run storage_down (SimplePaymentMiddleware.validateSOLPayment
                         development 0.0001%float "POST /api/query"
                         bare_request) empty_world
     = (Returned (SimplePaymentMiddleware.Next None), empty_world).
Proof.
  split; [reflexivity|].
  apply (dev_mode_bypass development eq_refl storage_down 0.0001%float
           "POST /api/query" bare_request empty_world).
Defined.

(** ** The replay path *)

Lemma always_True {A} (p : Prog A) tr : always (fun _ _ => True) tr p.
Proof.
  revert tr. induction p as [a|e|o k IH]; intros tr; cbn; auto.
Qed.

(** A run only adds to the log. *)
Lemma run_log {A} env (p : Prog A) w :
  exists tr, log (run env p w).2 = log w ++ tr.
Proof.
  destruct (run_always env (fun _ _ => True) p [] w (log w)
              (always_True p [])) as (tr & Hl & _).
  - now rewrite app_nil_r.
  - eauto.
Qed.

(** The result [validatePayment] gives for a signature found in the table,
    and the row after it. *)
Lemma validatePayment_replay env w config s row amt asset ep ip ua :
  storage_up env ->
  table w !! s = Some row ->
  Db.usage_count row < Db.INTEGER_MAX ->
  let p := PaymentTracker.validatePayment config s amt asset ep ip ua in
  (run env p w).1 = Returned (replay_of (PaymentTracker.record_of_row row))
  /\ table (run env p w).2
     = <[s := Db.bump_usage (wall_clock env (4 + ticks w)) row]> (table w)
  /\ calls_of env p w =
       [ok PoolConnect; ok (Query (Db.SelectBySignature s)); ok ClientRelease;
        ok PoolConnect; ok (Query (Db.IncrementUsage s)); ok ClientRelease].
Proof.
  intros Hdb Hhit Hmax p. subst p. unfold_tracker.
  apply Z.leb_gt in Hmax.
  split; [|split]; [| |apply calls_of_app];
    crank with (rewrite ?Hdb, ?Hhit, ?Hmax); try reflexivity.
  now rewrite <- !app_assoc.
Qed.

(** The response of [validateSOLPayment] for a signature found in the
    table, and the row after it. *)
Lemma validateSOLPayment_replay env w config s row amount ep req :
  storage_up env ->
  nodeEnv config <> "development" ->
  headers req !! "x-payment-signature" = Some s -> s <> "" ->
  table w !! s = Some row ->
  Db.usage_count row < Db.INTEGER_MAX ->
  let p := SimplePaymentMiddleware.validateSOLPayment config amount ep req in
  (run env p w).1 = Returned simple_409
  /\ table (run env p w).2
     = <[s := Db.bump_usage (wall_clock env (1 + ticks w)) row]> (table w)
  /\ calls_of env p w =
       [ok (Query (Db.SelectBySignature s)); ok (Query (Db.IncrementUsage s))].
Proof.
  intros Hdb Hprod Hsig Hne Hhit Hmax p. subst p. unfold_simple.
  apply String.eqb_neq in Hprod, Hne. apply Z.leb_gt in Hmax.
  rewrite Hprod, Hsig. cbn [truthy negb default]. rewrite Hne. cbn [negb].
  split; [|split]; [| |apply calls_of_app];
    crank with (rewrite ?Hdb, ?Hhit, ?Hmax); try reflexivity.
  now rewrite <- !app_assoc.
Qed.

(** When the lookup of [isSignatureUsed] fails, [validateSOLPayment] goes on
    to ask the node for the transaction. *)
Lemma validateSOLPayment_lookup_failed env w config s amount ep req m :
  db_fault env (ticks w) = Some m ->
  nodeEnv config <> "development" ->
  headers req !! "x-payment-signature" = Some s -> s <> "" ->
  let p := SimplePaymentMiddleware.validateSOLPayment config amount ep req in
  exists e tr,
    calls_of env p w
    = threw (Query (Db.SelectBySignature s)) (Failure m)
      :: {| call_op := GetTransaction s confirmed; call_threw := e |} :: tr.
Proof.
  intros Hfault Hprod Hsig Hne p. subst p. unfold_simple.
  apply String.eqb_neq in Hprod, Hne.
  rewrite Hprod, Hsig. cbn [truthy negb default]. rewrite Hne. cbn [negb].
  unfold calls_of. cbn. rewrite Hfault. cbn.
  match goal with
  | |- context [run env ?q ?w'] =>
      destruct (run_log env q w') as (tr & Htr); rewrite Htr
  end.
  cbn. rewrite <- !app_assoc, drop_app_length. cbn. eauto.
Qed.

(** C4, as stated, fails when storage does not answer: the signature
    [SIG_A] is in the table, the lookup of [isSignatureUsed] fails and counts
    as "not used", and [validateSOLPayment] reads the transaction from the
    node again and lets the request through; the usage count stays 1. *)
Lemma stored_signature_verified_again_cex :
  let out := run storage_down simple_request seen_world in
  table seen_world !! "SIG_A" = Some row_A
  /\ proceeds_simple out.1 = true
  /\ existsb (fun c => is_chain_read (call_op c))
       (calls_of storage_down simple_request seen_world) = true
  /\ usage out.2 "SIG_A" = Some 1.
Proof. repeat split; vm_compute; reflexivity. Qed.

(** C4, amended: a signature already in the table, with storage answering
    and the usage count below the INTEGER maximum, takes the replay path.
    [validatePayment] selects the row, adds exactly one to its usage count
    and returns the rejection with isFirstUse false (the replay flag), the
    already-used error and the record as it was read; its gate answers 409
    with is_replay_attack true and the prior first use, usage count and
    endpoint. [validateSOLPayment] adds one to the usage count as well and
    answers 409 with the already-used error; its body has no replay flag and
    no prior record. Neither issues a [getTransaction]. When the lookup of
    [validateSOLPayment] fails, the signature counts as not used and the
    node is asked for the transaction. *)
Theorem seen_signature_takes_replay_path env w config s row :
  table w !! s = Some row ->
  (storage_up env -> Db.usage_count row < Db.INTEGER_MAX ->
   (forall amt asset ep ip ua,
      let p := PaymentTracker.validatePayment config s amt asset ep ip ua in
      (run env p w).1 = Returned
        {| PaymentTracker.isValid := false;
           PaymentTracker.isFirstUse := false;
           PaymentTracker.error :=
             Some [Str "Payment signature already used (replay attack prevented)"];
           PaymentTracker.paymentRecord :=
             Some (PaymentTracker.record_of_row row) |}
      /\ table (run env p w).2
         = <[s := Db.bump_usage (wall_clock env (4 + ticks w)) row]> (table w)
      /\ usage (run env p w).2 s = Some (Db.usage_count row + 1)
      /\ existsb (fun c => is_chain_read (call_op c)) (calls_of env p w)
         = false)
   /\ (forall price expected ep req,
         nodeEnv config <> "development" ->
         headers req !! "x-payment-signature" = Some s -> s <> "" ->
         truthy (headers req !! "x-payment-network") = true ->
         truthy (headers req !! "x-payment-amount") = true ->
         Math_floor (price * LAMPORTS)%float = Some expected ->
         (run env (PaymentMiddleware.validatePaymentMiddleware
                     config price ep req) w).1
         = Returned (PaymentMiddleware.Rejected 409
             (Some [Str "Payment signature already used (replay attack prevented)"])
             true
             (Some {| PaymentMiddleware.first_used_at := Db.first_used_at row;
                      PaymentMiddleware.usage_count := Db.usage_count row;
                      PaymentMiddleware.original_endpoint :=
                        Db.api_endpoint row |})))
   /\ (forall amount ep req,
         nodeEnv config <> "development" ->
         headers req !! "x-payment-signature" = Some s -> s <> "" ->
         let p :=
           SimplePaymentMiddleware.validateSOLPayment config amount ep req in
         (run env p w).1 = Returned (SimplePaymentMiddleware.Json 409
           [Str "Payment signature already used (replay attack prevented)"]
           [Str "Each payment can only be used once. Please make a new payment."])
         /\ table (run env p w).2
            = <[s := Db.bump_usage (wall_clock env (1 + ticks w)) row]>
                (table w)
         /\ usage (run env p w).2 s = Some (Db.usage_count row + 1)
         /\ existsb (fun c => is_chain_read (call_op c)) (calls_of env p w)
            = false))
  /\ (forall m amount ep req,
        db_fault env (ticks w) = Some m ->
        nodeEnv config <> "development" ->
        headers req !! "x-payment-signature" = Some s -> s <> "" ->
        let p :=
          SimplePaymentMiddleware.validateSOLPayment config amount ep req in
        exists c, In c (calls_of env p w)
                  /\ call_op c = GetTransaction s confirmed).
Proof.
  intros Hhit. split.
  - intros Hdb Hmax. split; [|split].
    + intros amt asset ep ip ua p.
      destruct (validatePayment_replay env w config s row amt asset ep ip ua
                  Hdb Hhit Hmax) as (Hr & Ht & Hc).
      subst p. unfold usage. rewrite Hc, Ht, lookup_insert_eq. auto.
    + intros price expected ep req Hprod Hsig Hne Hnet Hamt Hfl.
      destruct (validatePayment_replay env w config s row expected "native" ep
                  (PaymentMiddleware.clientIP req)
                  (headers req !! "user-agent") Hdb Hhit Hmax) as (Hr & _).
      rewrite (validatePaymentMiddleware_after env w config price ep req s
                 expected _ Hprod Hsig Hne Hnet Hamt Hfl Hr).
      reflexivity.
    + intros amount ep req Hprod Hsig Hne p.
      destruct (validateSOLPayment_replay env w config s row amount ep req
                  Hdb Hprod Hsig Hne Hhit Hmax) as (Hr & Ht & Hc).
      subst p. unfold usage. rewrite Hc, Ht, lookup_insert_eq. auto.
  - intros m amount ep req Hfault Hprod Hsig Hne p.
    destruct (validateSOLPayment_lookup_failed env w config s amount ep req m
                Hfault Hprod Hsig Hne) as (e & tr & Hc).
    subst p. rewrite Hc. eexists. split; [right; left; reflexivity|].
    reflexivity.
Qed.

Lemma healthy_storage_up : storage_up healthy.
Proof. intros n. reflexivity. Qed.

Lemma healthy_on_chain : on_chain healthy "SIG_A" (transfer 150000).
Proof. intros n c. reflexivity. Qed.

Lemma seen_signature_takes_replay_path_witness :
  storage_up healthy
  /\ table seen_world !! "SIG_A" = Some row_A
  /\ Db.usage_count row_A < Db.INTEGER_MAX
  /\ (run healthy
        (PaymentTracker.validatePayment production "SIG_A" 100000 "native"
           "POST /api/query" None None) seen_world).1
     = Returned
         {| PaymentTracker.isValid := false;
            PaymentTracker.isFirstUse := false;
            PaymentTracker.error :=
              Some [Str "Payment signature already used (replay attack prevented)"];
            PaymentTracker.paymentRecord :=
              Some (PaymentTracker.record_of_row row_A) |}.
Proof.
  assert (Hhit : table seen_world !! "SIG_A" = Some row_A) by reflexivity.
  assert (Hmax : Db.usage_count row_A < Db.INTEGER_MAX) by reflexivity.
  split; [exact healthy_storage_up|]. split; [exact Hhit|].
  split; [exact Hmax|].
  exact (proj1 (proj1 (proj1 (seen_signature_takes_replay_path healthy
                                seen_world production "SIG_A" row_A Hhit)
                         healthy_storage_up Hmax)
                  100000 "native" "POST /api/query" None None)).
Defined.

(** ** A fresh signature with a transfer on chain *)

(** An INSERT the database accepts: its amount is an integer, and neither
    the parameters nor the row raise an error. *)
Lemma accepts_inv inet v :
  Db.accepts inet v = true ->
  exists amt, Db.ins_amount v = inl amt
              /\ Db.bind_parameters inet v = inr amt
              /\ Db.row_error v = None.
Proof.
  unfold Db.accepts. destruct (Db.bind_parameters inet v) as [e|amt] eqn:Hb;
    [discriminate|].
  destruct (Db.row_error v); [discriminate|]. intros _.
  exists amt. split; [|auto].
  unfold Db.bind_parameters in Hb.
  destruct (Db.ins_amount v) as [a|text]; [|discriminate].
  destruct (_ || _); [discriminate|]. destruct (_ || _); [discriminate|].
  destruct (Db.ins_ip_address v) as [a'|].
  - destruct (_ && _); [|discriminate]. now injection Hb as ->.
  - now injection Hb as ->.
Qed.

Lemma received_sol_inv receiver tx sol :
  received_sol receiver tx = Some sol ->
  exists m i,
    meta tx = Some m /\ defined (err m) = false
    /\ PublicKey_error receiver = None
    /\ addressTableLookups tx = 0%nat
    /\ indexOf (staticAccountKeys tx) receiver = Some i
    /\ SimplePaymentMiddleware.solReceived m i = sol.
Proof.
  unfold received_sol, readable. intros H.
  destruct (meta tx) as [m|]; [|discriminate]. cbn in H.
  destruct (defined (err m)) eqn:He; [discriminate|].
  destruct (PublicKey_error receiver) eqn:Hkey; [discriminate|].
  destruct (addressTableLookups tx) eqn:Hv0; [|discriminate]. cbn in H.
  destruct (indexOf _ _) as [i|] eqn:Hi; [|discriminate]. cbn in H.
  injection H as <-. exists m, i. repeat split; auto.
Qed.

(** The simple gate on a fresh signature: the amount check is the
    floating-point comparison of the gain in SOL with the price in SOL, and
    a request let through leaves its row when the database accepts it. *)
Lemma validateSOLPayment_fresh env w config s tx sol expected ep req :
  storage_up env ->
  on_chain env s tx ->
  nodeEnv config <> "development" ->
  headers req !! "x-payment-signature" = Some s -> s <> "" ->
  table w !! s = None ->
  received_sol (solana_receiverAddress config) tx = Some sol ->
  let p := SimplePaymentMiddleware.validateSOLPayment config expected ep req in
  if (sol <? expected)%float then
    (run env p w).1 = Returned (SimplePaymentMiddleware.Json 400
       [Str "Insufficient payment amount. Expected "; Num expected;
        Str " SOL, received "; Num sol; Str " SOL"]
       [Str "Please send at least "; Num expected;
        Str " SOL to complete the payment."])
    /\ table (run env p w).2 = table w
  else
    (run env p w).1 = Returned (SimplePaymentMiddleware.Next (Some
       {| SimplePaymentMiddleware.paymentVerified := true;
          SimplePaymentMiddleware.paymentType := "SOL";
          SimplePaymentMiddleware.paymentAmount := sol;
          SimplePaymentMiddleware.paymentSignature := s |}))
    /\ (Db.accepts (inet env)
          (SimplePaymentTracker.values s sol "SOL" (or_else (ip req) "unknown")
             (or_else (headers req !! "user-agent") "unknown") ep) = true ->
        exists lamports,
          Math_floor (sol * LAMPORTS)%float = Some lamports
          /\ table (run env p w).2
             = <[s := simple_row w env s lamports ep req]> (table w)).
Proof.
  intros Hdb Hrpc Hprod Hsig Hne Hfresh Hrec p. subst p.
  destruct (received_sol_inv _ _ _ Hrec) as (m & i & Hm & He & Hkey & Hv0 & Hi & Hsol).
  unfold_simple.
  apply String.eqb_neq in Hprod, Hne.
  rewrite Hprod, Hsig. cbn [truthy negb default]. rewrite Hne. cbn [negb].
  destruct (sol <? expected)%float eqn:Hlt.
  - split;
      crank with (rewrite ?Hdb, ?Hfresh, ?Hrpc, ?Hm, ?He, ?Hkey, ?Hv0, ?Hi,
                   ?Hsol, ?Hlt);
      reflexivity.
  - split.
    + crank with (rewrite ?Hdb, ?Hfresh, ?Hrpc, ?Hm, ?He, ?Hkey, ?Hv0, ?Hi,
                   ?Hsol, ?Hlt).
      destruct (Db.bind_parameters _ _); cbn; [reflexivity|].
      destruct (Db.row_error _); cbn; reflexivity.
    + intros Hacc.
      destruct (accepts_inv _ _ Hacc) as (amt & Ha & Hb & Hrow).
      exists amt. split.
      * cbn in Ha. destruct (Math_floor _); [|discriminate].
        now injection Ha as ->.
      * crank with (rewrite ?Hdb, ?Hfresh, ?Hrpc, ?Hm, ?He, ?Hkey, ?Hv0, ?Hi,
                     ?Hsol, ?Hlt, ?Hb, ?Hrow).
        reflexivity.
Qed.

(** What [validateSOLPayment] reads as received, written out. *)
Lemma received_sol_gain receiver tx m i :
  meta tx = Some m ->
  readable receiver tx = true ->
  indexOf (staticAccountKeys tx) receiver = Some i ->
  received_sol receiver tx
  = Some ((number_of_Z (default 0%Z (postBalances m !! i))
           - number_of_Z (default 0%Z (preBalances m !! i))) / LAMPORTS)%float.
Proof.
  intros Hm Hread Hi. unfold received_sol. rewrite Hm. cbn.
  rewrite Hread. cbn. rewrite Hi. reflexivity.
Qed.

(** [validatePayment] on a fresh signature whose transaction succeeded on
    chain: reading the account keys raises, and the exception comes back as
    a failed validation. Nothing is stored. *)
Lemma validatePayment_fresh env w config s tx m expected asset ep ip ua :
  storage_up env ->
  on_chain env s tx ->
  table w !! s = None ->
  meta tx = Some m -> err m = None ->
  let p := PaymentTracker.validatePayment config s expected asset ep ip ua in
  (run env p w).1 = Returned (chain_failed (account_keys_error tx))
  /\ table (run env p w).2 = table w
  /\ calls_of env p w =
       [ok PoolConnect; ok (Query (Db.SelectBySignature s)); ok ClientRelease;
        ok (GetTransaction s confirmed)].
Proof.
  intros Hdb Hrpc Hfresh Hm He p. subst p. unfold_tracker.
  unfold chain_failed, account_keys_error.
  split; [|split]; [| |apply calls_of_app];
    crank with (rewrite ?Hdb, ?Hfresh, ?Hrpc, ?Hm, ?He);
    destruct (addressTableLookups tx); cbn; try reflexivity;
    now rewrite <- !app_assoc.
Qed.

(** C6: for a fresh signature whose transaction succeeded on chain,
    [validatePayment] does not reach the comparison of the amount with the
    expected amount. Whatever was transferred and whatever is expected, a
    transfer of exactly the expected amount included, it rejects with
    isFirstUse true and the message of the exception that reading the
    account keys raises, and stores nothing. [validateSOLPayment] decides
    the same transaction, when it can read its keys and finds the receiver
    among them, by comparing the gain of the receiver in SOL,
    [(post - pre) / 1e9], with the price in SOL: it refuses with the
    insufficient-amount error when the gain is less, and lets the request
    through otherwise. *)
Theorem amount_boundary env w config s tx m :
  storage_up env ->
  on_chain env s tx ->
  table w !! s = None ->
  meta tx = Some m -> err m = None ->
  (forall expected asset ep ip ua,
     let out := run env (PaymentTracker.validatePayment
                           config s expected asset ep ip ua) w in
     out.1 = Returned
       {| PaymentTracker.isValid := false;
          PaymentTracker.isFirstUse := true;
          PaymentTracker.error :=
            Some [Str "Blockchain validation failed: ";
                  Str (message (account_keys_error tx))];
          PaymentTracker.paymentRecord := None |}
     /\ table out.2 = table w)
  /\ (forall price ep req i,
        nodeEnv config <> "development" ->
        headers req !! "x-payment-signature" = Some s -> s <> "" ->
        readable (solana_receiverAddress config) tx = true ->
        indexOf (staticAccountKeys tx) (solana_receiverAddress config)
        = Some i ->
        let sol :=
          ((number_of_Z (default 0%Z (postBalances m !! i))
            - number_of_Z (default 0%Z (preBalances m !! i))) / LAMPORTS)%float in
        let out := run env (SimplePaymentMiddleware.validateSOLPayment
                              config price ep req) w in
        out.1 = Returned
          (if (sol <? price)%float then
             SimplePaymentMiddleware.Json 400
               [Str "Insufficient payment amount. Expected "; Num price;
                Str " SOL, received "; Num sol; Str " SOL"]
               [Str "Please send at least "; Num price;
                Str " SOL to complete the payment."]
           else
             SimplePaymentMiddleware.Next (Some
               {| SimplePaymentMiddleware.paymentVerified := true;
                  SimplePaymentMiddleware.paymentType := "SOL";
                  SimplePaymentMiddleware.paymentAmount := sol;
                  SimplePaymentMiddleware.paymentSignature := s |}))).
Proof.
  intros Hdb Hrpc Hfresh Hm He. split.
  - intros expected asset ep ip ua out. subst out.
    destruct (validatePayment_fresh env w config s tx m expected asset ep ip
                ua Hdb Hrpc Hfresh Hm He) as (Hr & Ht & _).
    split; [exact Hr | exact Ht].
  - intros price ep req i Hprod Hsig Hne Hread Hi sol out. subst out.
    pose proof (validateSOLPayment_fresh env w config s tx sol price ep req
                  Hdb Hrpc Hprod Hsig Hne Hfresh
                  (received_sol_gain _ tx m i Hm Hread Hi)) as H.
    cbv zeta in H.
    destruct (sol <? price)%float; destruct H as [Hr _]; exact Hr.
Qed.

Lemma node_storage_up lamports : storage_up (node lamports).
Proof. intros n. reflexivity. Qed.

Lemma node_on_chain lamports :
  on_chain (node lamports) "SIG_A" (transfer lamports).
Proof. intros n c. reflexivity. Qed.

(** The transfer is of exactly the expected amount. *)
Lemma amount_boundary_witness :
  storage_up (node 100000)
  /\ on_chain (node 100000) "SIG_A" (transfer 100000)
  /\ table empty_world !! "SIG_A" = None
  /\ (run (node 100000)
        (PaymentTracker.validatePayment production "SIG_A" 100000 "native"
           "POST /api/query" None None) empty_world).1
     = Returned
         {| PaymentTracker.isValid := false;
            PaymentTracker.isFirstUse := true;
            PaymentTracker.error :=
              Some [Str "Blockchain validation failed: ";
                    Str "txInfo.transaction.message.getAccountKeys(...).keySegments.flat is not a function"];
            PaymentTracker.paymentRecord := None |}.
Proof.
  assert (Hfresh : table empty_world !! "SIG_A" = None) by reflexivity.
  split; [exact (node_storage_up 100000)|].
  split; [exact (node_on_chain 100000)|].
  split; [exact Hfresh|].
  exact (proj1 (proj1 (amount_boundary (node 100000) empty_world production
                         "SIG_A" (transfer 100000) _
                         (node_storage_up 100000) (node_on_chain 100000)
                         Hfresh eq_refl eq_refl)
                  100000 "native" "POST /api/query" None None)).
Defined.

(** The boundary in the simple gate, at the price of the scenarios (0.0001
    SOL, 100000 lamports): exactly the price goes through, one lamport less
    is rejected, more goes through. *)
Example simple_gate_boundary_at_scenario_price :
  let gate lamports :=
    proceeds_simple
      (run (node lamports) simple_request empty_world).1 in
  gate 100000 = true /\ gate 99999 = false /\ gate 150000 = true.
Proof. repeat split; vm_compute; reflexivity. Qed.

(** ** Amounts *)

(** C5, as stated, fails in [validateSOLPayment], which compares binary64
    numbers. The balance of the receiver goes from 2^53 + 1 to 2^53 + 2
    lamports, a gain of exactly 1 lamport; read as JS numbers the balances
    are 2^53 and 2^53 + 2, and the request goes through at a price of 2
    lamports. In the other direction, a gain of exactly 1 lamport from 2^53
    to 2^53 + 1 reads as no gain and is refused at a price of 1 lamport. *)
Lemma amount_checks_not_integer_cex :
  let gate tx price :=
    proceeds_simple
      (run (node_with tx)
         (SimplePaymentMiddleware.validateSOLPayment production price
            "POST /api/query" (request "SIG_A")) empty_world).1 in
  9007199254740994 - 9007199254740993 = 1
  /\ Math_floor (2e-9 * LAMPORTS)%float = Some 2
  /\ gate (balance_change 9007199254740993 9007199254740994) 2e-9%float = true
  /\ 9007199254740993 - 9007199254740992 = 1
  /\ Math_floor (1e-9 * LAMPORTS)%float = Some 1
  /\ gate (balance_change 9007199254740992 9007199254740993) 1e-9%float
     = false.
Proof. repeat split; vm_compute; reflexivity. Qed.

(** [verifyPaymentDetails] compares the two bigints. *)
Lemma verifyPaymentDetails_amount t expected asset a :
  PaymentTracker.tx_asset t = Some asset ->
  PaymentTracker.tx_amount t = Some a ->
  PaymentTracker.verifyPaymentDetails t expected asset
  = if a <? expected then
      (false, Some [Str "Insufficient payment amount. Expected: ";
                    Big expected; Str ", Got: "; Big a])
    else (true, None).
Proof.
  intros Hasset Hamount. unfold PaymentTracker.verifyPaymentDetails.
  rewrite Hasset, Hamount, String.eqb_refl. cbn [negb default].
  destruct (a <? expected); reflexivity.
Qed.

(** The price enters [validatePaymentMiddleware] through
    [Math.floor(price * 1e9)] only. *)
Lemma validatePaymentMiddleware_price config price price' ep req :
  nodeEnv config <> "development" ->
  has_payment_headers req = true ->
  Math_floor (price * LAMPORTS)%float = Math_floor (price' * LAMPORTS)%float ->
  Math_floor (price * LAMPORTS)%float <> None ->
  PaymentMiddleware.validatePaymentMiddleware config price ep req
  = PaymentMiddleware.validatePaymentMiddleware config price' ep req.
Proof.
  intros Hprod Hh Hfl Hsome. unfold has_payment_headers in Hh.
  apply andb_true_iff in Hh as [Hh Hamt]. apply andb_true_iff in Hh as [Hs Hn].
  unfold PaymentMiddleware.validatePaymentMiddleware.
  apply String.eqb_neq in Hprod. rewrite Hprod, Hs, Hn, Hamt, <- Hfl.
  cbn [negb orb].
  destruct (Math_floor (price * LAMPORTS)%float); [reflexivity|].
  contradiction.
Qed.

(** C5, amended: [verifyPaymentDetails] compares the transferred amount
    with [expectedAmount] as integers (bigint lamports), and the price
    reaches [validatePaymentMiddleware] only as the integer
    [Math.floor(price * 1e9)]; [validateSOLPayment] reads the balances of
    the receiver as binary64 numbers, converts the gain to SOL and compares
    it with the price in SOL, and lets the request through exactly when
    [(post - pre) / 1e9 < expectedAmountSol] is false. *)
Theorem amount_comparisons env w config s tx :
  storage_up env ->
  on_chain env s tx ->
  table w !! s = None ->
  (forall t expected asset a,
     PaymentTracker.tx_asset t = Some asset ->
     PaymentTracker.tx_amount t = Some a ->
     (PaymentTracker.verifyPaymentDetails t expected asset).1
     = (expected <=? a))
  /\ (forall price price' ep req,
        nodeEnv config <> "development" ->
        has_payment_headers req = true ->
        Math_floor (price * LAMPORTS)%float
        = Math_floor (price' * LAMPORTS)%float ->
        Math_floor (price * LAMPORTS)%float <> None ->
        run env (PaymentMiddleware.validatePaymentMiddleware
                   config price ep req) w
        = run env (PaymentMiddleware.validatePaymentMiddleware
                     config price' ep req) w)
  /\ (forall m i expected ep req,
        nodeEnv config <> "development" ->
        headers req !! "x-payment-signature" = Some s -> s <> "" ->
        meta tx = Some m ->
        readable (solana_receiverAddress config) tx = true ->
        indexOf (staticAccountKeys tx) (solana_receiverAddress config)
        = Some i ->
        let pre := number_of_Z (default 0%Z (preBalances m !! i)) in
        let post := number_of_Z (default 0%Z (postBalances m !! i)) in
        proceeds_simple (run env (SimplePaymentMiddleware.validateSOLPayment
                                    config expected ep req) w).1
        = negb ((post - pre) / LAMPORTS <? expected)%float).
Proof.
  intros Hdb Hrpc Hfresh. split; [|split].
  - intros t expected asset a Hasset Hamount.
    rewrite (verifyPaymentDetails_amount t expected asset a Hasset Hamount).
    destruct (a <? expected) eqn:Hlt; cbn; symmetry.
    + apply Z.leb_gt. now apply Z.ltb_lt.
    + apply Z.leb_le. now apply Z.ltb_ge.
  - intros price price' ep req Hprod Hh Hfl Hsome.
    now rewrite (validatePaymentMiddleware_price config price price' ep req).
  - intros m i expected ep req Hprod Hsig Hne Hm Hread Hi pre post.
    pose proof (validateSOLPayment_fresh env w config s tx _ expected ep req
                  Hdb Hrpc Hprod Hsig Hne Hfresh
                  (received_sol_gain _ tx m i Hm Hread Hi)) as H.
    cbv zeta in H. subst pre post.
    destruct (_ <? expected)%float.
    + destruct H as (-> & _). reflexivity.
    + destruct H as (-> & _). reflexivity.
Qed.

Lemma amount_comparisons_witness :
  storage_up healthy
  /\ on_chain healthy "SIG_A" (transfer 150000)
  /\ table empty_world !! "SIG_A" = None
  /\ proceeds_simple
       (run healthy (SimplePaymentMiddleware.validateSOLPayment production
                       0.0001%float "POST /api/query" (request "SIG_A"))
          empty_world).1
     = negb ((number_of_Z 150000 - number_of_Z 0) / LAMPORTS <? 0.0001)%float.
Proof.
  assert (Hfresh : table empty_world !! "SIG_A" = None) by reflexivity.
  pose proof (amount_comparisons healthy empty_world production "SIG_A"
                (transfer 150000) healthy_storage_up healthy_on_chain Hfresh)
    as (_ & _ & Hsimple).
  split; [exact healthy_storage_up|].
  split; [exact healthy_on_chain|]. split; [exact Hfresh|].
  exact (Hsimple _ 1%nat 0.0001%float "POST /api/query" (request "SIG_A")
           ltac:(discriminate) eq_refl ltac:(discriminate) eq_refl
           ltac:(vm_compute; reflexivity) eq_refl).
Defined.

(** ** The chain lookup *)

(** Whatever the node answers, the loop of [validateSOLPayment] issues a
    prefix of: confirmed, finalized, a one-second pause, confirmed,
    finalized. *)
Lemma lookupTransaction_calls s :
  always (fun tr (_ : Outcome (option TxInfo)) =>
            map call_op tr `prefix_of`
              [GetTransaction s confirmed; GetTransaction s finalized;
               SetTimeout 1000;
               GetTransaction s confirmed; GetTransaction s finalized])
    [] (SimplePaymentMiddleware.lookupTransaction
          s SimplePaymentMiddleware.maxAttempts).
Proof.
  explore; cbn;
    repeat (apply prefix_cons); try apply prefix_nil; reflexivity.
Qed.

(** [validateOnBlockchain] reads the node once, at confirmed. *)
Lemma validateOnBlockchain_calls config s :
  always (fun tr (_ : Outcome PaymentTracker.TransactionInfo) =>
            map call_op tr = [GetTransaction s confirmed])
    [] (PaymentTracker.validateOnBlockchain config s).
Proof. unfold_tracker. explore; reflexivity. Qed.

(** C8: the lookup of [validateSOLPayment] asks the node at confirmed first
    and at finalized only after an empty confirmed answer; a second round,
    one second later, happens only after both answers of the first were empty;
    after two empty rounds the result is null (not found). Whatever the node
    answers, no more than these two rounds are issued; [validateOnBlockchain]
    of the other tracker reads the node once, at confirmed. *)
Theorem chain_lookup_sequence env w config s :
  let p := SimplePaymentMiddleware.lookupTransaction
             s SimplePaymentMiddleware.maxAttempts in
  let t := ticks w in
  let C := GetTransaction s confirmed in
  let F := GetTransaction s finalized in
  let empty c n := rpc env n c s = Returned None in
  let found c n tx := rpc env n c s = Returned (Some tx) in
  (forall tx, found confirmed t tx ->
     (run env p w).1 = Returned (Some tx) /\ calls_of env p w = [ok C])
  /\ (forall tx, empty confirmed t -> found finalized (S t) tx ->
        (run env p w).1 = Returned (Some tx)
        /\ calls_of env p w = [ok C; ok F])
  /\ (forall tx, empty confirmed t -> empty finalized (S t) ->
        found confirmed (S (S (S t))) tx ->
        (run env p w).1 = Returned (Some tx)
        /\ calls_of env p w = [ok C; ok F; ok (SetTimeout 1000); ok C])
  /\ (forall tx, empty confirmed t -> empty finalized (S t) ->
        empty confirmed (S (S (S t))) ->
        found finalized (S (S (S (S t)))) tx ->
        (run env p w).1 = Returned (Some tx)
        /\ calls_of env p w =
             [ok C; ok F; ok (SetTimeout 1000); ok C; ok F])
  /\ (empty confirmed t -> empty finalized (S t) ->
      empty confirmed (S (S (S t))) -> empty finalized (S (S (S (S t)))) ->
        (run env p w).1 = Returned None
        /\ calls_of env p w =
             [ok C; ok F; ok (SetTimeout 1000); ok C; ok F])
  /\ map call_op (calls_of env p w) `prefix_of`
       [C; F; SetTimeout 1000; C; F]
  /\ map call_op (calls_of env (PaymentTracker.validateOnBlockchain config s) w)
     = [C].
Proof.
  intros p t C F empty found. subst p t C F empty found. cbv beta.
  repeat match goal with |- _ /\ _ => split end.
  - intros tx H0. split; [|apply calls_of_app];
      crank with (rewrite ?H0); reflexivity.
  - intros tx H0 H1. split; [|apply calls_of_app];
      crank with (rewrite ?H0, ?H1); try reflexivity.
    now rewrite <- !app_assoc.
  - intros tx H0 H1 H3. split; [|apply calls_of_app];
      crank with (rewrite ?H0, ?H1, ?H3); try reflexivity.
    now rewrite <- !app_assoc.
  - intros tx H0 H1 H3 H4. split; [|apply calls_of_app];
      crank with (rewrite ?H0, ?H1, ?H3, ?H4); try reflexivity.
    now rewrite <- !app_assoc.
  - intros H0 H1 H3 H4. split; [|apply calls_of_app];
      crank with (rewrite ?H0, ?H1, ?H3, ?H4); try reflexivity.
    now rewrite <- !app_assoc.
  - apply (run_always_calls env _ _ w (lookupTransaction_calls s)).
  - apply (run_always_calls env _ _ w (validateOnBlockchain_calls config s)).
Qed.

Lemma chain_lookup_sequence_witness :
  rpc healthy 0 confirmed "SIG_B" = Returned None
  /\ rpc healthy 1 finalized "SIG_B" = Returned None
  /\ rpc healthy 3 confirmed "SIG_B" = Returned None
  /\ rpc healthy 4 finalized "SIG_B" = Returned None
  /\ rpc healthy 0 confirmed "SIG_A" = Returned (Some (transfer 150000))
  /\ calls_of healthy
       (SimplePaymentMiddleware.lookupTransaction "SIG_B"
          SimplePaymentMiddleware.maxAttempts) empty_world
     = [ok (GetTransaction "SIG_B" confirmed);
        ok (GetTransaction "SIG_B" finalized);
        ok (SetTimeout 1000);
        ok (GetTransaction "SIG_B" confirmed);
        ok (GetTransaction "SIG_B" finalized)]
  /\ calls_of healthy
       (SimplePaymentMiddleware.lookupTransaction "SIG_A"
          SimplePaymentMiddleware.maxAttempts) empty_world
     = [ok (GetTransaction "SIG_A" confirmed)].
Proof.
  do 5 (split; [reflexivity|]). split.
  - apply (proj1 (proj2 (proj2 (proj2 (proj2
      (chain_lookup_sequence healthy empty_world production "SIG_B"))))));
      reflexivity.
  - apply (proj1 (chain_lookup_sequence healthy empty_world production "SIG_A")
             (transfer 150000)); reflexivity.
Defined.

(** ** Exceptions *)

(** [always] along an interleaving: what holds of every execution of a
    request holds of it at every point of every schedule. *)
Lemma resume_always {A} env (Q : list Call -> Outcome A -> Prop) j st i t :
  st.2 !! i = Some t -> always Q (history t) (code t) ->
  exists t', (resume env j st).2 !! i = Some t'
             /\ always Q (history t') (code t').
Proof.
  intros Hi Ht. unfold resume.
  destruct (st.2 !! j) as [[h [a|e|o k]]|] eqn:Hj; eauto.
  pose proof (exec_possible env o st.1) as Hposs.
  destruct (exec env o st.1) as [r w']. cbn in Hposs |- *.
  destruct (decide (j = i)) as [->|Hne].
  - rewrite Hi in Hj. injection Hj as ->. cbn in Ht.
    eexists. split.
    + apply list_lookup_insert_eq. eapply lookup_lt_Some, Hi.
    + cbn. apply Ht, Hposs.
  - exists t. split; [|exact Ht].
    rewrite list_lookup_insert_ne by exact Hne. exact Hi.
Qed.

Lemma interleave_always {A} env (Q : list Call -> Outcome A -> Prop) schedule :
  forall st i t,
    st.2 !! i = Some t -> always Q (history t) (code t) ->
    exists t', (interleave env schedule st).2 !! i = Some t'
               /\ always Q (history t') (code t').
Proof.
  induction schedule as [|j schedule IH]; intros st i t Hi Ht; cbn.
  - eauto.
  - destruct (resume_always env Q j st i t Hi Ht) as (t' & Hi' & Ht').
    exact (IH _ i t' Hi' Ht').
Qed.

(** The call of [validatePayment] that raises decides its result: the
    catch-all rejection, or the failed chain validation when the RPC client
    raised. *)
Lemma validatePayment_throw config s amt asset ep ip ua :
  always (fun tr out =>
            exists r, out = Returned r /\
              forall o e, In (threw o e) tr ->
                r = if is_chain_read o then chain_failed e else catch_all e)
    [] (PaymentTracker.validatePayment config s amt asset ep ip ua).
Proof.
  unfold_tracker. explore.
  all: eexists; split; [reflexivity|]; intros o e' Hin; in_trace Hin.
  all: try (injection Hin as <- <-; reflexivity).
Qed.

Lemma validatePaymentMiddleware_throw config price ep req :
  always (fun tr out =>
            exists resp, out = Returned resp /\
              forall o e, In (threw o e) tr ->
                resp =
                if is_chain_read o
                then PaymentMiddleware.Rejected 400
                       (Some [Str "Blockchain validation failed: ";
                              Str (message e)]) false None
                else PaymentMiddleware.Rejected 409
                       (Some [Str "Payment validation failed: ";
                              Str (message e)]) true None)
    [] (PaymentMiddleware.validatePaymentMiddleware config price ep req).
Proof.
  unfold_tracker. explore.
  all: eexists; split; [reflexivity|]; intros o e' Hin; in_trace Hin.
  all: try (injection Hin as <- <-; reflexivity).
Qed.

(** In the simple gate an exception of the RPC client ends in the 500
    answer, and one raised by the INSERT is swallowed: the request goes
    through. *)
Lemma validateSOLPayment_throw config price ep req :
  always (fun tr out =>
            (forall sig c e, In (threw (GetTransaction sig c) e) tr ->
               out = Returned simple_500)
            /\ (forall v e, In (threw (Query (Db.InsertSignature v)) e) tr ->
                  proceeds_simple out = true))
    [] (SimplePaymentMiddleware.validateSOLPayment config price ep req).
Proof.
  unfold_simple. explore.
  all: split; [intros sig c e' Hin|intros v e' Hin]; in_trace Hin.
  all: try reflexivity.
Qed.

Lemma is_storage_not_chain o : is_storage o = true -> is_chain_read o = false.
Proof. destruct o; cbn; congruence. Qed.

(** C10, as stated, fails for the RPC client: with the endpoint unreachable
    an exception is raised inside the call, and [validatePayment] returns
    isFirstUse true; the gate answers 400 with is_replay_attack false. *)
Lemma chain_error_is_not_replay_cex :
  let p := PaymentTracker.validatePayment production "SIG_A" 100000 "native"
             "POST /api/query" (Some "203.0.113.7") None in
  let g := PaymentMiddleware.validatePaymentMiddleware production
             0.0001%float "POST /api/query" (request "SIG_A") in
  existsb (threw_on is_chain_read) (calls_of rpc_down p empty_world) = true
  /\ (run rpc_down p empty_world).1
     = Returned (chain_failed (Failure "fetch failed"))
  /\ PaymentTracker.isFirstUse (chain_failed (Failure "fetch failed")) = true
  /\ (run rpc_down g empty_world).1
     = Returned (PaymentMiddleware.Rejected 400
         (Some [Str "Blockchain validation failed: "; Str "fetch failed"])
         false None).
Proof. repeat split; vm_compute; reflexivity. Qed.

(** C10, amended: when a storage call of [validatePayment] raises (the
    connection, the lookup, the increment or the insert), the result is the
    catch-all rejection with isFirstUse false, and the gate answers 409 with
    is_replay_attack true, as it does for every rejection with isFirstUse
    false. When the RPC client raises, [validateOnBlockchain] catches it: the
    result has isFirstUse true and the gate answers 400 with is_replay_attack
    false. *)
Theorem storage_failure_reported_as_replay env w config price ep req s expected :
  nodeEnv config <> "development" ->
  headers req !! "x-payment-signature" = Some s -> s <> "" ->
  truthy (headers req !! "x-payment-network") = true ->
  truthy (headers req !! "x-payment-amount") = true ->
  Math_floor (price * LAMPORTS)%float = Some expected ->
  let p := PaymentTracker.validatePayment config s expected "native" ep
             (PaymentMiddleware.clientIP req) (headers req !! "user-agent") in
  let g := PaymentMiddleware.validatePaymentMiddleware config price ep req in
  (forall o e, is_storage o = true -> In (threw o e) (calls_of env p w) ->
     (run env p w).1 = Returned (catch_all e)
     /\ PaymentTracker.isFirstUse (catch_all e) = false
     /\ (run env g w).1 = Returned (PaymentMiddleware.Rejected 409
          (Some [Str "Payment validation failed: "; Str (message e)])
          true None))
  /\ (forall sig c e, In (threw (GetTransaction sig c) e) (calls_of env p w) ->
        (run env p w).1 = Returned (chain_failed e)
        /\ PaymentTracker.isFirstUse (chain_failed e) = true
        /\ (run env g w).1 = Returned (PaymentMiddleware.Rejected 400
             (Some [Str "Blockchain validation failed: "; Str (message e)])
             false None))
  /\ (forall v, (run env p w).1 = Returned v ->
        PaymentTracker.isValid v = false ->
        PaymentTracker.isFirstUse v = false ->
        exists err details,
          (run env g w).1
          = Returned (PaymentMiddleware.Rejected 409 err true details)).
Proof.
  intros Hprod Hsig Hne Hnet Hamt Hfl p g.
  pose proof (run_always_calls env _ _ w
    (validatePayment_throw config s expected "native" ep
       (PaymentMiddleware.clientIP req) (headers req !! "user-agent")))
    as (v & Hv & Hthrow).
  fold p in Hv, Hthrow.
  pose proof (validatePaymentMiddleware_after env w config price ep req s
                expected v Hprod Hsig Hne Hnet Hamt Hfl Hv) as Hg.
  fold g in Hg.
  split; [|split].
  - intros o e Ho Hin. specialize (Hthrow o e Hin).
    rewrite (is_storage_not_chain o Ho) in Hthrow. subst v.
    split; [exact Hv|]. split; [reflexivity|]. exact Hg.
  - intros sig c e Hin. specialize (Hthrow _ e Hin). cbn in Hthrow. subst v.
    split; [exact Hv|]. split; [reflexivity|]. exact Hg.
  - intros v' Hv' Hvalid Hfirst. rewrite Hv in Hv'. injection Hv' as <-.
    rewrite Hg, Hvalid, Hfirst. cbn. eauto.
Qed.

Lemma storage_failure_reported_as_replay_witness :
  let p := PaymentTracker.validatePayment production "SIG_A" 100000 "native"
             "POST /api/query" (Some "203.0.113.7") None in
  let g := PaymentMiddleware.validatePaymentMiddleware production
             0.0001%float "POST /api/query" (request "SIG_A") in
  let e := Failure "connect ECONNREFUSED 127.0.0.1:5432" in
  let e' := Failure "fetch failed" in
  In (threw PoolConnect e) (calls_of storage_down p empty_world)
  /\ (run storage_down p empty_world).1 = Returned (catch_all e)
  /\ (run storage_down g empty_world).1
     = Returned (PaymentMiddleware.Rejected 409
         (Some [Str "Payment validation failed: "; Str (message e)])
         true None)
  /\ In (threw (GetTransaction "SIG_A" confirmed) e')
        (calls_of rpc_down p empty_world)
  /\ (run rpc_down p empty_world).1 = Returned (chain_failed e')
  /\ (run rpc_down g empty_world).1
     = Returned (PaymentMiddleware.Rejected 400
         (Some [Str "Blockchain validation failed: "; Str (message e')])
         false None).
Proof.
  intros p g e e'.
  assert (Hin : In (threw PoolConnect e) (calls_of storage_down p empty_world))
    by (vm_compute; left; reflexivity).
  assert (Hin' : In (threw (GetTransaction "SIG_A" confirmed) e')
                   (calls_of rpc_down p empty_world))
    by (vm_compute; do 3 right; left; reflexivity).
  assert (Hprod : nodeEnv production <> "development") by discriminate.
  assert (Hne : "SIG_A" <> "") by discriminate.
  assert (Hfl : Math_floor (0.0001 * LAMPORTS)%float = Some 100000)
    by (vm_compute; reflexivity).
  destruct (proj1 (storage_failure_reported_as_replay storage_down empty_world
              production 0.0001%float "POST /api/query" (request "SIG_A")
              "SIG_A" 100000 Hprod eq_refl Hne eq_refl eq_refl Hfl)
              PoolConnect e eq_refl Hin) as (Hr & _ & Hg).
  destruct (proj1 (proj2 (storage_failure_reported_as_replay rpc_down
              empty_world production 0.0001%float "POST /api/query"
              (request "SIG_A") "SIG_A" 100000 Hprod eq_refl Hne eq_refl
              eq_refl Hfl))
              "SIG_A" confirmed e' Hin') as (Hr' & _ & Hg').
  split; [exact Hin|]. split; [exact Hr|]. split; [exact Hg|].
  split; [exact Hin'|]. split; [exact Hr' | exact Hg'].
Defined.

(** ** Failing closed *)

(** C2, as stated, fails in the simple gate: with the storage unreachable
    both the lookup and the insert raise, both exceptions are swallowed, and
    the request for a paid transaction goes through. *)
Lemma storage_failure_accepted_cex :
  let p := SimplePaymentMiddleware.validateSOLPayment production
             0.0001%float "POST /api/query" (request "SIG_A") in
  map call_threw (calls_of storage_down p empty_world)
  = [Some (Failure "connect ECONNREFUSED 127.0.0.1:5432"); None;
     Some (Failure "connect ECONNREFUSED 127.0.0.1:5432")]
  /\ proceeds_simple (run storage_down p empty_world).1 = true
  /\ table (run storage_down p empty_world).2 = ∅.
Proof. repeat split; vm_compute; reflexivity. Qed.

(** C2, amended: in [validatePayment] and its gate every exception raised by
    a storage call or by the RPC client ends in a rejection. In the simple
    gate an exception of the RPC client ends in the 500 answer; a lookup that
    raises counts as a signature not used, and an insert that raises is
    ignored and the request goes through. *)
Theorem infrastructure_failure_outcomes env w :
  (forall config s amt asset ep ip ua o e,
     let p := PaymentTracker.validatePayment config s amt asset ep ip ua in
     In (threw o e) (calls_of env p w) -> accepted (run env p w).1 = false)
  /\ (forall config price ep req o e,
        let g := PaymentMiddleware.validatePaymentMiddleware
                   config price ep req in
        In (threw o e) (calls_of env g w) -> proceeds (run env g w).1 = false)
  /\ (forall config price ep req sig c e,
        let p := SimplePaymentMiddleware.validateSOLPayment
                   config price ep req in
        In (threw (GetTransaction sig c) e) (calls_of env p w) ->
        (run env p w).1 = Returned simple_500)
  /\ (forall s m,
        db_fault env (ticks w) = Some m ->
        (run env (SimplePaymentTracker.isSignatureUsed s) w).1
        = Returned false)
  /\ (forall config price ep req v e,
        let p := SimplePaymentMiddleware.validateSOLPayment
                   config price ep req in
        In (threw (Query (Db.InsertSignature v)) e) (calls_of env p w) ->
        proceeds_simple (run env p w).1 = true).
Proof.
  repeat match goal with |- _ /\ _ => split end.
  - intros config s amt asset ep ip ua o e p Hin.
    pose proof (run_always_calls env _ _ w
      (validatePayment_throw config s amt asset ep ip ua))
      as (v & Hv & Hthrow).
    fold p in Hv, Hthrow. rewrite Hv, (Hthrow o e Hin).
    destruct (is_chain_read o); reflexivity.
  - intros config price ep req o e g Hin.
    pose proof (run_always_calls env _ _ w
      (validatePaymentMiddleware_throw config price ep req))
      as (v & Hv & Hthrow).
    fold g in Hv, Hthrow. rewrite Hv, (Hthrow o e Hin).
    destruct (is_chain_read o); reflexivity.
  - intros config price ep req sig c e p Hin.
    pose proof (run_always_calls env _ _ w
      (validateSOLPayment_throw config price ep req)) as (Hchain & _).
    exact (Hchain sig c e Hin).
  - intros s m Hm. unfold SimplePaymentTracker.isSignatureUsed.
    cbn. rewrite Hm. reflexivity.
  - intros config price ep req v e p Hin.
    pose proof (run_always_calls env _ _ w
      (validateSOLPayment_throw config price ep req)) as (_ & Hins).
    exact (Hins v e Hin).
Qed.

Lemma infrastructure_failure_outcomes_witness :
  let e := Failure "connect ECONNREFUSED 127.0.0.1:5432" in
  let p := PaymentTracker.validatePayment production "SIG_A" 100000 "native"
             "POST /api/query" None None in
  let g := PaymentMiddleware.validatePaymentMiddleware production
             0.0001%float "POST /api/query" (request "SIG_A") in
  let q := simple_request in
  In (threw PoolConnect e) (calls_of storage_down p empty_world)
  /\ accepted (run storage_down p empty_world).1 = false
  /\ In (threw PoolConnect e) (calls_of storage_down g empty_world)
  /\ proceeds (run storage_down g empty_world).1 = false
  /\ In (threw (GetTransaction "SIG_A" confirmed) (Failure "fetch failed"))
        (calls_of rpc_down q empty_world)
  /\ (run rpc_down q empty_world).1 = Returned simple_500
  /\ db_fault storage_down (ticks empty_world)
     = Some "connect ECONNREFUSED 127.0.0.1:5432"
  /\ (run storage_down (SimplePaymentTracker.isSignatureUsed "SIG_A")
        empty_world).1 = Returned false
  /\ (exists v, In (threw (Query (Db.InsertSignature v)) e)
                   (calls_of storage_down q empty_world))
  /\ proceeds_simple (run storage_down q empty_world).1 = true.
Proof.
  intros e p g q.
  assert (H1 : In (threw PoolConnect e) (calls_of storage_down p empty_world))
    by (vm_compute; left; reflexivity).
  assert (H1' : In (threw PoolConnect e) (calls_of storage_down g empty_world))
    by (vm_compute; left; reflexivity).
  assert (H2 : In (threw (GetTransaction "SIG_A" confirmed)
                     (Failure "fetch failed"))
                  (calls_of rpc_down q empty_world))
    by (vm_compute; right; left; reflexivity).
  assert (H3 : db_fault storage_down (ticks empty_world)
               = Some "connect ECONNREFUSED 127.0.0.1:5432") by reflexivity.
  assert (H4 : exists v, In (threw (Query (Db.InsertSignature v)) e)
                           (calls_of storage_down q empty_world)).
  { exists {| Db.ins_signature := "SIG_A";
              Db.ins_network := "solana";
              Db.ins_amount := inl 150000;
              Db.ins_asset := "SOL";
              Db.ins_sender_address :=
                "HKc1p8QY1XquJXEkQ5Qep9CqU3nnpTa7A9YA32jTfWA5";
              Db.ins_receiver_address :=
                "FwJ3yH7AxZjxveFmbK74ZdLp6EaaLLoRffhiKVP3VX98";
              Db.ins_api_endpoint := "POST /api/query";
              Db.ins_block_time := None;
              Db.ins_first_used_at := None;
              Db.ins_usage_count := None;
              Db.ins_ip_address := Some "203.0.113.7";
              Db.ins_user_agent := Some "unknown" |}.
    vm_compute. right. right. left. reflexivity. }
  pose proof (infrastructure_failure_outcomes storage_down empty_world)
    as (Hpt & Hgate & _ & Hused & Hins).
  pose proof (infrastructure_failure_outcomes rpc_down empty_world)
    as (_ & _ & Hchain & _).
  split; [exact H1|]. split.
  { exact (Hpt production "SIG_A" 100000 "native" "POST /api/query" None None
             PoolConnect e H1). }
  split; [exact H1'|]. split.
  { exact (Hgate production 0.0001%float "POST /api/query" (request "SIG_A")
             PoolConnect e H1'). }
  split; [exact H2|]. split.
  { exact (Hchain production 0.0001%float "POST /api/query" (request "SIG_A")
             "SIG_A" confirmed (Failure "fetch failed") H2). }
  split; [exact H3|]. split; [exact (Hused "SIG_A" _ H3)|].
  split; [exact H4|]. destruct H4 as [v Hv].
  exact (Hins production 0.0001%float "POST /api/query" (request "SIG_A")
           v e Hv).
Defined.


(** ** The usage counter *)

(** No statement removes a row or lowers its count. *)
Lemma exec_sql_usage inet now q t i s n :
  Db.usage_count <$> t !! s = Some n ->
  exists n', Db.usage_count <$> (Db.exec_sql inet now q t i).1.2 !! s = Some n'
             /\ n <= n'.
Proof.
  intros Hs. destruct q as [sig|v|sig]; cbn.
  - exists n. split; [exact Hs | lia].
  - destruct (Db.bind_parameters inet v); cbn;
      [exists n; split; [exact Hs | lia]|].
    destruct (Db.row_error v); cbn; [exists n; split; [exact Hs | lia]|].
    destruct (t !! Db.ins_signature v) eqn:Hv; cbn;
      [exists n; split; [exact Hs | lia]|].
    rewrite lookup_insert_ne; [exists n; split; [exact Hs | lia]|].
    intros Heq. rewrite Heq in Hv. rewrite Hv in Hs. discriminate Hs.
  - destruct (t !! sig) as [row|] eqn:Hrow; cbn;
      [|exists n; split; [exact Hs | lia]].
    destruct (Db.INTEGER_MAX <=? Db.usage_count row); cbn;
      [exists n; split; [exact Hs | lia]|].
    destruct (decide (sig = s)) as [->|Hne].
    + rewrite lookup_insert_eq. rewrite Hrow in Hs. cbn in Hs |- *.
      injection Hs as <-. eexists. split; [reflexivity | lia].
    + rewrite lookup_insert_ne by exact Hne. exists n. split; [exact Hs | lia].
Qed.

Lemma exec_usage env o w s n :
  usage w s = Some n ->
  exists n', usage (exec env o w).2 s = Some n' /\ n <= n'.
Proof.
  unfold usage. intros Hs.
  destruct o as [|q| | | |]; cbn; try (exists n; split; [exact Hs | lia]).
  - destruct (db_fault env (ticks w)); cbn; exists n; split; (exact Hs || lia).
  - destruct (db_fault env (ticks w)); cbn;
      [exists n; split; [exact Hs | lia]|].
    pose proof (exec_sql_usage (inet env) (wall_clock env (ticks w)) q
                  (table w) (next_id w) s n Hs) as H.
    destruct (Db.exec_sql _ _ _ _ _) as [[r t] i]. exact H.
Qed.

Lemma run_usage {A} env (p : Prog A) :
  forall w s n, usage w s = Some n ->
    exists n', usage (run env p w).2 s = Some n' /\ n <= n'.
Proof.
  induction p as [a|e|o k IH]; intros w s n Hs; cbn.
  - exists n. split; [exact Hs | lia].
  - exists n. split; [exact Hs | lia].
  - destruct (exec_usage env o w s n Hs) as (n1 & H1 & Hle1).
    destruct (exec env o w) as [r w']. cbn in H1.
    destruct (IH r w' s n1 H1) as (n2 & H2 & Hle2).
    exists n2. split; [exact H2 | lia].
Qed.

Lemma interleave_usage {A} env schedule :
  forall (st : World * list (Task A)) s n, usage st.1 s = Some n ->
    exists n', usage (interleave env schedule st).1 s = Some n' /\ n <= n'.
Proof.
  induction schedule as [|j schedule IH]; intros st s n Hs; cbn.
  - exists n. split; [exact Hs | lia].
  - assert (exists n1, usage (resume env j st).1 s = Some n1 /\ n <= n1)
      as (n1 & H1 & Hle1).
    { unfold resume.
      destruct (st.2 !! j) as [[h [a|e|o k]]|];
        try (exists n; split; [exact Hs | lia]).
      destruct (exec_usage env o st.1 s n Hs) as (n1 & H1 & Hle1).
      destruct (exec env o st.1) as [r w']. exists n1. auto. }
    destruct (IH _ s n1 H1) as (n2 & H2 & Hle2).
    exists n2. split; [exact H2 | lia].
Qed.

(** Once the row is there, each presentation served adds one, up to the
    INTEGER maximum. *)
Lemma serve_replays {A} env (ps : list (Prog A)) s :
  Forall (fun p => forall w row,
            table w !! s = Some row ->
            Db.usage_count row < Db.INTEGER_MAX ->
            usage (run env p w).2 s = Some (Db.usage_count row + 1)) ps ->
  forall w n, usage w s = Some n ->
    n + Z.of_nat (length ps) <= Db.INTEGER_MAX ->
    usage (serve env ps w) s = Some (n + Z.of_nat (length ps)).
Proof.
  induction 1 as [|p ps Hstep _ IH]; intros w n Hs Hmax; cbn [serve length].
  - rewrite Hs. f_equal. lia.
  - cbn [length] in Hmax.
    rewrite (IH _ (n + 1)); [f_equal; lia| |lia].
    unfold usage in Hs.
    destruct (table w !! s) as [row|] eqn:Hrow; [|discriminate Hs].
    cbn in Hs. injection Hs as <-. apply (Hstep w row Hrow). lia.
Qed.

(** C7, as stated, fails in [validateSOLPayment]. Two presentations of
    [SIG_A] that overlap are both let through and the count stored is 1; a
    presentation without a client address is let through and no row is
    stored at all, the INSERT of the address [unknown] into the inet column
    being refused and the refusal swallowed. *)
Lemma presentations_not_all_counted_cex :
  let st := interleave healthy simple_race
              (empty_world, [spawn simple_request; spawn simple_request]) in
  let alone :=
    run healthy
      (SimplePaymentMiddleware.validateSOLPayment production 0.0001%float
         "POST /api/query" (anonymous_request "SIG_A")) empty_world in
  length st.2 = 2%nat
  /\ forallb (fun t => finished (code t)) st.2 = true
  /\ usage st.1 "SIG_A" = Some 1
  /\ proceeds_simple alone.1 = true
  /\ usage alone.2 "SIG_A" = None.
Proof. repeat split; vm_compute; reflexivity. Qed.

(** C7, amended: presentations served one after the other, with storage
    answering. In [validateSOLPayment] the first presentation of a paid
    signature whose row the database accepts creates the row with usage
    count 1 and each later one adds exactly 1: after [k] presentations the
    count is [k], for [k] up to the INTEGER maximum. In [validatePayment]
    each presentation of a signature that has a row adds exactly 1. No call
    of any program, run alone or interleaved with others, removes a row or
    lowers its count. Nothing is stated for presentations that overlap, or
    whose statement the database refuses. *)
Theorem usage_count_counts_presentations env config s :
  storage_up env ->
  (forall w tx sol expected (reqs : list (string * Request)) ep req,
     on_chain env s tx ->
     table w !! s = None ->
     nodeEnv config <> "development" -> s <> "" ->
     Forall (fun q => headers q.2 !! "x-payment-signature" = Some s)
       ((ep, req) :: reqs) ->
     received_sol (solana_receiverAddress config) tx = Some sol ->
     (sol <? expected)%float = false ->
     Db.accepts (inet env)
       (SimplePaymentTracker.values s sol "SOL" (or_else (ip req) "unknown")
          (or_else (headers req !! "user-agent") "unknown") ep) = true ->
     Z.of_nat (length ((ep, req) :: reqs)) <= Db.INTEGER_MAX ->
     usage (serve env
              (map (fun q => SimplePaymentMiddleware.validateSOLPayment
                               config expected q.1 q.2) ((ep, req) :: reqs))
              w) s
     = Some (Z.of_nat (length ((ep, req) :: reqs))))
  /\ (forall w row expected asset
             (reqs : list (string * option string * option string)),
        table w !! s = Some row ->
        Db.usage_count row + Z.of_nat (length reqs) <= Db.INTEGER_MAX ->
        usage (serve env
                 (map (fun q => PaymentTracker.validatePayment
                                  config s expected asset q.1.1 q.1.2 q.2)
                      reqs) w) s
        = Some (Db.usage_count row + Z.of_nat (length reqs)))
  /\ (forall A (p : Prog A) w sig n,
        usage w sig = Some n ->
        exists n', usage (run env p w).2 sig = Some n' /\ n <= n')
  /\ (forall A schedule w (tasks : list (Task A)) sig n,
        usage w sig = Some n ->
        exists n', usage (interleave env schedule (w, tasks)).1 sig = Some n'
                   /\ n <= n').
Proof.
  intros Hdb.
  repeat match goal with |- _ /\ _ => split end.
  - intros w tx sol expected reqs ep req Hrpc Hfresh Hprod Hne Hsig Hrec Hlt
      Hacc Hmax.
    cbn [map serve length fst snd] in *.
    apply Forall_cons in Hsig as [Hq Hsig]. cbn in Hq.
    pose proof (validateSOLPayment_fresh env w config s tx sol expected
                  ep req Hdb Hrpc Hprod Hq Hne Hfresh Hrec) as H.
    cbv zeta in H. rewrite Hlt in H.
    destruct H as (_ & H). destruct (H Hacc) as (lamports & _ & Ht).
    rewrite (serve_replays env _ s) with (n := 1).
    + rewrite length_map. f_equal. lia.
    + apply Forall_map. eapply Forall_impl; [exact Hsig|].
      intros q' Hq' w' row' Hrow' Hmax'.
      destruct (validateSOLPayment_replay env w' config s row' expected
                  q'.1 q'.2 Hdb Hprod Hq' Hne Hrow' Hmax') as (_ & Ht' & _).
      unfold usage. rewrite Ht', lookup_insert_eq. reflexivity.
    + unfold usage. rewrite Ht, lookup_insert_eq. reflexivity.
    + rewrite length_map. lia.
  - intros w row expected asset reqs Hrow Hmax.
    rewrite <- (length_map (fun q => PaymentTracker.validatePayment
                              config s expected asset q.1.1 q.1.2 q.2) reqs)
      in Hmax |- *.
    apply serve_replays; [| unfold usage; now rewrite Hrow | exact Hmax].
    apply Forall_map, Forall_forall. intros q' _ w' row' Hrow' Hmax'.
    destruct (validatePayment_replay env w' config s row' expected asset
                q'.1.1 q'.1.2 q'.2 Hdb Hrow' Hmax') as (_ & Ht' & _).
    unfold usage. rewrite Ht', lookup_insert_eq. reflexivity.
  - intros A p w sig n Hn. exact (run_usage env p w sig n Hn).
  - intros A schedule w tasks sig n Hn.
    exact (interleave_usage env schedule (w, tasks) sig n Hn).
Qed.

Lemma usage_count_counts_presentations_witness :
  let visits := [("POST /api/query/sol", request "SIG_A");
                 ("POST /api/query", anonymous_request "SIG_A")] in
  let clients := [("POST /api/query", Some "203.0.113.7", @None string);
                  ("POST /api/query/sol", Some "198.51.100.2", None);
                  ("POST /api/query", None, None)] in
  storage_up healthy
  /\ usage (serve healthy
              (map (fun q => SimplePaymentMiddleware.validateSOLPayment
                               production 0.0001%float q.1 q.2)
                 (("POST /api/query", request "SIG_A") :: visits))
              empty_world) "SIG_A"
     = Some 3
  /\ usage (serve healthy
              (map (fun q => PaymentTracker.validatePayment production "SIG_A"
                               100000 "native" q.1.1 q.1.2 q.2) clients)
              seen_world) "SIG_A"
     = Some 4.
Proof.
  intros visits clients.
  pose proof (usage_count_counts_presentations healthy production "SIG_A"
                healthy_storage_up) as (Hsimple & Hpt & _).
  split; [exact healthy_storage_up|]. split.
  - eapply (Hsimple empty_world (transfer 150000) _ 0.0001%float visits);
      [exact healthy_on_chain | reflexivity | discriminate | discriminate
      | repeat constructor
      | reflexivity
      | vm_compute; reflexivity | vm_compute; reflexivity
      | vm_compute; discriminate].
  - apply (Hpt seen_world row_A 100000 "native" clients);
      [reflexivity | vm_compute; discriminate].
Defined.

(** ** The lost insert race *)

(** C3, as stated, fails in [validateSOLPayment]. Two requests for [SIG_A]
    race; the INSERT of the second is refused as a duplicate, and the request
    is let through: the outcome is not the 409 of the lookup. *)
Lemma duplicate_key_not_replay_outcome_cex :
  let st := interleave healthy simple_race
              (empty_world, [spawn simple_request; spawn simple_request]) in
  exists h l, st.2 !! 1%nat
              = Some {| history := h;
                        code := Ret (SimplePaymentMiddleware.Next l) |}
              /\ existsb lost_insert_race h = true.
Proof. eexists. eexists. split; vm_compute; reflexivity. Qed.

(** C3, amended: in every interleaving, a [validateSOLPayment] request whose
    INSERT fails, with the duplicate-key violation or with any other error,
    is let through: [recordPayment] swallows the error, and the outcome is
    [next()], not the 409 of the lookup and not an error answer. *)
Theorem duplicate_key_is_swallowed env schedule w tasks i config price ep req
    t v e :
  tasks !! i = Some (spawn (SimplePaymentMiddleware.validateSOLPayment
                              config price ep req)) ->
  (interleave env schedule (w, tasks)).2 !! i = Some t ->
  finished (code t) = true ->
  In (threw (Query (Db.InsertSignature v)) e) (history t) ->
  task_proceeds t = true /\ code t <> Ret simple_409.
Proof.
  intros Hi Ht Hfin Hin.
  destruct (interleave_always env _ schedule (w, tasks) i _ Hi
              (validateSOLPayment_throw config price ep req))
    as (t' & Ht' & Halw).
  rewrite Ht in Ht'. injection Ht' as <-.
  unfold task_proceeds.
  destruct (code t) as [a|e'|o k]; [| |discriminate Hfin]; cbn in Halw.
  - destruct Halw as (_ & Hins). specialize (Hins _ _ Hin).
    destruct a; try discriminate Hins. split; [reflexivity | discriminate].
  - destruct Halw as (_ & Hins). specialize (Hins _ _ Hin).
    discriminate Hins.
Qed.

Lemma duplicate_key_is_swallowed_witness :
  let st := interleave healthy simple_race
              (empty_world, [spawn simple_request; spawn simple_request]) in
  exists t v,
    st.2 !! 1%nat = Some t
    /\ finished (code t) = true
    /\ In (threw (Query (Db.InsertSignature v)) UniqueViolation) (history t)
    /\ task_proceeds t = true.
Proof.
  intros st.
  assert (exists t v,
            st.2 !! 1%nat = Some t
            /\ finished (code t) = true
            /\ In (threw (Query (Db.InsertSignature v)) UniqueViolation)
                  (history t)) as (t & v & Ht & Hfin & Hin).
  { eexists. eexists. split; [vm_compute; reflexivity|].
    split; [reflexivity|]. cbn. do 2 right. left. reflexivity. }
  exists t, v. split; [exact Ht|]. split; [exact Hfin|]. split; [exact Hin|].
  exact (proj1 (duplicate_key_is_swallowed healthy simple_race empty_world
                  [spawn simple_request; spawn simple_request] 1%nat
                  production 0.0001%float "POST /api/query" (request "SIG_A")
                  t v UniqueViolation eq_refl Ht Hfin Hin)).
Defined.

(** ** Requests racing on a fresh signature *)

Lemma count_cons {A} (f : A -> bool) x l :
  count f (x :: l) = ((if f x then 1 else 0) + count f l)%nat.
Proof. unfold count. cbn. destruct (f x); reflexivity. Qed.

Lemma count_insert_same {A} (f : A -> bool) l j x y :
  l !! j = Some x -> f y = f x -> count f (<[j := y]> l) = count f l.
Proof.
  revert j. induction l as [|z l IH]; intros [|j] Hj Hf; simpl in *;
    try discriminate.
  - injection Hj as ->. rewrite !count_cons, Hf. reflexivity.
  - rewrite !count_cons, (IH j Hj Hf). reflexivity.
Qed.

Lemma count_none {A} (f : A -> bool) l :
  Forall (fun x => f x = false) l -> count f l = 0%nat.
Proof.
  induction 1 as [|x l Hx _ IH]; [reflexivity|].
  rewrite count_cons, Hx, IH. reflexivity.
Qed.

Lemma count_insert_first {A} (f : A -> bool) l j x y :
  Forall (fun x => f x = false) l -> l !! j = Some x -> f y = true ->
  count f (<[j := y]> l) = 1%nat.
Proof.
  intros Hall. revert j.
  induction Hall as [|z l Hz Hall IH]; intros [|j] Hj Hf; simpl in *;
    try discriminate.
  - rewrite count_cons, Hf, (count_none f l Hall). reflexivity.
  - rewrite count_cons, Hz, (IH j Hj Hf). reflexivity.
Qed.

(** The checks of an INSERT raise errors of the driver, never the unique
    violation. *)
Lemma bind_parameters_failure inet v e :
  Db.bind_parameters inet v = inl e -> exists m, e = Failure m.
Proof.
  unfold Db.bind_parameters.
  destruct (Db.ins_amount v) as [amt|text]; [|intros [= <-]; eauto].
  destruct (_ || _); [intros [= <-]; eauto|].
  destruct (_ || _); [intros [= <-]; eauto|].
  destruct (Db.ins_ip_address v) as [a|]; [|discriminate].
  destruct (_ && _); [discriminate | intros [= <-]; eauto].
Qed.

Lemma row_error_failure v e :
  Db.row_error v = Some e -> exists m, e = Failure m.
Proof.
  unfold Db.row_error, Db.too_long.
  repeat (destruct (_ <? _)%nat; [intros [= <-]; eauto|]).
  discriminate.
Qed.

(** Working storage and a node that has [tx] for [s] give the expected
    answers. *)
Lemma exec_expected env s tx o w :
  storage_up env -> on_chain env s tx ->
  expected_reply env s tx o (exec env o w).1.
Proof.
  intros Hdb Hrpc. destruct o as [|q| |sig c| |]; cbn;
    rewrite ?Hdb; cbn; eauto.
  - destruct q as [sig|v|sig]; cbn; eauto.
    unfold Db.accepts.
    destruct (Db.bind_parameters (inet env) v) as [e|amt] eqn:Hb; cbn.
    + destruct (bind_parameters_failure _ _ _ Hb) as [m ->]. reflexivity.
    + destruct (Db.row_error v) as [e|] eqn:Hrow; cbn.
      * destruct (row_error_failure _ _ Hrow) as [m ->]. reflexivity.
      * destruct (table w !! Db.ins_signature v); cbn; eauto.
  - intros ->. apply Hrpc.
Qed.

(** What one call does to the row of [s], and what its answer tells. *)
Lemma exec_standing env s o w :
  storage_up env ->
  (table w !! s = None ->
     (learns s Fresh o (exec env o w).1 = Won
      /\ is_Some (table (exec env o w).2 !! s))
     \/ (learns s Fresh o (exec env o w).1 = Fresh
         /\ table (exec env o w).2 !! s = None))
  /\ (is_Some (table w !! s) ->
        is_Some (table (exec env o w).2 !! s)
        /\ forall g, is_won (learns s g o (exec env o w).1) = is_won g).
Proof.
  intros Hdb. destruct o as [|q| |sig c| |]; cbn; rewrite ?Hdb; cbn;
    try solve [split; [intros H; right; auto | intros H; split; auto]].
  destruct q as [sig|v|sig]; cbn.
  - destruct (String.eqb_spec sig s) as [->|Hne].
    + split.
      * intros H. right. rewrite H. auto.
      * intros H. split; [exact H|]. intros g.
        destruct (table w !! s); cbn; [|reflexivity]. destruct g; reflexivity.
    + split; [intros H; right; auto | intros H; split; auto].
  - destruct (Db.bind_parameters (inet env) v) as [e|amt] eqn:Hb; cbn.
    { destruct (bind_parameters_failure _ _ _ Hb) as [m ->].
      destruct (Db.ins_signature v =? s)%string;
        (split; [intros H; right; auto | intros H; split; auto]). }
    destruct (Db.row_error v) as [e|] eqn:Hrow; cbn.
    { destruct (row_error_failure _ _ Hrow) as [m ->].
      destruct (Db.ins_signature v =? s)%string;
        (split; [intros H; right; auto | intros H; split; auto]). }
    destruct (String.eqb_spec (Db.ins_signature v) s) as [Heq|Hne].
    + rewrite Heq. split.
      * intros H. left. rewrite H. cbn. rewrite lookup_insert_eq. eauto.
      * intros [row Hrow']. rewrite Hrow'. cbn. rewrite Hrow'.
        split; [eauto|]. intros g. destruct g; reflexivity.
    + destruct (table w !! Db.ins_signature v); cbn.
      * split; [intros H; right; auto | intros H; split; auto].
      * rewrite lookup_insert_ne by exact Hne.
        split; [intros H; right; auto | intros H; split; auto].
  - destruct (table w !! sig) as [row|] eqn:Hsig; cbn;
      [|split; [intros H; right; auto | intros H; split; auto]].
    destruct (Db.INTEGER_MAX <=? Db.usage_count row); cbn;
      [split; [intros H; right; auto | intros H; split; auto]|].
    destruct (decide (sig = s)) as [->|Hne].
    + rewrite lookup_insert_eq. split.
      * intros H. rewrite H in Hsig. discriminate Hsig.
      * intros _. split; [eauto | auto].
    + rewrite lookup_insert_ne by exact Hne.
      split; [intros H; right; auto | intros H; split; auto].
Qed.

(** A request has inserted the row exactly when one of its calls is an
    INSERT for [s] that went through. *)
Lemma learns_won s g o (r : Outcome (Reply o)) :
  is_won (learns s g o r)
  = is_won g
    || inserted s {| call_op := o; call_threw := outcome_error r |}.
Proof.
  destruct o as [|q| |sig c| |]; cbn; try (now rewrite orb_false_r).
  destruct q as [sig|v|sig]; cbn; try (now rewrite orb_false_r).
  - destruct (sig =? s)%string; [|now rewrite orb_false_r].
    destruct r as [[|row rows]|e]; cbn; try (now rewrite orb_false_r).
    destruct g; reflexivity.
  - destruct r as [rows|[|m]]; cbn;
      destruct (Db.ins_signature v =? s)%string; cbn;
      rewrite ?orb_false_r, ?orb_true_r; try reflexivity.
    destruct g; reflexivity.
Qed.

(** With storage answering and a sufficient transfer on chain for a row the
    database accepts, a [validateSOLPayment] request for [s] raises nothing
    and answers: 409 if its lookup saw the row, [next()] if it reached the
    INSERT, whether the INSERT went through or was refused. *)
Lemma guarded_validateSOLPayment env config s tx sol price ep req :
  nodeEnv config <> "development" ->
  headers req !! "x-payment-signature" = Some s -> s <> "" ->
  received_sol (solana_receiverAddress config) tx = Some sol ->
  (sol <? price)%float = false ->
  Db.accepts (inet env)
    (SimplePaymentTracker.values s sol "SOL" (or_else (ip req) "unknown")
       (or_else (headers req !! "user-agent") "unknown") ep) = true ->
  guarded env s tx good_answer Fresh
    (SimplePaymentMiddleware.validateSOLPayment config price ep req).
Proof.
  intros Hprod Hsig Hne Hrec Hlt Hacc.
  destruct (received_sol_inv _ _ _ Hrec)
    as (m & i & Hm & He & Hkey & Hv0 & Hi & Hsol).
  unfold_simple.
  apply String.eqb_neq in Hprod, Hne.
  rewrite Hprod, Hsig. cbn [truthy negb default]. rewrite Hne. cbn [negb].
  cbn. intros r [rows ->]. cbn. rewrite String.eqb_refl.
  destruct rows as [|row rows]; cbn.
  - (* the lookup misses: the chain is read, then the INSERT *)
    intros r Hr. rewrite (Hr eq_refl). cbn.
    rewrite Hm. cbn. rewrite He. cbn. rewrite Hkey. cbn. rewrite Hv0. cbn.
    rewrite Hi. cbn. rewrite Hsol, Hlt. cbn. rewrite String.eqb_refl.
    intros [rows|[|msg]] Hins; cbn in *.
    + eauto.
    + eauto.
    + fold (SimplePaymentTracker.values s sol "SOL"
              (or_else (ip req) "unknown")
              (or_else (headers req !! "user-agent") "unknown") ep) in Hins.
      rewrite Hacc in Hins. discriminate Hins.
  - (* the lookup hits: the replay is counted *)
    intros [x|e] _; reflexivity.
Qed.

Lemma resume_guarded {A} env s tx (good : Standing -> A -> Prop) j st gs :
  storage_up env -> on_chain env s tx ->
  Forall2 (in_step env s tx good) gs st.2 ->
  standing_inv s st.1 gs ->
  exists gs',
    Forall2 (in_step env s tx good) gs' (resume env j st).2
    /\ standing_inv s (resume env j st).1 gs'.
Proof.
  intros Hdb Hrpc Hall Hinv. unfold resume.
  destruct (st.2 !! j) as [[h [a|e|o k]]|] eqn:Hj; eauto.
  destruct (Forall2_lookup_r _ _ _ _ _ Hall Hj) as (g & Hg & Hguard & Hwon).
  cbn in Hguard, Hwon.
  pose proof (exec_expected env s tx o st.1 Hdb Hrpc) as Hexp.
  pose proof (exec_standing env s o st.1 Hdb) as [Hnone Hsome].
  destruct (exec env o st.1) as [r w'] eqn:He. cbn in Hexp, Hnone, Hsome |- *.
  exists (<[j := learns s g o r]> gs). split.
  - apply Forall2_insert; [exact Hall|]. split; cbn.
    + apply Hguard, Hexp.
    + unfold task_inserted in *. cbn.
      rewrite learns_won, existsb_app, Hwon. cbn.
      now rewrite orb_false_r.
  - destruct Hinv as [Hfresh Hone].
    destruct (table st.1 !! s) as [row|] eqn:Hrow.
    + destruct (Hsome (ex_intro _ row eq_refl)) as [Hstill Hwon'].
      split; [intros H; rewrite H in Hstill; destruct Hstill; discriminate|].
      intros _. rewrite (count_insert_same is_won gs j g); auto.
    + specialize (Hfresh eq_refl).
      assert (g = Fresh) as -> by exact (proj1 (Forall_lookup _ _) Hfresh j g Hg).
      destruct (Hnone eq_refl) as [[Hl Hstill]|[Hl Hstill]]; rewrite Hl.
      * split; [intros H; rewrite H in Hstill; destruct Hstill; discriminate|].
        intros _. apply (count_insert_first is_won gs j Fresh); auto.
        eapply Forall_impl; [exact Hfresh|]. intros g' ->. reflexivity.
      * split; [|intros H; rewrite Hstill in H; destruct H; discriminate].
        intros _. apply Forall_insert; auto.
Qed.

Lemma interleave_guarded {A} env s tx (good : Standing -> A -> Prop) schedule :
  storage_up env -> on_chain env s tx ->
  forall st gs,
    Forall2 (in_step env s tx good) gs st.2 ->
    standing_inv s st.1 gs ->
    exists gs',
      Forall2 (in_step env s tx good) gs' (interleave env schedule st).2
      /\ standing_inv s (interleave env schedule st).1 gs'.
Proof.
  intros Hdb Hrpc.
  induction schedule as [|j schedule IH]; intros st gs Hall Hinv; cbn.
  - eauto.
  - destruct (resume_guarded env s tx good j st gs Hdb Hrpc Hall Hinv)
      as (gs1 & Hall1 & Hinv1).
    exact (IH _ gs1 Hall1 Hinv1).
Qed.

(** Among finished requests, the one that inserted the row is let through,
    none is without an answer on the row, and every one is either let
    through or refused as a replay. *)
Lemma finished_standings env gs tasks s tx :
  Forall2 (in_step env s tx good_answer) gs tasks ->
  Forall (fun t => finished (code t) = true) tasks ->
  (count is_won gs <= count task_proceeds tasks)%nat
  /\ count (task_inserted s) tasks = count is_won gs
  /\ Forall (fun g => g <> Fresh) gs
  /\ Forall let_through_or_replay tasks.
Proof.
  induction 1 as [|g t gs tasks [Hg Hwon] Hall IH]; intros Hfin.
  - repeat split; constructor.
  - apply Forall_cons in Hfin as [Hft Hfin].
    destruct (IH Hfin) as (Hle & Hcount & Hseen & Hboth).
    rewrite !count_cons, Hcount, <- Hwon.
    unfold task_proceeds at 1, let_through_or_replay.
    destruct (code t) as [v|e|o k] eqn:Hcode; cbn in *; try discriminate Hft;
      try contradiction.
    destruct g; cbn in Hg; try contradiction.
    + subst v. repeat split; [cbn; lia | | ].
      * constructor; [discriminate | exact Hseen].
      * constructor; [right; rewrite Hcode; reflexivity | exact Hboth].
    + destruct Hg as [l ->]. repeat split; [cbn; lia | | ].
      * constructor; [discriminate | exact Hseen].
      * constructor; [left; rewrite Hcode; eauto | exact Hboth].
    + destruct Hg as [l ->]. repeat split; [cbn; lia | | ].
      * constructor; [discriminate | exact Hseen].
      * constructor; [left; rewrite Hcode; eauto | exact Hboth].
Qed.

(** *** Every request finishes *)

Lemma within_validatePayment config s amt asset ep ip ua :
  within 8 (PaymentTracker.validatePayment config s amt asset ep ip ua).
Proof.
  unfold_tracker.
  repeat (cbn;
    match goal with
    | |- forall r : Outcome _, _ => intros [?|?]
    | |- within _ ?p =>
        match p with
        | context [match ?x with _ => _ end] => destruct x eqn:?
        | context [if ?x then _ else _] => destruct x eqn:?
        end
    end); exact I.
Qed.

Lemma within_finished {A} (p : Prog A) : within 0 p -> finished p = true.
Proof. destruct p; cbn; [reflexivity | reflexivity | contradiction]. Qed.

Lemma resume_length {A} env j (st : World * list (Task A)) :
  length (resume env j st).2 = length st.2.
Proof.
  unfold resume. destruct (st.2 !! j) as [[h [a|e|o k]]|]; try reflexivity.
  destruct (exec env o st.1) as [r w']. cbn. apply length_insert.
Qed.

Lemma interleave_length {A} env schedule :
  forall st : World * list (Task A),
    length (interleave env schedule st).2 = length st.2.
Proof.
  induction schedule as [|j schedule IH]; intros st; cbn; [reflexivity|].
  etransitivity; [apply (IH (resume env j st)) | apply resume_length].
Qed.

Lemma resume_within {A} env j (st : World * list (Task A)) i t n :
  st.2 !! i = Some t -> within n (code t) ->
  exists t', (resume env j st).2 !! i = Some t'
             /\ within (n - (if Nat.eqb i j then 1 else 0)) (code t').
Proof.
  intros Hi Ht. unfold resume.
  destruct (Nat.eqb_spec i j) as [<-|Hne].
  - rewrite Hi. destruct t as [h [a|e|o k]]; cbn in *.
    + exists {| history := h; code := Ret a |}. split; [exact Hi | exact I].
    + exists {| history := h; code := Throw e |}. split; [exact Hi | exact I].
    + destruct n as [|n]; [contradiction|].
      destruct (exec env o st.1) as [r w']. cbn.
      eexists. split.
      * apply list_lookup_insert_eq. eapply lookup_lt_Some, Hi.
      * cbn. rewrite Nat.sub_0_r. apply Ht.
  - rewrite Nat.sub_0_r.
    destruct (st.2 !! j) as [[h [a|e|o k]]|]; eauto.
    destruct (exec env o st.1) as [r w']. cbn.
    exists t. split; [|exact Ht].
    rewrite list_lookup_insert_ne by auto. exact Hi.
Qed.

Lemma interleave_within {A} env schedule :
  forall (st : World * list (Task A)) i t n,
    st.2 !! i = Some t -> within n (code t) ->
    exists t', (interleave env schedule st).2 !! i = Some t'
               /\ within (n - turns i schedule) (code t').
Proof.
  induction schedule as [|j schedule IH]; intros st i t n Hi Ht; cbn.
  - exists t. split; [exact Hi|]. unfold turns, count. cbn.
    rewrite Nat.sub_0_r. exact Ht.
  - destruct (resume_within env j st i t n Hi Ht) as (t1 & Hi1 & Ht1).
    destruct (IH _ i t1 _ Hi1 Ht1) as (t2 & Hi2 & Ht2).
    exists t2. split; [exact Hi2|].
    unfold turns in *. rewrite count_cons, Nat.sub_add_distr. exact Ht2.
Qed.

Lemma within_validateSOLPayment config price ep req :
  within 7 (SimplePaymentMiddleware.validateSOLPayment config price ep req).
Proof.
  unfold_simple.
  repeat (cbn;
    match goal with
    | |- forall r : Outcome _, _ => intros [?|?]
    | |- within _ ?p =>
        match p with
        | context [match ?x with _ => _ end] => destruct x eqn:?
        | context [if ?x then _ else _] => destruct x eqn:?
        end
    end); exact I.
Qed.

(** *** The answer of each request *)

Lemma interleave_app {A} env s1 s2 (st : World * list (Task A)) :
  interleave env (s1 ++ s2) st = interleave env s2 (interleave env s1 st).
Proof. unfold interleave. apply foldl_app. Qed.

(** A request the schedule has not resumed is as it was. *)
Lemma interleave_untouched {A} env schedule :
  forall (st : World * list (Task A)) i,
    turns i schedule = 0%nat ->
    (interleave env schedule st).2 !! i = st.2 !! i.
Proof.
  induction schedule as [|j schedule IH]; intros st i Hi; cbn; [reflexivity|].
  unfold turns in Hi. rewrite count_cons in Hi.
  destruct (Nat.eqb_spec i j) as [Heq|Hne]; [discriminate Hi|].
  etransitivity; [exact (IH (resume env j st) i Hi)|].
  unfold resume. destruct (st.2 !! j) as [[h [a|e|o k]]|]; try reflexivity.
  destruct (exec env o st.1) as [r w']. cbn.
  apply list_lookup_insert_ne. congruence.
Qed.

(** The first turn of a request. *)
Lemma resume_first_step {A} env i (st : World * list (Task A)) o k :
  st.2 !! i = Some (spawn (Await o k)) ->
  (resume env i st).2 !! i
  = Some {| history := [ {| call_op := o;
                            call_threw := outcome_error (exec env o st.1).1 |} ];
            code := k (exec env o st.1).1 |}.
Proof.
  intros Hi. unfold resume. rewrite Hi. cbn.
  destruct (exec env o st.1) as [r w']. cbn.
  apply list_lookup_insert_eq. eapply lookup_lt_Some, Hi.
Qed.

(** [guarded] along an interleaving, for one request. *)
Lemma resume_guarded_one {A} env s tx (good : Standing -> A -> Prop) j st i
    t g :
  storage_up env -> on_chain env s tx ->
  st.2 !! i = Some t -> guarded env s tx good g (code t) ->
  exists t' g', (resume env j st).2 !! i = Some t'
                /\ guarded env s tx good g' (code t').
Proof.
  intros Hdb Hrpc Hi Ht. unfold resume.
  destruct (st.2 !! j) as [[h [a|e|o k]]|] eqn:Hj; eauto.
  pose proof (exec_expected env s tx o st.1 Hdb Hrpc) as Hexp.
  destruct (exec env o st.1) as [r w']. cbn in Hexp |- *.
  destruct (decide (j = i)) as [->|Hne].
  - rewrite Hi in Hj. injection Hj as ->. cbn in Ht.
    eexists _, _. split.
    + apply list_lookup_insert_eq. eapply lookup_lt_Some, Hi.
    + cbn. apply Ht, Hexp.
  - exists t, g. split; [|exact Ht].
    rewrite list_lookup_insert_ne by exact Hne. exact Hi.
Qed.

Lemma interleave_guarded_one {A} env s tx (good : Standing -> A -> Prop)
    schedule :
  storage_up env -> on_chain env s tx ->
  forall st i t g,
    st.2 !! i = Some t -> guarded env s tx good g (code t) ->
    exists t' g', (interleave env schedule st).2 !! i = Some t'
                  /\ guarded env s tx good g' (code t').
Proof.
  intros Hdb Hrpc.
  induction schedule as [|j schedule IH]; intros st i t g Hi Ht; cbn.
  - eauto.
  - destruct (resume_guarded_one env s tx good j st i t g Hdb Hrpc Hi Ht)
      as (t' & g' & Hi' & Ht').
    exact (IH _ i t' g' Hi' Ht').
Qed.

(** The first call of a request is its lookup, and the answer of the lookup
    decides: with a row, whatever happens next the answer is 409; with none,
    under the answers of working storage the request is let through. *)
Lemma validateSOLPayment_first_step env config s tx sol price ep req :
  nodeEnv config <> "development" ->
  headers req !! "x-payment-signature" = Some s -> s <> "" ->
  received_sol (solana_receiverAddress config) tx = Some sol ->
  (sol <? price)%float = false ->
  Db.accepts (inet env)
    (SimplePaymentTracker.values s sol "SOL" (or_else (ip req) "unknown")
       (or_else (headers req !! "user-agent") "unknown") ep) = true ->
  exists k,
    SimplePaymentMiddleware.validateSOLPayment config price ep req
    = Await (Query (Db.SelectBySignature s)) k
    /\ (forall row rows tr,
          always (fun _ out => out = Returned simple_409) tr
            (k (Returned (row :: rows))))
    /\ guarded env s tx
         (fun _ r => exists l, r = SimplePaymentMiddleware.Next (Some l))
         Fresh (k (Returned [])).
Proof.
  intros Hprod Hsig Hne Hrec Hlt Hacc.
  destruct (received_sol_inv _ _ _ Hrec)
    as (m & i & Hm & He & Hkey & Hv0 & Hi & Hsol).
  unfold_simple.
  apply String.eqb_neq in Hprod, Hne.
  rewrite Hprod, Hsig. cbn [truthy negb default]. rewrite Hne. cbn [negb].
  cbn. eexists. split; [reflexivity|]. cbn. split.
  - intros row rows tr [x|e] _; reflexivity.
  - intros r Hr. rewrite (Hr eq_refl). cbn.
    rewrite Hm. cbn. rewrite He. cbn. rewrite Hkey. cbn. rewrite Hv0. cbn.
    rewrite Hi. cbn. rewrite Hsol, Hlt. cbn.
    intros [rows|[|msg]] Hins; cbn in *.
    + eauto.
    + eauto.
    + fold (SimplePaymentTracker.values s sol "SOL"
              (or_else (ip req) "unknown")
              (or_else (headers req !! "user-agent") "unknown") ep) in Hins.
      rewrite Hacc in Hins. discriminate Hins.
Qed.

(** C1, as stated, fails in [validateSOLPayment]: two requests for the
    paid, fresh signature [SIG_A] both look it up before either inserts it;
    the INSERT of the second is refused, the refusal is swallowed, and both
    requests are let through. *)
Lemma simple_gate_accepts_both_cex :
  let st := interleave healthy simple_race
              (empty_world, [spawn simple_request; spawn simple_request]) in
  forallb (fun t => finished (code t)) st.2 = true
  /\ count task_proceeds st.2 = 2%nat.
Proof. repeat split; vm_compute; reflexivity. Qed.

(** C1, amended: [validateSOLPayment] requests racing on one fresh signature
    with a sufficient transfer on chain, storage answering, each with a row
    the database accepts. Whatever the schedule, a request that has answered
    was let through if the row was not in the table when its lookup ran (its
    first turn), and refused with 409 as a replay if it was. Once every
    request has answered, at least one was let through, none got an error
    answer, and exactly one of them has inserted the row, which is in the
    table: every request whose lookup ran before that INSERT is let through,
    the loser of the INSERT included. Every request has answered as soon as
    the schedule has given each of them seven turns. *)
Theorem race_on_fresh_signature env schedule w config s tx sol price
    (reqs : list (string * Request)) :
  storage_up env ->
  on_chain env s tx ->
  table w !! s = None ->
  nodeEnv config <> "development" -> s <> "" ->
  received_sol (solana_receiverAddress config) tx = Some sol ->
  (sol <? price)%float = false ->
  Forall (fun q =>
            headers q.2 !! "x-payment-signature" = Some s
            /\ Db.accepts (inet env)
                 (SimplePaymentTracker.values s sol "SOL"
                    (or_else (ip q.2) "unknown")
                    (or_else (headers q.2 !! "user-agent") "unknown") q.1)
               = true) reqs ->
  reqs <> [] ->
  let tasks :=
    map (fun q => spawn (SimplePaymentMiddleware.validateSOLPayment
                           config price q.1 q.2)) reqs in
  let st := interleave env schedule (w, tasks) in
  ((forall i, (i < length reqs)%nat -> (7 <= turns i schedule)%nat) ->
   Forall (fun t => finished (code t) = true) st.2)
  /\ (forall before after i t,
        schedule = before ++ i :: after ->
        turns i before = 0%nat ->
        st.2 !! i = Some t -> finished (code t) = true ->
        match table (interleave env before (w, tasks)).1 !! s with
        | Some _ => code t = Ret simple_409
        | None => exists l, code t = Ret (SimplePaymentMiddleware.Next (Some l))
        end)
  /\ (Forall (fun t => finished (code t) = true) st.2 ->
      Forall let_through_or_replay st.2
      /\ (1 <= count task_proceeds st.2)%nat
      /\ count (task_inserted s) st.2 = 1%nat
      /\ is_Some (table st.1 !! s)).
Proof.
  intros Hdb Hrpc Hfresh Hprod Hne Hrec Hlt Hreqs Hnil tasks st.
  assert (Hlen : length st.2 = length reqs).
  { unfold st. rewrite interleave_length. cbn. unfold tasks.
    apply length_map. }
  split; [|split].
  - (* every request answers *)
    intros Hturns. apply Forall_lookup. intros i t Hi.
    assert (Hlt' : (i < length reqs)%nat)
      by (rewrite <- Hlen; eapply lookup_lt_Some, Hi).
    destruct (lookup_lt_is_Some_2 tasks i) as [t0 Ht0].
    { unfold tasks. rewrite length_map. exact Hlt'. }
    assert (Hw : within 7 (code t0)).
    { unfold tasks in Ht0. rewrite list_lookup_fmap in Ht0.
      destruct (reqs !! i) as [q|]; [|discriminate Ht0].
      injection Ht0 as <-. apply within_validateSOLPayment. }
    destruct (interleave_within env schedule (w, tasks) i t0 7 Ht0 Hw)
      as (t' & Ht' & Hw').
    fold st in Ht'. rewrite Hi in Ht'. injection Ht' as <-.
    apply within_finished.
    replace (7 - turns i schedule)%nat with 0%nat in Hw'
      by (specialize (Hturns i Hlt'); lia).
    exact Hw'.
  - (* the answer of each request *)
    intros before after i t Hsplit Hturns Hi Hfin.
    assert (Hq : exists q, reqs !! i = Some q).
    { apply lookup_lt_is_Some_2. rewrite <- Hlen.
      eapply lookup_lt_Some, Hi. }
    destruct Hq as [q Hq].
    destruct (proj1 (Forall_lookup _ _) Hreqs i q Hq) as [Hsig Hacc].
    destruct (validateSOLPayment_first_step env config s tx sol price q.1 q.2
                Hprod Hsig Hne Hrec Hlt Hacc) as (k & Hk & Hhit & Hmiss).
    set (mid := interleave env before (w, tasks)).
    assert (Hmid : mid.2 !! i
                   = Some (spawn (Await (Query (Db.SelectBySignature s)) k))).
    { unfold mid. rewrite interleave_untouched by exact Hturns. cbn.
      unfold tasks. rewrite list_lookup_fmap, Hq. cbn. now rewrite Hk. }
    pose proof (resume_first_step env i mid _ _ Hmid) as Hstep.
    assert (Hst : st = interleave env after (resume env i mid)).
    { unfold st, mid. rewrite Hsplit, interleave_app. reflexivity. }
    assert (Hsel : (exec env (Query (Db.SelectBySignature s)) mid.1).1
                   = Returned (option_list (table mid.1 !! s))).
    { cbn. rewrite Hdb. reflexivity. }
    rewrite Hsel in Hstep.
    destruct (table mid.1 !! s) as [row|] eqn:Hrow; cbn in Hstep.
    + destruct (interleave_always env _ after (resume env i mid) i _ Hstep
                  (Hhit row [] _)) as (t' & Ht' & Halw).
      rewrite <- Hst, Hi in Ht'. injection Ht' as <-.
      destruct (code t) as [a|e|o k']; [| |discriminate Hfin]; cbn in Halw.
      * now injection Halw as ->.
      * discriminate Halw.
    + destruct (interleave_guarded_one env s tx _ after Hdb Hrpc
                  (resume env i mid) i _ Fresh Hstep Hmiss)
        as (t' & g' & Ht' & Hg).
      rewrite <- Hst, Hi in Ht'. injection Ht' as <-.
      destruct (code t) as [a|e|o k']; [| |discriminate Hfin]; cbn in Hg.
      * destruct Hg as [l ->]. eauto.
      * contradiction.
  - (* once all have answered *)
    intros Hfin.
    assert (Hall : Forall2 (in_step env s tx good_answer)
                     (replicate (length reqs) Fresh) tasks).
    { unfold tasks. clear -Hprod Hne Hrec Hlt Hreqs.
      induction Hreqs as [|q l [Hq Hacc] _ IH]; cbn; constructor;
        [|exact IH].
      split; [|reflexivity].
      apply (guarded_validateSOLPayment env config s tx sol price);
        assumption. }
    assert (Hinv : standing_inv s w (replicate (length reqs) Fresh)).
    { split.
      - intros _. apply Forall_replicate. reflexivity.
      - intros [row Hrow]. rewrite Hfresh in Hrow. discriminate Hrow. }
    destruct (interleave_guarded env s tx good_answer schedule Hdb Hrpc
                (w, tasks) _ Hall Hinv) as (gs & Hall' & [Hnone Hone]).
    fold st in Hall', Hnone, Hone.
    destruct (finished_standings env gs st.2 s tx Hall' Hfin)
      as (Hle & Hcount & Hseen & Hboth).
    assert (Hrow : is_Some (table st.1 !! s)).
    { destruct (table st.1 !! s) as [row|] eqn:Hrow; [eauto|].
      exfalso. specialize (Hnone eq_refl).
      destruct gs as [|g gs].
      - apply Forall2_length in Hall'. rewrite Hlen in Hall'.
        destruct reqs; [contradiction | discriminate Hall'].
      - apply Forall_cons in Hnone as [-> _].
        apply Forall_cons in Hseen as [Hg _]. contradiction. }
    specialize (Hone Hrow).
    split; [exact Hboth|]. split; [lia|]. split; [lia | exact Hrow].
Qed.

Lemma race_on_fresh_signature_witness :
  let st := interleave healthy simple_race
              (empty_world, [spawn simple_request; spawn simple_request]) in
  storage_up healthy
  /\ on_chain healthy "SIG_A" (transfer 150000)
  /\ table empty_world !! "SIG_A" = None
  /\ Forall (fun t => finished (code t) = true) st.2
  /\ Forall let_through_or_replay st.2
  /\ (1 <= count task_proceeds st.2)%nat
  /\ count (task_inserted "SIG_A") st.2 = 1%nat
  /\ is_Some (table st.1 !! "SIG_A").
Proof.
  intros st.
  assert (Hfresh : table empty_world !! "SIG_A" = None) by reflexivity.
  assert (Hfin : Forall (fun t => finished (code t) = true) st.2).
  { repeat constructor. }
  destruct (proj2 (proj2 (race_on_fresh_signature healthy simple_race
              empty_world
              production "SIG_A" (transfer 150000) _ 0.0001%float
              [("POST /api/query", request "SIG_A");
               ("POST /api/query", request "SIG_A")]
              healthy_storage_up healthy_on_chain Hfresh
              ltac:(discriminate) ltac:(discriminate) eq_refl
              ltac:(vm_compute; reflexivity)
              ltac:(repeat constructor; vm_compute; reflexivity)
              ltac:(discriminate))) Hfin) as (Hboth & Hone & Hins & Hrow).
  split; [exact healthy_storage_up|]. split; [exact healthy_on_chain|].
  split; [exact Hfresh|]. split; [exact Hfin|].
  split; [exact Hboth|]. split; [exact Hone|]. split; [exact Hins | exact Hrow].
Defined.
(** * Further properties of the gates *)

(** ** Transactions that do not pay *)

Lemma node_with_storage_up tx : storage_up (node_with tx).
Proof. intros n. reflexivity. Qed.

Lemma node_with_on_chain tx : on_chain (node_with tx) "SIG_A" tx.
Proof. intros n c. reflexivity. Qed.

(** X1: a signature the node does not know, not yet in the table, with
    storage answering. [validatePayment] rejects with isFirstUse true and
    the not-found error, for every expected amount and asset, and stores
    nothing, so presenting it again gives the same answer; its gate answers
    400 with is_replay_attack false, the simple gate 400 with its own
    not-found message. *)
Theorem unknown_signature_rejected env w config s :
  storage_up env -> unknown env s -> table w !! s = None ->
  (forall expected asset ep ip ua,
     let p := PaymentTracker.validatePayment config s expected asset ep ip ua in
     (run env p w).1
     = Returned (rejected_first_use [Str "Transaction not found on blockchain"])
     /\ table (run env p w).2 = table w
     /\ (run env p (run env p w).2).1 = (run env p w).1)
  /\ (forall price expected ep req,
        nodeEnv config <> "development" ->
        headers req !! "x-payment-signature" = Some s -> s <> "" ->
        truthy (headers req !! "x-payment-network") = true ->
        truthy (headers req !! "x-payment-amount") = true ->
        Math_floor (price * LAMPORTS)%float = Some expected ->
        (run env (PaymentMiddleware.validatePaymentMiddleware
                    config price ep req) w).1
        = Returned (PaymentMiddleware.Rejected 400
            (Some [Str "Transaction not found on blockchain"]) false None))
  /\ (forall price ep req,
        nodeEnv config <> "development" ->
        headers req !! "x-payment-signature" = Some s -> s <> "" ->
        let p := SimplePaymentMiddleware.validateSOLPayment config price ep req in
        (run env p w).1
        = Returned (SimplePaymentMiddleware.Json 400
            [Str "Transaction not found or not confirmed"]
            [Str "Please wait for transaction confirmation or check the signature."])
        /\ table (run env p w).2 = table w).
Proof.
  intros Hdb Hrpc Hfresh.
  assert (Hpt : forall w', table w' !! s = None ->
            forall expected asset ep ip ua,
              let p := PaymentTracker.validatePayment
                         config s expected asset ep ip ua in
              (run env p w').1
              = Returned (rejected_first_use
                            [Str "Transaction not found on blockchain"])
              /\ table (run env p w').2 = table w').
  { intros w' Hw' expected asset ep ip ua p. subst p. unfold_tracker.
    split; crank with (rewrite ?Hdb, ?Hw', ?Hrpc); reflexivity. }
  split; [|split].
  - intros expected asset ep ip ua p.
    destruct (Hpt w Hfresh expected asset ep ip ua) as [Hr Ht].
    fold p in Hr, Ht. split; [exact Hr|]. split; [exact Ht|].
    rewrite Hr. apply Hpt. rewrite Ht. exact Hfresh.
  - intros price expected ep req Hprod Hsig Hne Hnet Hamt Hfl.
    destruct (Hpt w Hfresh expected "native" ep
                (PaymentMiddleware.clientIP req)
                (headers req !! "user-agent")) as [Hr _].
    rewrite (validatePaymentMiddleware_after env w config price ep req s
               expected _ Hprod Hsig Hne Hnet Hamt Hfl Hr).
    reflexivity.
  - intros price ep req Hprod Hsig Hne p. subst p. unfold_simple.
    apply String.eqb_neq in Hprod, Hne.
    rewrite Hprod, Hsig. cbn [truthy negb default]. rewrite Hne. cbn [negb].
    split; crank with (rewrite ?Hdb, ?Hfresh, ?Hrpc); reflexivity.
Qed.

Lemma unknown_signature_rejected_witness :
  storage_up healthy
  /\ unknown healthy "SIG_B"
  /\ table seen_world !! "SIG_B" = None
  /\ (run healthy (PaymentTracker.validatePayment production "SIG_B" 100000
                     "native" "POST /api/query" None None) seen_world).1
     = Returned (rejected_first_use [Str "Transaction not found on blockchain"]).
Proof.
  assert (Hunknown : unknown healthy "SIG_B") by (intros n c; reflexivity).
  assert (Hfresh : table seen_world !! "SIG_B" = None) by reflexivity.
  split; [exact healthy_storage_up|]. split; [exact Hunknown|].
  split; [exact Hfresh|].
  exact (proj1 (proj1 (unknown_signature_rejected healthy seen_world production
                         "SIG_B" healthy_storage_up Hunknown Hfresh)
                  100000 "native" "POST /api/query" None None)).
Defined.

(** X2: a transaction that failed on chain (no [meta], or [meta.err] set)
    is rejected by both gates with the transaction-failed error, whatever it
    moved, and nothing is stored. *)
Theorem failed_transaction_rejected env w config s tx :
  storage_up env -> on_chain env s tx -> table w !! s = None ->
  failed_on_chain tx = true ->
  (forall expected asset ep ip ua,
     let p := PaymentTracker.validatePayment config s expected asset ep ip ua in
     (run env p w).1
     = Returned (rejected_first_use [Str "Transaction failed on blockchain"])
     /\ table (run env p w).2 = table w)
  /\ (forall price ep req,
        nodeEnv config <> "development" ->
        headers req !! "x-payment-signature" = Some s -> s <> "" ->
        let p := SimplePaymentMiddleware.validateSOLPayment config price ep req in
        (run env p w).1
        = Returned (SimplePaymentMiddleware.Json 400
            [Str "Transaction failed on blockchain"]
            [Str "The provided transaction failed. Please make a successful payment."])
        /\ table (run env p w).2 = table w).
Proof.
  intros Hdb Hrpc Hfresh Hfail. unfold failed_on_chain in Hfail. split.
  - intros expected asset ep ip ua p. subst p. unfold_tracker.
    destruct (meta tx) as [m|] eqn:Hm;
      split; crank with (rewrite ?Hdb, ?Hfresh, ?Hrpc, ?Hm, ?Hfail);
      reflexivity.
  - intros price ep req Hprod Hsig Hne p. subst p. unfold_simple.
    apply String.eqb_neq in Hprod, Hne.
    rewrite Hprod, Hsig. cbn [truthy negb default]. rewrite Hne. cbn [negb].
    destruct (meta tx) as [m|] eqn:Hm;
      split; crank with (rewrite ?Hdb, ?Hfresh, ?Hrpc, ?Hm, ?Hfail);
      reflexivity.
Qed.

Lemma failed_transaction_rejected_witness :
  storage_up (node_with failed_transfer)
  /\ on_chain (node_with failed_transfer) "SIG_A" failed_transfer
  /\ table empty_world !! "SIG_A" = None
  /\ failed_on_chain failed_transfer = true
  /\ (run (node_with failed_transfer) tracker_request empty_world).1
     = Returned (rejected_first_use [Str "Transaction failed on blockchain"]).
Proof.
  assert (Hfresh : table empty_world !! "SIG_A" = None) by reflexivity.
  split; [apply node_with_storage_up|]. split; [apply node_with_on_chain|].
  split; [exact Hfresh|]. split; [reflexivity|].
  exact (proj1 (proj1 (failed_transaction_rejected (node_with failed_transfer)
                         empty_world production "SIG_A" failed_transfer
                         (node_with_storage_up _) (node_with_on_chain _)
                         Hfresh eq_refl)
                  100000 "native" "POST /api/query" None None)).
Defined.

(** X3: [validateSOLPayment] and a successful transaction, for a signature
    not in the table, with storage answering. When the configured receiver
    is a public key, the message has no address-table lookups and the
    receiver is not among its account keys, the answer is 400 with the
    wrong-address error. When the configured receiver is not a public key
    (the empty default included), or the message has address-table lookups,
    reading the keys raises and the answer is 500. Nothing is stored in
    either case. *)
Theorem wrong_recipient_rejected env w config s tx price ep req :
  storage_up env -> on_chain env s tx -> table w !! s = None ->
  failed_on_chain tx = false ->
  nodeEnv config <> "development" ->
  headers req !! "x-payment-signature" = Some s -> s <> "" ->
  let out := run env (SimplePaymentMiddleware.validateSOLPayment
                        config price ep req) w in
  (PublicKey_error (solana_receiverAddress config) = None ->
   addressTableLookups tx = 0%nat ->
   indexOf (staticAccountKeys tx) (solana_receiverAddress config) = None ->
   out.1 = Returned (SimplePaymentMiddleware.Json 400
                       [Str "Payment not sent to correct address"]
                       [Str "Payment must be sent to: ";
                        Str (solana_receiverAddress config)])
   /\ table out.2 = table w)
  /\ (is_Some (PublicKey_error (solana_receiverAddress config))
      \/ addressTableLookups tx <> 0%nat ->
      out.1 = Returned simple_500 /\ table out.2 = table w).
Proof.
  intros Hdb Hrpc Hfresh Hok Hprod Hsig Hne out. subst out.
  unfold failed_on_chain in Hok.
  destruct (meta tx) as [m|] eqn:Hm; [|discriminate Hok].
  unfold_simple.
  apply String.eqb_neq in Hprod, Hne.
  rewrite Hprod, Hsig. cbn [truthy negb default]. rewrite Hne. cbn [negb].
  split.
  - intros Hkey Hv0 Hidx.
    split;
      crank with (rewrite ?Hdb, ?Hfresh, ?Hrpc, ?Hm, ?Hok, ?Hkey, ?Hv0, ?Hidx);
      reflexivity.
  - intros Hbad.
    destruct (PublicKey_error (solana_receiverAddress config)) as [e|] eqn:Hkey.
    + split; crank with (rewrite ?Hdb, ?Hfresh, ?Hrpc, ?Hm, ?Hok, ?Hkey);
        reflexivity.
    + destruct Hbad as [[e He]|Hv0]; [discriminate He|].
      destruct (addressTableLookups tx) as [|n] eqn:Hn; [contradiction|].
      split; crank with (rewrite ?Hdb, ?Hfresh, ?Hrpc, ?Hm, ?Hok, ?Hkey, ?Hn);
        reflexivity.
Qed.

Lemma wrong_recipient_rejected_witness :
  storage_up (node_with transfer_elsewhere)
  /\ on_chain (node_with transfer_elsewhere) "SIG_A" transfer_elsewhere
  /\ table empty_world !! "SIG_A" = None
  /\ failed_on_chain transfer_elsewhere = false
  /\ (run (node_with transfer_elsewhere) simple_request empty_world).1
     = Returned (SimplePaymentMiddleware.Json 400
                   [Str "Payment not sent to correct address"]
                   [Str "Payment must be sent to: "; Str receiver_key]).
Proof.
  assert (Hfresh : table empty_world !! "SIG_A" = None) by reflexivity.
  split; [apply node_with_storage_up|]. split; [apply node_with_on_chain|].
  split; [exact Hfresh|]. split; [reflexivity|].
  refine (proj1 (proj1 (wrong_recipient_rejected (node_with transfer_elsewhere)
                          empty_world production "SIG_A" transfer_elsewhere
                          0.0001%float "POST /api/query" (request "SIG_A")
                          (node_with_storage_up _) (node_with_on_chain _)
                          Hfresh eq_refl _ eq_refl _) _ eq_refl eq_refl));
    [discriminate | discriminate | vm_compute; reflexivity].
Defined.

(** The two 500 answers: the receiver left at its empty default, and a
    version-0 transaction with an address-table lookup, each for a transfer
    that pays the price. *)
Example unreadable_keys_answer_500 :
  let unset := {| nodeEnv := "production"; solana_receiverAddress := "" |} in
  (run healthy
     (SimplePaymentMiddleware.validateSOLPayment unset 0.0001%float
        "POST /api/query" (request "SIG_A")) empty_world).1
  = Returned simple_500
  /\ (run (node_with transfer_v0) simple_request empty_world).1
     = Returned simple_500.
Proof. split; vm_compute; reflexivity. Qed.

(** X4: [validatePayment] accepts nothing. In every execution, whatever
    storage and the node answer, its result has isValid false and no INSERT
    is sent: once a transaction is found that succeeded on chain, reading
    its account keys raises, and every other path rejects. Outside
    development mode [validatePaymentMiddleware] and [validateUSDCPayment]
    therefore let no request through. *)
Theorem tracker_never_accepts config :
  (forall s expected asset ep ip ua,
     always (fun tr out =>
               accepted out = false
               /\ existsb (fun c => is_insert (call_op c)) tr = false)
       [] (PaymentTracker.validatePayment config s expected asset ep ip ua))
  /\ (forall price ep req,
        always (fun tr out =>
                  (nodeEnv config <> "development" -> proceeds out = false)
                  /\ existsb (fun c => is_insert (call_op c)) tr = false)
          [] (PaymentMiddleware.validatePaymentMiddleware config price ep req))
  /\ (forall usdc ep req,
        always (fun tr out =>
                  (nodeEnv config <> "development" -> proceeds out = false)
                  /\ existsb (fun c => is_insert (call_op c)) tr = false)
          [] (validateUSDCPayment config usdc ep req)).
Proof.
  assert (Hgate : forall price ep req,
    always (fun tr out =>
              (nodeEnv config <> "development" -> proceeds out = false)
              /\ existsb (fun c => is_insert (call_op c)) tr = false)
      [] (PaymentMiddleware.validatePaymentMiddleware config price ep req)).
  { intros price ep req. unfold_tracker. explore.
    all: split; [intros Hprod | reflexivity]; try reflexivity.
    all: apply String.eqb_neq in Hprod; congruence. }
  split; [|split].
  - intros s expected asset ep ip ua. unfold_tracker. explore.
    all: split; reflexivity.
  - exact Hgate.
  - intros usdc ep req. apply Hgate.
Qed.
(** ** What no execution does *)

(** X6: the gates always answer. Whatever storage and the node do,
    [validatePayment], [validatePaymentMiddleware] and [validateSOLPayment]
    return a value: every exception of a call is caught on the way. The 500
    answer of [validatePaymentMiddleware] is given for one reason only, a
    price whose amount in lamports is not a finite number, and then no call
    was made. The same holds with requests interleaved: under no schedule
    does a request in flight end in an exception. *)
Theorem gates_always_answer config price :
  (forall s expected asset ep ip ua,
     always (fun _ out => exists v, out = Returned v) []
       (PaymentTracker.validatePayment config s expected asset ep ip ua))
  /\ (forall ep req,
        always (fun tr out =>
                  exists resp, out = Returned resp
                    /\ (is_internal_error resp = true ->
                        Math_floor (price * LAMPORTS)%float = None /\ tr = []))
          [] (PaymentMiddleware.validatePaymentMiddleware config price ep req))
  /\ (forall ep req,
        always (fun _ out => exists resp, out = Returned resp) []
          (SimplePaymentMiddleware.validateSOLPayment config price ep req))
  /\ (forall env schedule w (reqs : list (string * Request)) i t e,
        (interleave env schedule
           (w, map (fun q => spawn (SimplePaymentMiddleware.validateSOLPayment
                                      config price q.1 q.2)) reqs)).2 !! i
        = Some t ->
        code t <> Throw e).
Proof.
  assert (Hsimple : forall ep req,
            always (fun _ out => exists resp, out = Returned resp) []
              (SimplePaymentMiddleware.validateSOLPayment config price ep req)).
  { intros ep req. unfold_simple. explore. all: eexists; reflexivity. }
  split; [|split; [|split]].
  - intros s expected asset ep ip ua. unfold_tracker. explore.
    all: eexists; reflexivity.
  - intros ep req. unfold_tracker. explore.
    all: eexists; split; [reflexivity|]; cbn; intros H;
      try discriminate H; auto.
  - exact Hsimple.
  - intros env schedule w reqs i t e Hi Hthrow.
    assert (Hlen : (i < length reqs)%nat).
    { apply lookup_lt_Some in Hi. rewrite interleave_length in Hi.
      cbn in Hi. now rewrite length_map in Hi. }
    destruct (lookup_lt_is_Some_2 reqs i Hlen) as [q Hq].
    destruct (interleave_always env
                (fun _ out => exists resp : SimplePaymentMiddleware.Response,
                                out = Returned resp)
                schedule
                (w, map (fun q => spawn (SimplePaymentMiddleware.validateSOLPayment
                                           config price q.1 q.2)) reqs)
                i (spawn (SimplePaymentMiddleware.validateSOLPayment
                            config price q.1 q.2)))
      as (t' & Ht' & Halways).
    + cbn. rewrite list_lookup_fmap, Hq. reflexivity.
    + cbn. apply Hsimple.
    + rewrite Hi in Ht'. injection Ht' as <-. rewrite Hthrow in Halways.
      cbn in Halways. destruct Halways as [resp H]. discriminate H.
Qed.

(** X7: [validatePayment] returns every database client it checks out. In
    every execution, failing statements included, each statement is sent on a
    client that is checked out, no client is released twice, and none is
    held when the result is returned. *)
Theorem clients_released config s expected asset ep ip ua :
  always (fun tr _ => clients_held 0 tr = Some 0%nat) []
    (PaymentTracker.validatePayment config s expected asset ep ip ua).
Proof. unfold_tracker. explore. all: reflexivity. Qed.

(** ** What a request can do to the table *)

(** The UPDATE, as a change of the one row. *)
Lemma insert_bump (t : gmap string Db.Row) s row now :
  t !! s = Some row ->
  <[s := Db.bump_usage now row]> t = alter (Db.bump_usage now) s t.
Proof.
  intros Hrow. apply map_eq. intros k. destruct (decide (k = s)) as [->|Hne].
  - rewrite lookup_insert_eq, lookup_alter_eq, Hrow. reflexivity.
  - rewrite lookup_insert_ne, lookup_alter_ne by congruence. reflexivity.
Qed.

(** X8: the effect of [validatePayment] on the table, in every environment,
    storage faults and RPC errors included. It never raises. When it accepts,
    the expected asset is native, the signature was not in the table and the
    table afterwards is the old one with the returned record's row added.
    When it rejects, the table is unchanged, or, on the replay path, the
    usage count of the signature went up by one: a rejection stores no
    row. *)
Theorem validatePayment_effect env w config s expected asset ep ip ua :
  let r := run env (PaymentTracker.validatePayment
                      config s expected asset ep ip ua) w in
  exists v, r.1 = Returned v
    /\ if PaymentTracker.isValid v then
         exists row, effect_on s (table w) (table r.2) (Stored row)
           /\ PaymentTracker.paymentRecord v
              = Some (PaymentTracker.record_of_row row)
           /\ asset = "native"
       else
         effect_on s (table w) (table r.2) Untouched
         \/ (effect_on s (table w) (table r.2) Counted
             /\ PaymentTracker.isFirstUse v = false).
Proof.
  intros r. subst r. unfold_tracker. fork.
  all: eexists; split; [reflexivity|]; cbn.
  all: try (left; reflexivity).
  all: right; split; [|reflexivity].
  all: split; [eauto|]; eexists; apply insert_bump; eassumption.
Qed.

Lemma run_reads_only {A} env (p : Prog A) :
  forall w, reads_only p -> table (run env p w).2 = table w.
Proof.
  induction p as [a|e|o k IH]; intros w Hp; cbn; try reflexivity.
  destruct o as [|[sig|v|sig]| | | |]; cbn in Hp |- *; try contradiction.
  - destruct (db_fault env (ticks w)); cbn; now rewrite IH.
  - destruct (db_fault env (ticks w)); cbn; now rewrite IH.
  - now rewrite IH.
  - now rewrite IH.
  - now rewrite IH.
  - now rewrite IH.
Qed.

Lemma lookupTransaction_reads_only sig n :
  reads_only (SimplePaymentMiddleware.lookupTransaction sig n).
Proof.
  induction n as [|n IH]; cbn; [exact I|].
  intros [[tx|]|e]; cbn; try exact I.
  intros [[tx|]|e]; cbn; try exact I.
  destruct n as [|n]; [exact I|].
  intros [[]|e]; [exact IH | exact I].
Qed.

(** X9: the answers of [validateSOLPayment] and their effect on the world,
    in every environment. It never raises. The 402 is the answer to a request
    whose signature header is missing or empty, and to no other; it and the
    development bypass leave the world as it was. A 400 and a 500 leave the
    table as it was; a 409 leaves it or counts one more use; and when the
    request goes on, the row of the signature was added or, the INSERT
    having failed, nothing was stored. No answer other than [next()] stores a
    row. *)
Theorem validateSOLPayment_effect env w config price ep req :
  let s := default "" (headers req !! "x-payment-signature") in
  let r := run env (SimplePaymentMiddleware.validateSOLPayment
                      config price ep req) w in
  match r.1 with
  | Returned (SimplePaymentMiddleware.Next None) =>
      nodeEnv config = "development" /\ r.2 = w
  | Returned (SimplePaymentMiddleware.Next (Some l)) =>
      s <> "" /\ SimplePaymentMiddleware.paymentSignature l = s
      /\ (effect_on s (table w) (table r.2) Untouched
          \/ exists row, effect_on s (table w) (table r.2) (Stored row))
  | Returned (SimplePaymentMiddleware.PaymentRequired receiver amount) =>
      truthy (headers req !! "x-payment-signature") = false
      /\ receiver = solana_receiverAddress config /\ amount = price
      /\ r.2 = w
  | Returned (SimplePaymentMiddleware.Json status _ _) =>
      s <> ""
      /\ ((status = 409
           /\ (effect_on s (table w) (table r.2) Untouched
               \/ effect_on s (table w) (table r.2) Counted))
          \/ ((status = 400 \/ status = 500)
              /\ effect_on s (table w) (table r.2) Untouched))
  | Thrown _ => False
  end.
Proof.
  intros s r. subst s r. unfold SimplePaymentMiddleware.validateSOLPayment.
  destruct (nodeEnv config =? "development")%string eqn:Hdev.
  { apply String.eqb_eq in Hdev. split; [exact Hdev | reflexivity]. }
  destruct (headers req !! "x-payment-signature") as [sig|] eqn:Hsig;
    [|cbn; auto].
  cbn [truthy default]. destruct (sig =? "")%string eqn:Hne; [cbn; auto|].
  apply String.eqb_neq in Hne.
  cbn [negb]. rewrite run_try_catch, run_bind.
  unfold SimplePaymentTracker.isSignatureUsed. hold.
  destruct (db_fault env (ticks w)) eqn:Hf0;
    [|destruct (table w !! sig) as [row0|] eqn:Hrow0].
  2: { unfold SimplePaymentTracker.recordReplayAttempt. fork.
       all: split; [exact Hne|].
       all: left; split; [reflexivity|].
       all: try (left; reflexivity).
       all: right; split; [eauto|]; eexists; apply insert_bump; eassumption. }
  all: hold; rewrite run_bind.
  all: match goal with
       | |- context [run ?e (SimplePaymentMiddleware.lookupTransaction ?a ?n)
                       ?w1] =>
           pose proof (run_reads_only e _ w1
                         (lookupTransaction_reads_only a n)) as Ht;
           destruct (run e (SimplePaymentMiddleware.lookupTransaction a n) w1)
             as [[[tx|]|?] w2]
       end.
  all: cbn in Ht; unfold SimplePaymentTracker.recordPayment, new_PublicKey,
         getAccountKeys.
  all: fork.
  all: rewrite ?Ht in *.
  all: split; [exact Hne|].
  all: try (right; split; [auto|reflexivity]).
  all: split; [reflexivity|].
  all: try (left; reflexivity).
  all: right; eexists; split; [assumption | reflexivity].
Qed.

(** X10: the answers of [validatePaymentMiddleware] and their effect on the
    world, in every environment. It never raises. The 402 is the answer to a
    request that lacks one of the three payment headers, and to no other; it
    carries the price in lamports unrounded, and leaves the world as it was,
    as do the development bypass and the 500. A rejection is a 409 with
    is_replay_attack true, the table unchanged or one more use counted, or a
    400 with is_replay_attack false, no payment_details and the table
    unchanged. The request goes on only with the row of its signature added,
    and [req.payment] is then the three headers as sent. *)
Theorem validatePaymentMiddleware_effect env w config price ep req :
  let s := default "" (headers req !! "x-payment-signature") in
  let r := run env (PaymentMiddleware.validatePaymentMiddleware
                      config price ep req) w in
  match r.1 with
  | Returned (PaymentMiddleware.Next payment) =>
      (nodeEnv config = "development" /\ r.2 = w)
      \/ (has_payment_headers req = true /\ payment = claimed req
          /\ exists row, effect_on s (table w) (table r.2) (Stored row))
  | Returned (PaymentMiddleware.PaymentRequired sol lamports receiver) =>
      has_payment_headers req = false
      /\ sol = price /\ lamports = (price * LAMPORTS)%float
      /\ receiver = solana_receiverAddress config
      /\ r.2 = w
  | Returned (PaymentMiddleware.Rejected status _ replay details) =>
      has_payment_headers req = true
      /\ ((status = 409 /\ replay = true
           /\ (effect_on s (table w) (table r.2) Untouched
               \/ effect_on s (table w) (table r.2) Counted))
          \/ (status = 400 /\ replay = false /\ details = None
              /\ effect_on s (table w) (table r.2) Untouched))
  | Returned (PaymentMiddleware.InternalError _) =>
      has_payment_headers req = true
      /\ Math_floor (price * LAMPORTS)%float = None /\ r.2 = w
  | Thrown _ => False
  end.
Proof.
  intros s r. subst s r. unfold_tracker. unfold has_payment_headers, claimed.
  destruct (nodeEnv config =? "development")%string eqn:Hdev.
  { apply String.eqb_eq in Hdev. left. split; [exact Hdev | reflexivity]. }
  destruct (truthy (headers req !! "x-payment-signature")) eqn:Hsig;
    [|cbn; auto].
  destruct (truthy (headers req !! "x-payment-network")) eqn:Hnet;
    [|cbn; auto].
  destruct (truthy (headers req !! "x-payment-amount")) eqn:Hamt;
    [|cbn; auto].
  cbn [negb orb andb].
  destruct (Math_floor (price * LAMPORTS)%float) as [expected|] eqn:Hfl;
    [|cbn; auto].
  fork.
  all: try (split; [reflexivity|]).
  all: try (right; repeat split; reflexivity).
  all: try (left; split; [reflexivity|]; split; [reflexivity|];
            left; reflexivity).
  all: left; split; [reflexivity|]; split; [reflexivity|].
  all: right; split; [eauto|]; eexists; apply insert_bump; eassumption.
Qed.

(** X11: [validatePaymentMiddleware] reads the x-payment-network and
    x-payment-amount headers for presence only. Two requests that differ in
    nothing but the values of these headers leave the same world behind and
    get the same answer, except that a request that goes on carries its own
    headers in [req.payment]: what the client claims to have paid, and on
    which network, is compared with nothing. *)
Theorem claimed_headers_ignored env w config price ep req1 req2 :
  same_but_claims req1 req2 ->
  let r1 := run env (PaymentMiddleware.validatePaymentMiddleware
                       config price ep req1) w in
  let r2 := run env (PaymentMiddleware.validatePaymentMiddleware
                       config price ep req2) w in
  r1.2 = r2.2
  /\ proceeds r1.1 = proceeds r2.1
  /\ (proceeds r1.1 = false -> r1.1 = r2.1)
  /\ (proceeds r1.1 = true -> nodeEnv config <> "development" ->
      r1.1 = Returned (PaymentMiddleware.Next (claimed req1))
      /\ r2.1 = Returned (PaymentMiddleware.Next (claimed req2))).
Proof.
  intros (Hsig & Hua & Hip & Hra & Hnet & Hamt) r1 r2. subst r1 r2.
  unfold PaymentMiddleware.validatePaymentMiddleware,
    PaymentMiddleware.clientIP, claimed.
  rewrite <- Hsig, <- Hua, <- Hip, <- Hra, <- Hnet, <- Hamt.
  destruct (nodeEnv config =? "development")%string eqn:Hdev.
  { apply String.eqb_eq in Hdev. cbn.
    split; [reflexivity|]. split; [reflexivity|].
    split; [discriminate|]. intros _ Hne. contradiction. }
  destruct (negb (truthy (headers req1 !! "x-payment-signature"))
            || negb (truthy (headers req1 !! "x-payment-network"))
            || negb (truthy (headers req1 !! "x-payment-amount"))).
  { cbn. repeat split; discriminate. }
  destruct (Math_floor (price * LAMPORTS)%float) as [expected|].
  2: { cbn. repeat split; discriminate. }
  rewrite !run_try_catch, !run_bind.
  destruct (run env (PaymentTracker.validatePayment _ _ _ _ _ _ _) w)
    as [[v|e] w1].
  2: { cbn. repeat split; discriminate. }
  destruct (PaymentTracker.isValid v); cbn.
  - repeat split; discriminate || reflexivity.
  - repeat split; discriminate || reflexivity.
Qed.

Lemma claimed_headers_ignored_witness :
  let honest := request "SIG_A" in
  let other :=
    {| headers := <["x-payment-signature" := "SIG_A"]>
                  (<["x-payment-network" := "bitcoin"]>
                  (<["x-payment-amount" := "0"]> ∅));
       ip := Some "203.0.113.7";
       remoteAddress := None |} in
  same_but_claims honest other
  /\ proceeds (run healthy (PaymentMiddleware.validatePaymentMiddleware
                              production 0.0001%float "POST /api/query" honest)
                 empty_world).1
     = proceeds (run healthy (PaymentMiddleware.validatePaymentMiddleware
                                production 0.0001%float "POST /api/query" other)
                   empty_world).1.
Proof.
  intros honest other.
  assert (H : same_but_claims honest other)
    by (repeat split; reflexivity).
  split; [exact H|].
  exact (proj1 (proj2 (claimed_headers_ignored healthy empty_world production
                         0.0001%float "POST /api/query" honest other H))).
Defined.

(** ** What is recorded for an accepted payment *)



(** What the database asks of the INSERT of [SimplePaymentTracker]: an
    amount within BIGINT, a client address that is an inet value, a
    signature of at most 88 characters and an endpoint of at most 500. *)
Lemma accepts_values inet0 s sol lamports addr ua ep :
  Math_floor (sol * LAMPORTS)%float = Some lamports ->
  Db.BIGINT_MIN <= lamports <= Db.BIGINT_MAX ->
  Db.inet_chars addr = true -> inet0 addr = true ->
  (String.length s <= 88)%nat -> (String.length ep <= 500)%nat ->
  Db.accepts inet0 (SimplePaymentTracker.values s sol "SOL" addr ua ep) = true.
Proof.
  intros Hfl [Hlo Hhi] Hchars Hinet Hs Hep.
  unfold Db.accepts, Db.bind_parameters, Db.row_error, Db.too_long,
    SimplePaymentTracker.values.
  cbn [Db.ins_amount Db.ins_usage_count Db.ins_ip_address Db.ins_signature
       Db.ins_network Db.ins_asset Db.ins_sender_address
       Db.ins_receiver_address Db.ins_api_endpoint default].
  rewrite Hfl, Hchars, Hinet.
  replace (lamports <? Db.BIGINT_MIN) with false by (symmetry; lia).
  replace (Db.BIGINT_MAX <? lamports) with false by (symmetry; lia).
  replace (88 <? String.length s)%nat with false
    by (symmetry; apply Nat.ltb_ge; lia).
  replace (500 <? String.length ep)%nat with false
    by (symmetry; apply Nat.ltb_ge; lia).
  reflexivity.
Qed.

(** X14: the row [validateSOLPayment] stores for an accepted payment, when
    the database takes it: the amount is within BIGINT, the client address
    is an inet value, the signature has at most 88 characters and the
    endpoint at most 500. Its sender and receiver are the two addresses
    written in [SimplePaymentTracker.recordPayment], whatever the configured
    receiver and whoever paid; its asset is SOL, its amount the gain in SOL
    converted back to lamports, its block time empty, its client address
    that of the request, and its first use, creation and update times the
    defaults of the columns, taken when the INSERT runs. When the database
    refuses the row, the request is let through all the same and nothing is
    stored. *)
Theorem simple_row_stored env w config s tx sol price ep req :
  storage_up env -> on_chain env s tx ->
  nodeEnv config <> "development" ->
  headers req !! "x-payment-signature" = Some s -> s <> "" ->
  table w !! s = None ->
  received_sol (solana_receiverAddress config) tx = Some sol ->
  (sol <? price)%float = false ->
  let out := run env (SimplePaymentMiddleware.validateSOLPayment
                        config price ep req) w in
  let addr := or_else (ip req) "unknown" in
  let v := SimplePaymentTracker.values s sol "SOL" addr
             (or_else (headers req !! "user-agent") "unknown") ep in
  proceeds_simple out.1 = true
  /\ (forall lamports,
        Math_floor (sol * LAMPORTS)%float = Some lamports ->
        Db.BIGINT_MIN <= lamports <= Db.BIGINT_MAX ->
        Db.inet_chars addr = true -> inet env addr = true ->
        (String.length s <= 88)%nat -> (String.length ep <= 500)%nat ->
        table out.2 = <[s := simple_row w env s lamports ep req]> (table w))
  /\ (Db.accepts (inet env) v = false -> table out.2 = table w).
Proof.
  intros Hdb Hrpc Hprod Hsig Hne Hfresh Hrec Hlt out addr v.
  pose proof (validateSOLPayment_fresh env w config s tx sol price ep req
                Hdb Hrpc Hprod Hsig Hne Hfresh Hrec) as H.
  cbv zeta in H. rewrite Hlt in H. destruct H as [Hr Hstore].
  split; [subst out; rewrite Hr; reflexivity|]. split.
  - intros lamports Hfl Hrange Hchars Hinet Hs Hep.
    destruct (Hstore (accepts_values (inet env) s sol lamports addr _ ep
                        Hfl Hrange Hchars Hinet Hs Hep))
      as (lamports' & Hfl' & Ht).
    rewrite Hfl in Hfl'. injection Hfl' as <-. exact Ht.
  - intros Hrefused. subst out v addr.
    destruct (received_sol_inv _ _ _ Hrec)
      as (m & i & Hm & He & Hkey & Hv0 & Hi & Hsol).
    unfold_simple.
    apply String.eqb_neq in Hprod, Hne.
    rewrite Hprod, Hsig. cbn [truthy negb default]. rewrite Hne. cbn [negb].
    unfold Db.accepts in Hrefused.
    crank with (rewrite ?Hdb, ?Hfresh, ?Hrpc, ?Hm, ?He, ?Hkey, ?Hv0, ?Hi,
                 ?Hsol, ?Hlt).
    destruct (Db.bind_parameters _ _); cbn; [reflexivity|].
    destruct (Db.row_error _); cbn; [reflexivity | discriminate Hrefused].
Qed.

Lemma simple_row_stored_witness :
  storage_up healthy
  /\ on_chain healthy "SIG_A" (transfer 150000)
  /\ table empty_world !! "SIG_A" = None
  /\ Db.receiver_address <$>
       table (run healthy simple_request empty_world).2 !! "SIG_A"
     = Some "FwJ3yH7AxZjxveFmbK74ZdLp6EaaLLoRffhiKVP3VX98"
  /\ Db.ip_address <$>
       table (run healthy simple_request empty_world).2 !! "SIG_A"
     = Some (Some "203.0.113.7").
Proof.
  assert (Hfresh : table empty_world !! "SIG_A" = None) by reflexivity.
  split; [exact healthy_storage_up|]. split; [exact healthy_on_chain|].
  split; [exact Hfresh|]. unfold simple_request.
  rewrite (proj1 (proj2 (simple_row_stored healthy empty_world production
             "SIG_A" (transfer 150000) 0.00015%float 0.0001%float
             "POST /api/query" (request "SIG_A")
             healthy_storage_up healthy_on_chain ltac:(discriminate)
             eq_refl ltac:(discriminate) Hfresh eq_refl eq_refl))
             150000 eq_refl ltac:(vm_compute; split; discriminate)
             eq_refl eq_refl ltac:(vm_compute; lia) ltac:(vm_compute; lia)).
  split; reflexivity.
Defined.

(** ** Rows over time *)

Lemma later_version_refl row : later_version row row.
Proof.
  exists 0, (Db.updated_at row). split; [lia|]. split; [|reflexivity].
  destruct row. unfold recount. cbn. f_equal. lia.
Qed.

Lemma later_version_trans r1 r2 r3 :
  later_version r1 r2 -> later_version r2 r3 -> later_version r1 r3.
Proof.
  intros (n1 & t1 & Hn1 & -> & H1) (n2 & t2 & Hn2 & -> & H2).
  exists (n1 + n2), t2. split; [lia|]. split.
  - unfold recount. cbn. f_equal. lia.
  - intros H0. assert (n1 = 0) as -> by lia. assert (n2 = 0) as -> by lia.
    rewrite (H2 eq_refl). cbn. exact (H1 eq_refl).
Qed.

Lemma later_version_bump now row : later_version row (Db.bump_usage now row).
Proof.
  exists 1, now. split; [lia|]. split; [reflexivity|]. intros H. lia.
Qed.

Lemma exec_sql_row inet now q t i s row :
  t !! s = Some row ->
  exists row', (Db.exec_sql inet now q t i).1.2 !! s = Some row'
               /\ later_version row row'.
Proof.
  intros Hs.
  assert (H0 : exists row', t !! s = Some row' /\ later_version row row')
    by (exists row; split; [exact Hs | apply later_version_refl]).
  destruct q as [sig|v|sig]; cbn; [exact H0| |].
  - destruct (Db.bind_parameters inet v); cbn; [exact H0|].
    destruct (Db.row_error v); cbn; [exact H0|].
    destruct (t !! Db.ins_signature v) eqn:Hv; cbn; [exact H0|].
    rewrite lookup_insert_ne; [exact H0|].
    intros Heq. rewrite Heq in Hv. rewrite Hv in Hs. discriminate Hs.
  - destruct (t !! sig) as [r|] eqn:Hsig; cbn; [|exact H0].
    destruct (Db.INTEGER_MAX <=? Db.usage_count r); cbn; [exact H0|].
    destruct (decide (sig = s)) as [->|Hne].
    + rewrite lookup_insert_eq. rewrite Hs in Hsig. injection Hsig as <-.
      eexists. split; [reflexivity | apply later_version_bump].
    + rewrite lookup_insert_ne by exact Hne. exact H0.
Qed.

Lemma exec_row env o w s row :
  table w !! s = Some row ->
  exists row', table (exec env o w).2 !! s = Some row'
               /\ later_version row row'.
Proof.
  intros Hs.
  assert (H0 : exists row', table w !! s = Some row' /\ later_version row row')
    by (exists row; split; [exact Hs | apply later_version_refl]).
  destruct o as [|q| | | |]; cbn; try exact H0.
  - destruct (db_fault env (ticks w)); exact H0.
  - destruct (db_fault env (ticks w)); [exact H0|].
    pose proof (exec_sql_row (inet env) (wall_clock env (ticks w)) q (table w)
                  (next_id w) s row Hs) as H.
    destruct (Db.exec_sql _ _ _ _ _) as [[r t] i]. exact H.
Qed.

Lemma resume_row {A} env j (st : World * list (Task A)) s row :
  table st.1 !! s = Some row ->
  exists row', table (resume env j st).1 !! s = Some row'
               /\ later_version row row'.
Proof.
  intros Hs.
  assert (H0 : exists row', table st.1 !! s = Some row'
                            /\ later_version row row')
    by (exists row; split; [exact Hs | apply later_version_refl]).
  unfold resume. destruct (st.2 !! j) as [[h [a|e|o k]]|]; try exact H0.
  pose proof (exec_row env o st.1 s row Hs) as H.
  destruct (exec env o st.1) as [r w']. exact H.
Qed.

Lemma interleave_row {A} env schedule :
  forall (st : World * list (Task A)) s row,
    table st.1 !! s = Some row ->
    exists row', table (interleave env schedule st).1 !! s = Some row'
                 /\ later_version row row'.
Proof.
  induction schedule as [|j schedule IH]; intros st s row Hs; cbn.
  - exists row. split; [exact Hs | apply later_version_refl].
  - destruct (resume_row env j st s row Hs) as (r1 & H1 & Hv1).
    destruct (IH (resume env j st) s _ H1) as (r2 & H2 & Hv2).
    exists r2. split; [exact H2|]. exact (later_version_trans _ _ _ Hv1 Hv2).
Qed.

(** X15: a row is written once. Whatever requests the gates handle, for
    whatever signatures, interleaved under any schedule and in any
    environment, a row that is in the table stays there with every column
    as it was stored, apart from the usage count, which can only have gone
    up, and [updated_at], which changes only when a use is counted. *)
Theorem rows_written_once env w s row config price schedule :
  table w !! s = Some row ->
  (forall reqs : list (string * Request),
     exists row',
       table (interleave env schedule
                (w, map (fun q => spawn
                           (SimplePaymentMiddleware.validateSOLPayment
                              config price q.1 q.2)) reqs)).1 !! s = Some row'
       /\ later_version row row')
  /\ (forall reqs : list (string * Request),
        exists row',
          table (interleave env schedule
                   (w, map (fun q => spawn
                              (PaymentMiddleware.validatePaymentMiddleware
                                 config price q.1 q.2)) reqs)).1 !! s
          = Some row'
          /\ later_version row row').
Proof.
  intros Hs. split; intros reqs; apply interleave_row; exact Hs.
Qed.

Lemma rows_written_once_witness :
  table seen_world !! "SIG_A" = Some row_A
  /\ exists row',
       table (interleave healthy simple_race
                (seen_world, [spawn simple_request; spawn simple_request])).1
         !! "SIG_A" = Some row'
       /\ later_version row_A row'.
Proof.
  assert (Hs : table seen_world !! "SIG_A" = Some row_A) by reflexivity.
  split; [exact Hs|].
  exact (proj1 (rows_written_once healthy seen_world "SIG_A" row_A production
                  0.0001%float simple_race Hs)
           [("POST /api/query", request "SIG_A");
            ("POST /api/query", request "SIG_A")]).
Defined.

Lemma confined_bind {A B} s (p : Prog A) (f : A -> Prog B) :
  confined s p -> (forall a, confined s (f a)) -> confined s (bind p f).
Proof.
  intros Hp Hf. induction p as [a|e|o k IH]; cbn in *; auto.
  destruct Hp as [Ho Hk]. split; [exact Ho|]. intros r. apply IH, Hk.
Qed.

Lemma confined_try_catch {A} s (p : Prog A) h :
  confined s p -> (forall e, confined s (h e)) -> confined s (try_catch p h).
Proof.
  intros Hp Hh. induction p as [a|e|o k IH]; cbn in *; auto.
  destruct Hp as [Ho Hk]. split; [exact Ho|]. intros r. apply IH, Hk.
Qed.

Lemma confined_try_finally {A} s (p : Prog A) f :
  confined s p -> confined s f -> confined s (try_finally p f).
Proof.
  intros Hp Hf. induction p as [a|e|o k IH]; cbn in *.
  - apply confined_bind; [exact Hf | intros; exact I].
  - apply confined_bind; [exact Hf | intros; exact I].
  - destruct Hp as [Ho Hk]. split; [exact Ho|]. intros r. apply IH, Hk.
Qed.

Lemma confined_await s o : writes_only s o -> confined s (await o).
Proof. intros Ho. split; [exact Ho|]. intros [x|e]; exact I. Qed.

Lemma confined_lookupTransaction s sig n :
  confined s (SimplePaymentMiddleware.lookupTransaction sig n).
Proof.
  induction n as [|n IH]; cbn; [exact I|].
  split; [exact I|]. intros [[tx|]|e]; cbn; try exact I.
  split; [exact I|]. intros [[tx|]|e]; cbn; try exact I.
  destruct n as [|n]; [exact I|].
  split; [exact I|]. intros [[]|e]; [exact IH | exact I].
Qed.

Lemma confined_validatePayment config s expected asset ep ip ua :
  confined s (PaymentTracker.validatePayment config s expected asset ep ip ua).
Proof.
  unfold_tracker.
  confine with (first [ apply confined_lookupTransaction
                      | apply confined_try_catch
                      | apply confined_try_finally
                      | apply confined_bind
                      | apply confined_await ]).
Qed.

Lemma confined_validatePaymentMiddleware config price ep req :
  confined (default "" (headers req !! "x-payment-signature"))
    (PaymentMiddleware.validatePaymentMiddleware config price ep req).
Proof.
  unfold PaymentMiddleware.validatePaymentMiddleware.
  confine with (first [ apply confined_validatePayment
                      | apply confined_try_catch
                      | apply confined_bind ]).
Qed.

Lemma confined_validateSOLPayment config price ep req :
  confined (default "" (headers req !! "x-payment-signature"))
    (SimplePaymentMiddleware.validateSOLPayment config price ep req).
Proof.
  unfold_simple.
  confine with (first [ apply confined_lookupTransaction
                      | apply confined_try_catch
                      | apply confined_try_finally
                      | apply confined_bind
                      | apply confined_await ]).
Qed.

Lemma exec_other env o w s s' :
  writes_only s o -> s' <> s ->
  table (exec env o w).2 !! s' = table w !! s'.
Proof.
  intros Ho Hne.
  destruct o as [|[sig|v|sig]| | | |]; cbn in *; try reflexivity.
  - destruct (db_fault env (ticks w)); reflexivity.
  - destruct (db_fault env (ticks w)); reflexivity.
  - unfold writes_only in Ho. cbn in Ho.
    destruct (db_fault env (ticks w)); [reflexivity|]. cbn.
    destruct (Db.bind_parameters _ v); cbn; [reflexivity|].
    destruct (Db.row_error v); cbn; [reflexivity|].
    destruct (table w !! Db.ins_signature v); cbn; [reflexivity|].
    apply lookup_insert_ne. congruence.
  - unfold writes_only in Ho. cbn in Ho.
    destruct (db_fault env (ticks w)); [reflexivity|]. cbn.
    destruct (table w !! sig) as [r|]; cbn; [|reflexivity].
    destruct (Db.INTEGER_MAX <=? Db.usage_count r); cbn; [reflexivity|].
    apply lookup_insert_ne. congruence.
Qed.

Lemma run_confined {A} env (p : Prog A) s s' :
  forall w, confined s p -> s' <> s ->
    table (run env p w).2 !! s' = table w !! s'.
Proof.
  induction p as [a|e|o k IH]; intros w Hp Hne; cbn; try reflexivity.
  destruct Hp as [Ho Hk].
  pose proof (exec_other env o w s s' Ho Hne) as H1.
  destruct (exec env o w) as [r w']. cbn in H1.
  rewrite (IH r w' (Hk r) Hne). exact H1.
Qed.

Lemma resume_elsewhere {A} env j (st : World * list (Task A)) s' :
  Forall (elsewhere s') st.2 ->
  Forall (elsewhere s') (resume env j st).2
  /\ table (resume env j st).1 !! s' = table st.1 !! s'.
Proof.
  intros Hall. unfold resume.
  destruct (st.2 !! j) as [[h [a|e|o k]]|] eqn:Hj; try (split; [exact Hall|reflexivity]).
  destruct (proj1 (Forall_lookup _ _) Hall j _ Hj) as (s & Hne & Ho & Hk).
  pose proof (exec_other env o st.1 s s' Ho Hne) as H1.
  destruct (exec env o st.1) as [r w']. cbn in H1 |- *.
  split; [|exact H1].
  apply Forall_insert; [exact Hall|]. exists s. split; [exact Hne | apply Hk].
Qed.

Lemma interleave_elsewhere {A} env schedule s' :
  forall st : World * list (Task A),
    Forall (elsewhere s') st.2 ->
    table (interleave env schedule st).1 !! s' = table st.1 !! s'.
Proof.
  induction schedule as [|j schedule IH]; intros st Hall; cbn; [reflexivity|].
  destruct (resume_elsewhere env j st s' Hall) as [Hall' Ht].
  etransitivity; [apply (IH (resume env j st) Hall') | exact Ht].
Qed.

Lemma gates_elsewhere config price ep req s' :
  headers req !! "x-payment-signature" <> Some s' ->
  exists s, s' <> s
    /\ confined s (PaymentMiddleware.validatePaymentMiddleware
                     config price ep req)
    /\ confined s (SimplePaymentMiddleware.validateSOLPayment
                     config price ep req).
Proof.
  intros Hne.
  pose proof (confined_validatePaymentMiddleware config price ep req) as H1.
  pose proof (confined_validateSOLPayment config price ep req) as H2.
  destruct (headers req !! "x-payment-signature") as [sig|] eqn:Hsig.
  - exists sig. split; [congruence|]. split; [exact H1 | exact H2].
  - exists (if (s' =? "")%string then "x" else "").
    split; [destruct (s' =? "")%string eqn:He;
            [apply String.eqb_eq in He; subst s'; discriminate
            |apply String.eqb_neq in He; exact He]|].
    unfold PaymentMiddleware.validatePaymentMiddleware,
      SimplePaymentMiddleware.validateSOLPayment.
    rewrite Hsig. cbn.
    destruct (nodeEnv config =? "development")%string; split; exact I.
Qed.

(** X16: a request touches no row but that of the signature it presents.
    Whatever the environment, [validatePayment] and both gates leave the
    row of every other signature exactly as it was (or absent), and so do
    any number of requests in flight under any schedule, none of which
    presents that signature. *)
Theorem other_signatures_untouched env config s' :
  (forall w s expected asset ep ip ua,
     s <> s' ->
     table (run env (PaymentTracker.validatePayment
                       config s expected asset ep ip ua) w).2 !! s'
     = table w !! s')
  /\ (forall w price ep req,
        headers req !! "x-payment-signature" <> Some s' ->
        table (run env (PaymentMiddleware.validatePaymentMiddleware
                          config price ep req) w).2 !! s'
        = table w !! s'
        /\ table (run env (SimplePaymentMiddleware.validateSOLPayment
                             config price ep req) w).2 !! s'
           = table w !! s')
  /\ (forall schedule w price (reqs : list (string * Request)),
        Forall (fun q => headers q.2 !! "x-payment-signature" <> Some s') reqs ->
        table (interleave env schedule
                 (w, map (fun q => spawn (SimplePaymentMiddleware.validateSOLPayment
                                            config price q.1 q.2)) reqs)).1 !! s'
        = table w !! s').
Proof.
  split; [|split].
  - intros w s expected asset ep ip ua Hne.
    apply (run_confined env _ s s' w); [apply confined_validatePayment|].
    congruence.
  - intros w price ep req Hne.
    destruct (gates_elsewhere config price ep req s' Hne) as (s & Hs & H1 & H2).
    split; apply (run_confined env _ s s' w); assumption.
  - intros schedule w price reqs Hall.
    apply (interleave_elsewhere env schedule s' (w, _)). cbn.
    apply Forall_fmap. eapply Forall_impl; [exact Hall|].
    intros q Hq. cbn.
    destruct (gates_elsewhere config price q.1 q.2 s' Hq) as (s & Hs & _ & H2).
    exists s. split; assumption.
Qed.

Lemma other_signatures_untouched_witness :
  "SIG_B" <> "SIG_A"
  /\ table (run healthy (PaymentTracker.validatePayment production "SIG_B"
                           100000 "native" "POST /api/query" None None)
              seen_world).2 !! "SIG_A"
     = table seen_world !! "SIG_A".
Proof.
  assert (Hne : "SIG_B" <> "SIG_A") by discriminate.
  split; [exact Hne|].
  exact (proj1 (other_signatures_untouched healthy production "SIG_A")
           seen_world "SIG_B" 100000 "native" "POST /api/query" None None Hne).
Defined.

(** ** The response body *)

Lemma get_assign_eq key value fields :
  get key (assign key value fields) = Some value.
Proof.
  induction fields as [|[k v] fields IH]; cbn.
  - now rewrite String.eqb_refl.
  - destruct (k =? key)%string eqn:Hk; cbn; rewrite Hk; [reflexivity|exact IH].
Qed.

Lemma get_assign_ne key key' value fields :
  key' <> key -> get key' (assign key value fields) = get key' fields.
Proof.
  intros Hne. induction fields as [|[k v] fields IH]; cbn.
  - apply String.eqb_neq in Hne. rewrite String.eqb_sym in Hne.
    now rewrite Hne.
  - destruct (k =? key)%string eqn:Hk; cbn.
    + apply String.eqb_eq in Hk. subst k.
      assert (H : (key =? key')%string = false)
        by (apply String.eqb_neq; congruence).
      now rewrite H.
    + destruct (k =? key')%string; [reflexivity | exact IH].
Qed.

Lemma assign_assign key value value' fields :
  assign key value (assign key value' fields) = assign key value fields.
Proof.
  induction fields as [|[k v] fields IH]; cbn.
  - now rewrite String.eqb_refl.
  - destruct (k =? key)%string eqn:Hk; cbn; rewrite Hk; [reflexivity|].
    now rewrite IH.
Qed.

Lemma length_substring n s :
  (String.length (String.substring 0 n s) <= n)%nat.
Proof.
  revert s. induction n as [|n IH]; intros [|c s]; cbn; try lia.
  specialize (IH s). lia.
Qed.

(** X18: the [res.json] installed by [enrichResponseWithPayment]. Without a
    verified payment in [res.locals] (the development bypass sets none) every
    body goes out as it came. With one, an object body gets the property
    payment_info, replacing one it may have had, and keeps every other
    property; nothing but the first 20 characters of the signature goes into
    it; and enriching twice is enriching once. *)
Theorem enrich_adds_payment_info l fields :
  SimplePaymentMiddleware.paymentVerified l = true ->
  (forall body, enrichResponseWithPayment None body = body)
  /\ (exists fields',
        enrichResponseWithPayment (Some l) (Some (JObject fields))
        = Some (JObject fields')
        /\ get "payment_info" fields' = Some (payment_info l)
        /\ forall key, key <> "payment_info" -> get key fields' = get key fields)
  /\ (forall body,
        enrichResponseWithPayment (Some l)
          (enrichResponseWithPayment (Some l) body)
        = enrichResponseWithPayment (Some l) body)
  /\ (exists shown,
        get "signature" match payment_info l with
                        | JObject info => info
                        | _ => []
                        end = Some (JString (shown ++ "..."))
        /\ (String.length shown <= 20)%nat
        /\ String.prefix shown (SimplePaymentMiddleware.paymentSignature l)
           = true).
Proof.
  intros Hv. split; [|split; [|split]].
  - intros [body|]; [destruct body|]; reflexivity.
  - exists (assign "payment_info" (payment_info l) fields). cbn. rewrite Hv.
    split; [reflexivity|]. split; [apply get_assign_eq|].
    intros key Hne. apply get_assign_ne, Hne.
  - intros [body|]; [|reflexivity].
    destruct body; cbn; try reflexivity.
    rewrite Hv. cbn. rewrite Hv, assign_assign. reflexivity.
  - exists (String.substring 0 20 (SimplePaymentMiddleware.paymentSignature l)).
    split; [reflexivity|]. split.
    + apply length_substring.
    + generalize (SimplePaymentMiddleware.paymentSignature l).
      generalize 20%nat. intros n. induction n as [|n IH]; intros [|c s]; cbn;
        try reflexivity.
      rewrite IH. destruct (Ascii.ascii_dec c c); [reflexivity | contradiction].
Qed.

Lemma enrich_adds_payment_info_witness :
  let l := {| SimplePaymentMiddleware.paymentVerified := true;
              SimplePaymentMiddleware.paymentType := "SOL";
              SimplePaymentMiddleware.paymentAmount := 0.00015%float;
              SimplePaymentMiddleware.paymentSignature :=
                "5VERv8NMvzbJMEkV8xnrLkEaWRtSz9CosKDYjCJjBRnbJLgp8uirBgmQpjKhoR4tjF3ZpRzrFmBV6UjKdiSZkQUW" |} in
  SimplePaymentMiddleware.paymentVerified l = true
  /\ get "payment_info"
       match enrichResponseWithPayment (Some l)
               (Some (JObject [("success", JBool true)])) with
       | Some (JObject fields') => fields'
       | _ => []
       end
     = Some (payment_info l).
Proof.
  intros l. split; [reflexivity|].
  destruct (proj1 (proj2 (enrich_adds_payment_info l [("success", JBool true)]
                            eq_refl))) as (fields' & He & Hg & _).
  rewrite He. exact Hg.
Defined.

(** ** The SQL check *)

Lemma prefix_app word s :
  String.prefix word s = true <-> exists post, s = (word ++ post)%string.
Proof.
  revert s. induction word as [|c word IH]; intros s; cbn.
  - split; [intros _; exists s; reflexivity | destruct s; reflexivity].
  - destruct s as [|d s]; [split; [discriminate | intros [post H]; discriminate]|].
    cbn. destruct (Ascii.ascii_dec c d) as [Heq|Hne]; [subst d|].
    + rewrite IH. split; intros [post H]; exists post.
      * now rewrite H.
      * now injection H.
    + split; [discriminate|]. intros [post H]. injection H as H _.
      congruence.
Qed.

Lemma includes_cons c s word :
  includes (String c s) word
  = String.prefix word (String c s) || includes s word.
Proof. reflexivity. Qed.

Lemma includes_occurs s word :
  includes s word = true <-> occurs_in word s.
Proof.
  induction s as [|c s IH].
  - change (includes "" word) with (String.prefix word "" || false).
    rewrite orb_false_r, prefix_app. split.
    + intros [post H]. exists "", post. exact H.
    + intros ([|d pre] & post & H); [exists post; exact H | discriminate H].
  - rewrite includes_cons, orb_true_iff, prefix_app, IH. split.
    + intros [[post H]|(pre & post & H)].
      * exists "", post. exact H.
      * exists (String c pre), post. cbn. now rewrite H.
    + intros ([|d pre] & post & H).
      * left. exists post. exact H.
      * right. exists pre, post. cbn in H. now injection H.
Qed.

Lemma toLowerCase_app a b :
  toLowerCase (a ++ b) = (toLowerCase a ++ toLowerCase b)%string.
Proof.
  induction a as [|c a IH]; simpl; [reflexivity | rewrite IH; reflexivity].
Qed.

Lemma string_app_assoc (a b c : string) :
  ((a ++ b) ++ c = a ++ (b ++ c))%string.
Proof.
  induction a as [|x a IH]; [reflexivity|].
  change (String x ((a ++ b) ++ c) = String x (a ++ (b ++ c)))%string.
  now rewrite IH.
Qed.

Lemma validateSolanaQuery_rejects sql :
  (validateSolanaQuery sql).1 = false
  <-> exists keyword, In keyword dangerousKeywords
                      /\ occurs_in keyword (toLowerCase sql).
Proof.
  unfold validateSolanaQuery.
  destruct (existsb _ dangerousKeywords) eqn:He; cbn.
  - split; [intros _|reflexivity].
    apply existsb_exists in He as (keyword & Hin & Hinc).
    exists keyword. split; [exact Hin | apply includes_occurs, Hinc].
  - split; [discriminate|]. intros (keyword & Hin & Hocc).
    assert (Ht : existsb (fun keyword => includes (toLowerCase sql) keyword)
                   dangerousKeywords = true)
      by (apply existsb_exists; exists keyword;
          split; [exact Hin | apply includes_occurs, Hocc]).
    rewrite Ht in He. discriminate He.
Qed.

(** X19: [validateSolanaQuery] rejects a text exactly when one of the seven
    words occurs in its lower case, anywhere, also inside a longer word; its
    one error says that only SELECT is allowed. Hence a text that contains a
    rejected text is rejected. An accepted text carries no error. *)
Theorem validateSolanaQuery_keyword_anywhere sql :
  ((validateSolanaQuery sql).1 = false
   <-> exists keyword, In keyword dangerousKeywords
                       /\ occurs_in keyword (toLowerCase sql))
  /\ ((validateSolanaQuery sql).1 = false ->
      (validateSolanaQuery sql).2 = Some "Only SELECT queries are allowed"
      /\ forall pre post,
           (validateSolanaQuery (pre ++ sql ++ post)).1 = false)
  /\ ((validateSolanaQuery sql).1 = true -> (validateSolanaQuery sql).2 = None).
Proof.
  split; [apply validateSolanaQuery_rejects|]. split.
  - intros Hrej. split.
    + unfold validateSolanaQuery in *.
      destruct (existsb _ dangerousKeywords); [reflexivity | discriminate].
    + intros pre post. apply validateSolanaQuery_rejects.
      apply validateSolanaQuery_rejects in Hrej
        as (keyword & Hin & (a & b & Hocc)).
      exists keyword. split; [exact Hin|].
      exists (toLowerCase pre ++ a)%string, (b ++ toLowerCase post)%string.
      rewrite !toLowerCase_app, Hocc, !string_app_assoc. reflexivity.
  - unfold validateSolanaQuery.
    destruct (existsb _ dangerousKeywords); [discriminate | reflexivity].
Qed.

Lemma validateSolanaQuery_keyword_anywhere_witness :
  (validateSolanaQuery "UPDATE t SET x = 1").1 = false
  /\ (validateSolanaQuery
        ("SELECT last_" ++ "UPDATE t SET x = 1" ++ "d_at FROM accounts")).1
     = false.
Proof.
  assert (H : (validateSolanaQuery "UPDATE t SET x = 1").1 = false)
    by reflexivity.
  split; [exact H|].
  exact (proj2 (proj1 (proj2 (validateSolanaQuery_keyword_anywhere
                                "UPDATE t SET x = 1")) H)
           "SELECT last_" "d_at FROM accounts").
Defined.

(** ** The paid routes *)

(** X20: on the paid query routes the payment is spent before the SQL is
    looked at. A request with a fresh, sufficient payment (a transaction
    whose keys the gate can read, a row the database accepts) whose body
    has no SQL, or SQL that [validateSolanaQuery] rejects, is answered 400
    by the handler, with the payment verified and its signature stored; the
    same signature sent again, with whatever SQL and on whichever of the
    routes, is answered 409 by the gate. *)
Theorem payment_spent_before_sql_checked
    env w config s tx sol price ep req sql :
  storage_up env -> on_chain env s tx ->
  nodeEnv config <> "development" ->
  headers req !! "x-payment-signature" = Some s -> s <> "" ->
  table w !! s = None ->
  received_sol (solana_receiverAddress config) tx = Some sol ->
  (sol <? price)%float = false ->
  Db.accepts (inet env)
    (SimplePaymentTracker.values s sol "SOL" (or_else (ip req) "unknown")
       (or_else (headers req !! "user-agent") "unknown") ep) = true ->
  truthy sql = false \/ (validateSolanaQuery (default "" sql)).1 = false ->
  let r := run env (postQuery config price ep req sql) w in
  (exists error locals, r.1 = Returned (BadRequest (Some error) (Some locals))
     /\ SimplePaymentMiddleware.paymentVerified locals = true)
  /\ is_Some (table r.2 !! s)
  /\ forall price' ep' req' sql',
       headers req' !! "x-payment-signature" = Some s ->
       (run env (postQuery config price' ep' req' sql') r.2).1
       = Returned (Gate (SimplePaymentMiddleware.Json 409
           [Str "Payment signature already used (replay attack prevented)"]
           [Str "Each payment can only be used once. Please make a new payment."])).
Proof.
  intros Hdb Hrpc Hprod Hsig Hne Hfresh Hrec Hlt Hacc Hsql r. subst r.
  pose proof (validateSOLPayment_fresh env w config s tx sol price ep req
                Hdb Hrpc Hprod Hsig Hne Hfresh Hrec) as H.
  cbv zeta in H. rewrite Hlt in H. destruct H as [Hr Hrow].
  destruct (Hrow Hacc) as (lamports & _ & Ht).
  unfold postQuery. rewrite run_bind.
  destruct (run env (SimplePaymentMiddleware.validateSOLPayment _ _ _ _) w)
    as [out w1] eqn:Hrun.
  cbn in Hr, Ht. subst out. cbn.
  assert (Hin : table w1 !! s = Some (simple_row w env s lamports ep req))
    by (rewrite Ht; apply lookup_insert_eq).
  split; [|split].
  - unfold queryHandler. destruct Hsql as [Hnone|Hbad].
    + rewrite Hnone. cbn. eexists _, _. split; reflexivity.
    + destruct (truthy sql); cbn; [|eexists _, _; split; reflexivity].
      rewrite Hbad. cbn. unfold validateSolanaQuery in Hbad |- *.
      destruct (existsb _ dangerousKeywords); [|discriminate Hbad].
      cbn. eexists _, _. split; reflexivity.
  - rewrite Hin. eauto.
  - intros price' ep' req' sql' Hsig'. rewrite run_bind.
    destruct (validateSOLPayment_replay env w1 config s _ price' ep' req'
                Hdb Hprod Hsig' Hne Hin ltac:(reflexivity)) as (Hr' & _).
    destruct (run env (SimplePaymentMiddleware.validateSOLPayment _ _ _ _) w1)
      as [out' w3]. cbn in Hr'. subst out'. reflexivity.
Qed.

Lemma payment_spent_before_sql_checked_witness :
  let sql := Some "SELECT created_at FROM solana.transactions" in
  storage_up healthy
  /\ on_chain healthy "SIG_A" (transfer 150000)
  /\ table empty_world !! "SIG_A" = None
  /\ (validateSolanaQuery (default "" sql)).1 = false
  /\ is_Some (table (run healthy (postQuery production 0.0001%float
                                    "POST /api/query" (request "SIG_A") sql)
                       empty_world).2 !! "SIG_A").
Proof.
  intros sql.
  assert (Hfresh : table empty_world !! "SIG_A" = None) by reflexivity.
  assert (Hbad : (validateSolanaQuery (default "" sql)).1 = false)
    by reflexivity.
  split; [exact healthy_storage_up|]. split; [exact healthy_on_chain|].
  split; [exact Hfresh|]. split; [exact Hbad|].
  exact (proj1 (proj2 (payment_spent_before_sql_checked healthy empty_world
                         production "SIG_A" (transfer 150000) 0.00015%float
                         0.0001%float "POST /api/query"
                         (request "SIG_A") sql
                         healthy_storage_up healthy_on_chain
                         ltac:(discriminate) eq_refl ltac:(discriminate)
                         Hfresh eq_refl eq_refl ltac:(vm_compute; reflexivity)
                         (or_intror Hbad)))).
Defined.

(** ** Every request is answered *)

(** X22: a request makes a bounded number of calls, whatever they answer:
    [validatePayment] and its gate at most 8, [validateSOLPayment] at most 7
    (one SELECT, two rounds of two reads with one pause between them, one
    INSERT). So among requests interleaved in any environment, one that the
    schedule resumes 7 times has answered: no wait on another request and
    no loop keeps it from finishing. *)
Theorem requests_finish config price :
  (forall s expected asset ep ip ua,
     within 8 (PaymentTracker.validatePayment config s expected asset ep ip ua))
  /\ (forall ep req,
        within 8 (PaymentMiddleware.validatePaymentMiddleware
                    config price ep req)
        /\ within 7 (SimplePaymentMiddleware.validateSOLPayment
                       config price ep req))
  /\ (forall env schedule w (reqs : list (string * Request)) i,
        (i < length reqs)%nat -> (7 <= turns i schedule)%nat ->
        exists t resp,
          (interleave env schedule
             (w, map (fun q => spawn (SimplePaymentMiddleware.validateSOLPayment
                                        config price q.1 q.2)) reqs)).2 !! i
          = Some t
          /\ code t = Ret resp).
Proof.
  assert (Hsimple : forall ep req,
            within 7 (SimplePaymentMiddleware.validateSOLPayment
                        config price ep req)).
  { intros ep req. unfold_simple.
    repeat (cbn;
      match goal with
      | |- forall r : Outcome _, _ => intros [?|?]
      | |- within _ ?p =>
          match p with
          | context [match ?x with _ => _ end] => destruct x eqn:?
          | context [if ?x then _ else _] => destruct x eqn:?
          end
      end); exact I. }
  split; [|split].
  - intros s expected asset ep ip ua. apply within_validatePayment.
  - intros ep req. split; [|apply Hsimple]. unfold_tracker.
    repeat (cbn;
      match goal with
      | |- forall r : Outcome _, _ => intros [?|?]
      | |- within _ ?p =>
          match p with
          | context [match ?x with _ => _ end] => destruct x eqn:?
          | context [if ?x then _ else _] => destruct x eqn:?
          end
      end); exact I.
  - intros env schedule w reqs i Hi Hturns.
    destruct (lookup_lt_is_Some_2 reqs i Hi) as [q Hq].
    pose (st := (w, map (fun q => spawn (SimplePaymentMiddleware.validateSOLPayment
                                           config price q.1 q.2)) reqs)).
    assert (Hst : st.2 !! i
                  = Some (spawn (SimplePaymentMiddleware.validateSOLPayment
                                   config price q.1 q.2)))
      by (cbn; rewrite list_lookup_fmap, Hq; reflexivity).
    destruct (interleave_within env schedule st i _ 7%nat Hst (Hsimple _ _))
      as (t & Ht & Hw).
    replace (7 - turns i schedule)%nat with 0%nat in Hw by lia.
    exists t. fold st. destruct (code t) as [resp|e|o k] eqn:Hc.
    + exists resp. split; [exact Ht | reflexivity].
    + exfalso.
      destruct (interleave_always env
                  (fun _ out => exists resp : SimplePaymentMiddleware.Response,
                                  out = Returned resp)
                  schedule st i _ Hst) as (t' & Ht' & Halways).
      * cbn. unfold_simple. explore. all: eexists; reflexivity.
      * rewrite Ht in Ht'. injection Ht' as <-. rewrite Hc in Halways.
        cbn in Halways. destruct Halways as [resp H]. discriminate H.
    + contradiction.
Qed.

Lemma requests_finish_witness :
  (0 < length [("POST /api/query", request "SIG_A")])%nat
  /\ (7 <= turns 0 [0; 0; 0; 0; 0; 0; 0]%nat)%nat
  /\ exists t resp,
       (interleave rpc_down [0; 0; 0; 0; 0; 0; 0]%nat
          (empty_world,
           map (fun q => spawn (SimplePaymentMiddleware.validateSOLPayment
                                  production 0.0001%float q.1 q.2))
             [("POST /api/query", request "SIG_A")])).2 !! 0%nat
       = Some t
       /\ code t = Ret resp.
Proof.
  assert (H1 : (0 < length [("POST /api/query", request "SIG_A")])%nat)
    by (cbn; lia).
  assert (H2 : (7 <= turns 0 [0; 0; 0; 0; 0; 0; 0]%nat)%nat)
    by (vm_compute; lia).
  split; [exact H1|]. split; [exact H2|].
  exact (proj2 (proj2 (requests_finish production 0.0001%float))
           rpc_down [0; 0; 0; 0; 0; 0; 0]%nat empty_world
           [("POST /api/query", request "SIG_A")] 0%nat H1 H2).
Defined.

(** ** The configuration the gates run with *)

(** X23: payment is enforced only when NODE_ENV is set to something other
    than development. The configured mode is development exactly when
    NODE_ENV is unset, empty or the string development itself (any other
    value, Development or dev included, is not); and with NODE_ENV unset or
    empty both gates let every request through without a call to storage
    or to the node. *)
Theorem unset_node_env_disables_payment (process_env : gmap string string) :
  (nodeEnv (ConfigIndex.config process_env) = "development"
   <-> truthy (process_env !! "NODE_ENV") = false
       \/ process_env !! "NODE_ENV" = Some "development")
  /\ (truthy (process_env !! "NODE_ENV") = false ->
      forall env price ep req w,
        run env (SimplePaymentMiddleware.validateSOLPayment
                   (ConfigIndex.config process_env) price ep req) w
        = (Returned (SimplePaymentMiddleware.Next None), w)
        /\ proceeds (run env (PaymentMiddleware.validatePaymentMiddleware
                                (ConfigIndex.config process_env) price ep req)
                       w).1 = true
        /\ (run env (PaymentMiddleware.validatePaymentMiddleware
                       (ConfigIndex.config process_env) price ep req) w).2 = w).
Proof.
  assert (Hmode : nodeEnv (ConfigIndex.config process_env) = "development"
                  <-> truthy (process_env !! "NODE_ENV") = false
                      \/ process_env !! "NODE_ENV" = Some "development").
  { unfold ConfigIndex.config, or_else, truthy. cbn.
    destruct (process_env !! "NODE_ENV") as [v|]; [|split; auto].
    destruct (v =? "")%string eqn:Hv; cbn.
    - split; auto.
    - split.
      + intros ->. right. reflexivity.
      + intros [H|H]; [discriminate H | now injection H]. }
  split; [exact Hmode|].
  intros Hunset env price ep req w.
  assert (Hdev : nodeEnv (ConfigIndex.config process_env) = "development")
    by (apply Hmode; left; exact Hunset).
  unfold SimplePaymentMiddleware.validateSOLPayment,
    PaymentMiddleware.validatePaymentMiddleware.
  rewrite Hdev. repeat split; reflexivity.
Qed.

Lemma unset_node_env_disables_payment_witness :
  let process_env : gmap string string := {[ "SOLANA_RECEIVER" := "R" ]} in
  truthy (process_env !! "NODE_ENV") = false
  /\ run storage_down (SimplePaymentMiddleware.validateSOLPayment
                         (ConfigIndex.config process_env) 0.0001%float
                         "POST /api/query" bare_request) empty_world
     = (Returned (SimplePaymentMiddleware.Next None), empty_world).
Proof.
  intros process_env.
  assert (H : truthy (process_env !! "NODE_ENV") = false) by reflexivity.
  split; [exact H|].
  exact (proj1 (proj2 (unset_node_env_disables_payment process_env) H
                  storage_down 0.0001%float "POST /api/query" bare_request
                  empty_world)).
Defined.
